(** * RenderMan node descriptions

    A shallow embedding of [rfb_utils/node_desc_base/node_desc_param.py] and
    [rfb_utils/node_desc_base/node_desc.py]: the value coercion helpers, the
    parameter objects built from args (XML) and JSON data, and the node
    aggregate with its post-parse passes.

    Conventions.
    - Python values are terms of [pyval]; a Python call that may raise
      returns a [result], [Raise] carrying the exception.
    - An instance's attributes are its [__dict__], an insertion-ordered
      dictionary: [hasattr] is a successful lookup, [setattr] an update.
    - Python's own builtins that read text ([eval], [int], [float]) are
      parameters of the development.
    - A [string] is a Python [str] whose characters are all below U+0100,
      one [ascii] for each character (its code point). The character
      classes of the development ([is_space], [is_digit], the letters of
      [lower_char], what [repr] escapes) are Python's on these characters,
      and the statements are about these texts.
    - [eval] runs its text as code. The record [builtins] has the [eval] of
      texts whose evaluation comes back, with a value or an exception, and
      leaves the names of the module as they are; the module [Interp] has
      [safe_value_eval] without this assumption, and
      [safe_value_eval_refines] relates the two. *)

From Stdlib Require Import ZArith Ascii String Floats.PrimFloat Floats.SpecFloat Floats.FloatOps.
From stdpp Require Import strings list.

Set Default Proof Using "Type".

(** ** Exceptions and results *)

Inductive exc_class :=
| ValueError | TypeError | KeyError | IndexError | AttributeError
| OverflowError | MemoryError | NodeDescError | NodeDescIgnore
| OtherException (name : string).

(** An exception: its class and [str(e)]. *)
Record exc := Exc { exc_cls : exc_class; exc_msg : string }.

Inductive result (A : Type) :=
| Ret (a : A)
| Raise (e : exc).
Arguments Ret {A} a.
Arguments Raise {A} e.

(** Sequencing: the first exception raised ends the computation. *)
Definition bind {A B} (m : result A) (k : A → result B) : result B :=
  match m with Ret a => k a | Raise e => Raise e end.

Notation "'let!' x ':=' m 'in' k" := (bind m (λ x, k))
  (at level 10, x name, m at level 100, k at level 200,
   format "'[v' 'let!'  x  ':='  m  'in' '/' k ']'").
Notation "'let!' ' p ':=' m 'in' k" := (bind m (λ p, k))
  (at level 10, p strict pattern, m at level 100, k at level 200,
   format "'[v' 'let!'  ' p  ':='  m  'in' '/' k ']'").

Definition raise {A} (c : exc_class) (msg : string) : result A :=
  Raise (Exc c msg).

Definition is_class (c : exc_class) (e : exc) : bool :=
  match c, exc_cls e with
  | ValueError, ValueError | TypeError, TypeError | KeyError, KeyError
  | IndexError, IndexError | AttributeError, AttributeError
  | OverflowError, OverflowError | MemoryError, MemoryError
  | NodeDescError, NodeDescError | NodeDescIgnore, NodeDescIgnore => true
  | _, _ => false
  end.

(** [try: body / except <catches>: handler]. *)
Definition try_except {A} (body : result A) (catches : exc → bool)
    (handler : exc → result A) : result A :=
  match body with
  | Ret a => Ret a
  | Raise e => if catches e then handler e else Raise e
  end.

Definition returns {A} (r : result A) : Prop := ∃ a, r = Ret a.
Definition raises {A} (c : exc_class) (r : result A) : Prop :=
  ∃ msg, r = Raise (Exc c msg).

(** ** Python values *)

#[warnings="-register-all"]
Inductive pyval :=
| VNone
| VBool (b : bool)
| VInt (z : Z)
| VFloat (f : float)
| VStr (s : string)
| VTuple (l : list pyval)
| VList (l : list pyval)
| VDict (kvs : list (string * pyval))     (* insertion-ordered, str keys *)
| VType (name : string)                   (* a class object: int, float, ... *)
| VCondvisFunc                            (* the caller's build_condvis_func *)
| VObj (id : string).
(** [VObj] stands for an object of any other class. The model gives it the
    behaviour of a plain [object()]: truthy, refused by [int()] and by the
    ordering operators, and no [str]. *)

(** ** Characters and strings *)

Definition dquote : ascii := "034"%char.
Definition squote : ascii := "'"%char.
Definition backslash : ascii := "\"%char.

Definition ascii_eqb (a b : ascii) : bool := bool_decide (a = b).

(** [str.isspace] on one character, which is also the class [\s] of [re]
    and what [split()] and [strip()] take for white space: below U+0100,
    the characters 9 to 13 and 28 to 32, U+0085 and U+00A0. *)
Definition is_space (c : ascii) : bool :=
  let n := nat_of_ascii c in
  ((9 <=? n) && (n <=? 13) || (28 <=? n) && (n <=? 32) || (n =? 133) || (n =? 160))%nat.

(** The class [\d] of [re], the decimal digits: below U+0100 they are the
    ten ASCII digits. *)
Definition is_digit (c : ascii) : bool :=
  let n := nat_of_ascii c in ((48 <=? n) && (n <=? 57))%nat.

(** [c.lower()]: the capital letters are A to Z and, from U+00C0 to U+00DE,
    all but the multiplication sign. *)
Definition lower_char (c : ascii) : ascii :=
  let n := nat_of_ascii c in
  if ((65 <=? n) && (n <=? 90) ||
      (192 <=? n) && (n <=? 222) && negb (n =? 215))%nat
  then ascii_of_nat (n + 32) else c.

(** [c.upper()] where the capital is a character below U+0100: the letters
    a to z and, from U+00E0 to U+00FE, all but the division sign. (The
    capitals of U+00B5, U+00DF and U+00FF are not below U+0100; the code
    capitalizes the texts ['true'] and ['false'] only.) *)
Definition upper_char (c : ascii) : ascii :=
  let n := nat_of_ascii c in
  if ((97 <=? n) && (n <=? 122) ||
      (224 <=? n) && (n <=? 254) && negb (n =? 247))%nat
  then ascii_of_nat (n - 32) else c.

Fixpoint str_map (f : ascii → ascii) (s : string) : string :=
  match s with
  | EmptyString => EmptyString
  | String c s' => String (f c) (str_map f s')
  end.

(** [s.lower()] and [s.capitalize()]. *)
Definition str_lower (s : string) : string := str_map lower_char s.
Definition str_capitalize (s : string) : string :=
  match s with
  | EmptyString => EmptyString
  | String c s' => String (upper_char c) (str_lower s')
  end.

(** Every character of the text satisfies [p]. *)
Fixpoint all_chars (p : ascii → bool) (s : string) : bool :=
  match s with
  | EmptyString => true
  | String c s' => p c && all_chars p s'
  end.

(** [c in s] for a one-character [c]. *)
Fixpoint has_char (c : ascii) (s : string) : bool :=
  match s with
  | EmptyString => false
  | String d s' => ascii_eqb c d || has_char c s'
  end.

(** [s.replace(c, '')]: every occurrence of the character is dropped. *)
Fixpoint remove_char (c : ascii) (s : string) : string :=
  match s with
  | EmptyString => EmptyString
  | String d s' => if ascii_eqb c d then remove_char c s' else String d (remove_char c s')
  end.

(** [s.replace(c, d)] for one-character [c] and [d]. *)
Definition replace_char (c d : ascii) (s : string) : string :=
  str_map (λ x, if ascii_eqb c x then d else x) s.

Definition str_eqb (a b : string) : bool := bool_decide (a = b).

(** [pre ++ s ++ post]: [s] occurs in the text. *)
Definition occurs_in (s text : string) : Prop :=
  ∃ pre post, text = pre +:+ s +:+ post.

(** [s.startswith(pre)]. *)
Fixpoint starts_with (pre s : string) : bool :=
  match pre, s with
  | EmptyString, _ => true
  | String c pre', String d s' => ascii_eqb c d && starts_with pre' s'
  | String _ _, EmptyString => false
  end.

(** [sub in s] for strings. *)
Fixpoint str_contains (sub s : string) : bool :=
  starts_with sub s ||
  match s with
  | EmptyString => false
  | String _ s' => str_contains sub s'
  end.

(** ** Numbers

    Python compares an [int] with a [float] exactly; the float is read
    through its IEEE 754 decomposition [(-1)^s * m * 2^e]. *)

Inductive pynum := NInt (z : Z) | NFloat (f : float).

Definition as_num (v : pyval) : option pynum :=
  match v with
  | VBool b => Some (NInt (if b then 1 else 0))
  | VInt z => Some (NInt z)
  | VFloat f => Some (NFloat f)
  | _ => None
  end.

(** [z ?= f], [None] when [f] is a NaN. *)
Definition Z_compare_float (z : Z) (f : float) : option comparison :=
  match Prim2SF f with
  | S754_nan => None
  | S754_infinity s => Some (if s then Gt else Lt)
  | S754_zero _ => Some (z ?= 0)%Z
  | S754_finite s m e =>
      let v := if s then Z.neg m else Z.pos m in
      Some (if (0 <=? e)%Z then (z ?= v * 2 ^ e)%Z else (z * 2 ^ (- e) ?= v)%Z)
  end.

(** [a < b] on numbers. *)
Definition num_ltb (a b : pynum) : bool :=
  match a, b with
  | NInt x, NInt y => (x <? y)%Z
  | NFloat x, NFloat y => PrimFloat.ltb x y
  | NInt x, NFloat y =>
      match Z_compare_float x y with Some Lt => true | _ => false end
  | NFloat x, NInt y =>
      match Z_compare_float y x with Some Gt => true | _ => false end
  end.

(** [a < b] and [a > b] where [b] is a number: a [TypeError] unless [a] is
    one too. *)
Definition py_lt (a : pyval) (b : pynum) : result bool :=
  match as_num a with
  | Some x => Ret (num_ltb x b)
  | None => raise TypeError "'<' not supported"
  end.

Definition py_gt (a : pyval) (b : pynum) : result bool :=
  match as_num a with
  | Some x => Ret (num_ltb b x)
  | None => raise TypeError "'>' not supported"
  end.

Definition of_num (n : pynum) : pyval :=
  match n with NInt z => VInt z | NFloat f => VFloat f end.

(** [max(a, b)] and [min(a, b)] of the builtins, [b] a number: the first
    argument is kept unless the second is strictly beyond it. *)
Definition py_max (a : pyval) (b : pynum) : result pyval :=
  let! above := py_lt a b in Ret (if above then of_num b else a).

Definition py_min (a : pyval) (b : pynum) : result pyval :=
  let! below := py_gt a b in Ret (if below then of_num b else a).

(** [bool(v)]. *)
Definition truthy (v : pyval) : bool :=
  match v with
  | VNone => false
  | VBool b => b
  | VInt z => negb (z =? 0)%Z
  | VFloat f => negb (PrimFloat.eqb f 0%float)
  | VStr s => negb (str_eqb s "")
  | VTuple l | VList l => negb (bool_decide (l = []))
  | VDict kvs => negb (bool_decide (kvs = []))
  | VType _ | VCondvisFunc | VObj _ => true
  end.

Definition py_bool (v : pyval) : result bool := Ret (truthy v).

(** [int(f)] for a float: truncation toward zero. *)
Definition float_to_int (f : float) : result Z :=
  match Prim2SF f with
  | S754_nan => raise ValueError "cannot convert float NaN to integer"
  | S754_infinity _ => raise OverflowError "cannot convert float infinity to integer"
  | S754_zero _ => Ret 0%Z
  | S754_finite s m e =>
      let v := if s then Z.neg m else Z.pos m in
      Ret (if (0 <=? e)%Z then v * 2 ^ e else Z.quot v (2 ^ (- e)))%Z
  end.

(** ** Value coercion utilities *)

(** The builtins that read or print text, as the interpreter provides
    them: [eval(s)] on a source string yields any value or any exception
    (for a text whose evaluation comes back and leaves the module as it
    was; see [Interp] for the others); [int(s)] and [float(s)] on a string
    yield a number or ([None]) their [ValueError]; [str(v)] prints a value
    that is not a string. [py_alloc n] tells whether the interpreter finds
    the memory for a sequence of [n] items: that depends on the machine,
    and for a list it is never so from [2^60] items on. *)
Record builtins := Builtins {
  py_eval : string → result pyval;
  py_int_str : string → option Z;
  py_float_str : string → option float;
  py_str : pyval → string;
  py_alloc : Z → bool;
}.

Section Coercion.

Variable py : builtins.

(** [int(val)]. *)
Definition py_int (val : pyval) : result Z :=
  match val with
  | VBool b => Ret (if b then 1 else 0)%Z
  | VInt z => Ret z
  | VFloat f => float_to_int f
  | VStr s =>
      match py_int_str py s with
      | Some z => Ret z
      | None => raise ValueError "invalid literal for int() with base 10"
      end
  | _ => raise TypeError "int() argument must be a string or a real number"
  end.

(** [float(s)] on a string. *)
Definition py_float (s : string) : result pyval :=
  match py_float_str py s with
  | Some f => Ret (VFloat f)
  | None => raise ValueError "could not convert string to float"
  end.

(** [val in ('true', 'false')]. *)
Definition in_true_false (val : pyval) : bool :=
  match val with
  | VStr s => str_eqb s "true" || str_eqb s "false"
  | _ => false
  end.

(** [repr(s)] of a string: single quotes unless the text has a single and
    no double quote; the quote in use and the backslash are escaped, and so
    is every character that is not printable ([str.isprintable]): below
    U+0100 these are the control characters (0 to 31 and 127 to 159), the
    no-break space U+00A0 and the soft hyphen U+00AD. *)
Definition hex_digit (n : nat) : ascii :=
  ascii_of_nat (if (n <? 10)%nat then 48 + n else 87 + n).

Definition repr_char (quote c : ascii) : string :=
  let n := nat_of_ascii c in
  if ascii_eqb c quote || ascii_eqb c backslash then String backslash (String c "")
  else if (n =? 9)%nat then "\t"
  else if (n =? 10)%nat then "\n"
  else if (n =? 13)%nat then "\r"
  else if (n <? 32)%nat || (127 <=? n)%nat && (n <=? 160)%nat || (n =? 173)%nat then
    String backslash (String "x" (String (hex_digit (n / 16)) (String (hex_digit (n mod 16)) "")))
  else String c "".

Fixpoint repr_body (quote : ascii) (s : string) : string :=
  match s with
  | EmptyString => EmptyString
  | String c s' => repr_char quote c +:+ repr_body quote s'
  end.

Definition repr_str (s : string) : string :=
  let quote := if has_char squote s && negb (has_char dquote s) then dquote else squote in
  String quote (repr_body quote s +:+ String quote "").

(** [repr] of a [str] or of [None]. *)
Definition repr_opt (v : option string) : string :=
  match v with Some s => repr_str s | None => "None" end.

(** [to_bool(val)], the three nested [try] blocks as written. *)
Definition to_bool (val : pyval) : result pyval :=
  try_except
    (let! i := py_int val in let! b := py_bool (VInt i) in Ret (VBool b))
    (is_class ValueError)
    (λ _,
      try_except
        (let! b := py_bool val in Ret (VBool b))
        (is_class ValueError)
        (λ _,
          if in_true_false val then
            match val with
            | VStr s => let! b := py_bool (VStr (str_capitalize s)) in Ret (VBool b)
            | _ => raise AttributeError "capitalize"
            end
          else
            raise ValueError ("Failed to convert: " +:+
              match val with VStr s => repr_str s | _ => "" end))).

Definition VALID_TYPES : list string :=
  ["int"; "int2"; "float"; "float2"; "color"; "point"; "vector";
   "normal"; "matrix"; "string"; "struct"; "lightfilter";
   "message"; "displayfilter"; "samplefilter"; "bxdf"].
Definition FLOAT3 : list string := ["color"; "point"; "vector"; "normal"].
Definition FLOATX : list string := ["color"; "point"; "vector"; "normal"; "matrix"].

Definition DATA_TYPE_WIDTH : list (string * nat) :=
  [("int", 1); ("float", 1);
   ("color", 3); ("point", 3); ("vector", 3); ("normal", 3);
   ("matrix", 16); ("string", 0); ("struct", 0)]%nat.

Definition float3_zero : pyval := VTuple [VFloat 0; VFloat 0; VFloat 0].

Definition DEFAULT_VALUE : list (string * pyval) :=
  [("float", VFloat 0); ("float2", VTuple [VFloat 0; VFloat 0]);
   ("float3", float3_zero);
   ("int", VInt 0); ("int2", VTuple [VInt 0; VInt 0]);
   ("color", float3_zero); ("normal", float3_zero);
   ("vector", float3_zero); ("point", float3_zero);
   ("string", VStr "");
   ("matrix", VTuple (VFloat <$>
      [1; 0; 0; 0; 0; 1; 0; 0; 0; 0; 1; 0; 0; 0; 0; 1]%float));
   ("message", VNone)].

Definition PAGE_SEP : ascii := "|"%char.

(** Lookup in a table keyed by strings, first entry first. *)
Fixpoint assoc {A} (k : string) (l : list (string * A)) : option A :=
  match l with
  | [] => None
  | (k', v) :: l' => if str_eqb k k' then Some v else assoc k l'
  end.

Definition str_in (s : string) (l : list string) : bool :=
  bool_decide (s ∈ l).

(** [safe_value_eval(raw_val)]. [eval] wants a string: any other argument is
    its [TypeError], which the handler catches like everything else. *)
Definition eval_builtin (raw_val : pyval) : result pyval :=
  match raw_val with
  | VStr s => py_eval py s
  | _ => raise TypeError "eval() arg 1 must be a string, bytes or code object"
  end.

Definition isinstance_type (val : pyval) : bool :=
  match val with VType _ => true | _ => false end.

Definition safe_value_eval (raw_val : pyval) : result pyval :=
  match eval_builtin raw_val with
  | Raise _ => Ret raw_val                       (* except BaseException *)
  | Ret val =>                                   (* else: *)
      if isinstance_type val then Ret raw_val else Ret val
  end.

(** [validate_type(pname, ptype)]; [ptype] is a [str], or [None] when the
    element names no type. The exception text is [str(NodeDescError(...))]. *)
Definition validate_type (pname : string) (ptype : option string) : result string :=
  match ptype with
  | Some t =>
      if str_in t VALID_TYPES then Ret t
      else raise NodeDescError ("NodeDesc Error: param " +:+ repr_str pname +:+
                                " has invalid type: " +:+ repr_opt ptype)
  | None =>                               (* None is in no list *)
      raise NodeDescError ("NodeDesc Error: param " +:+ repr_str pname +:+
                           " has invalid type: " +:+ repr_opt ptype)
  end.

End Coercion.

(** ** [eval] and the state of the interpreter

    [eval(raw_val)] runs the text as code, in the namespace of the module.
    The call need not come back: the text may loop, or end the process.
    When it comes back, the names the function reads next may no longer be
    the builtins: Python looks up [BaseException], [isinstance] and [type]
    when the line runs, in the globals of the module before the builtins,
    and the text may have bound them there. *)

Module Interp.

(** How a call ends: it came back, with a value or an exception, and left
    the interpreter in the state [w]; or it never came back. *)
Inductive outcome (W A : Type) :=
| Done (r : result A) (w : W)
| NoReturn.
Arguments Done {W A} r w.
Arguments NoReturn {W A}.

(** What [safe_value_eval] asks of the interpreter, each in the state the
    one before left: the call [eval(raw_val)]; whether the clause
    [except BaseException] takes the exception raised ([BaseException] is
    evaluated then, and a value that is no exception class is a
    [TypeError]); and the truth of [isinstance(val, type)]. *)
Record interpreter := Interpreter {
  world : Type;
  run_eval : pyval → world → outcome world pyval;
  except_BaseException : exc → world → outcome world bool;
  run_isinstance_type : pyval → world → outcome world bool;
}.

Section SafeValueEval.

Variable I : interpreter.

(** [safe_value_eval(raw_val)], from the state [w]. What is raised in the
    [else] clause, or by the [except] clause itself, is raised by the
    function. *)
Definition safe_value_eval (raw_val : pyval) (w : world I) : outcome (world I) pyval :=
  match run_eval I raw_val w with                    (* try: val = eval(raw_val) *)
  | NoReturn => NoReturn
  | Done (Raise e) w =>                              (* except BaseException: *)
      match except_BaseException I e w with
      | NoReturn => NoReturn
      | Done (Raise e') w => Done (Raise e') w
      | Done (Ret true) w => Done (Ret raw_val) w    (*     val = raw_val *)
      | Done (Ret false) w => Done (Raise e) w
      end
  | Done (Ret val) w =>                              (* else: *)
      match run_isinstance_type I val w with         (*     if isinstance(val, type): *)
      | NoReturn => NoReturn
      | Done (Raise e) w => Done (Raise e) w
      | Done (Ret true) w => Done (Ret raw_val) w    (*         val = raw_val *)
      | Done (Ret false) w => Done (Ret val) w
      end
  end.

(** In the state [w] the three names are the builtins: the clause takes
    every exception, the test tells the type objects from the other
    values, and neither changes the state. *)
Definition builtin_names (w : world I) : Prop :=
  (∀ e, except_BaseException I e w = Done (Ret true) w) ∧
  (∀ val, run_isinstance_type I val w = Done (Ret (isinstance_type val)) w).

End SafeValueEval.

End Interp.

(** ** Regular expressions

    The patterns of the module, as syntax trees, and the two ways the code
    asks [re] about them. [re.match] anchors at the start only: it succeeds
    as soon as some prefix of the text is in the pattern's language. *)

Inductive regex :=
| RNone
| REps
| RChar (p : ascii → bool)
| RSeq (r1 r2 : regex)
| RAlt (r1 r2 : regex)
| RStar (r : regex).

Definition ROpt (r : regex) : regex := RAlt r REps.          (* r? *)
Definition RPlus (r : regex) : regex := RSeq r (RStar r).    (* r+ *)
Definition RLit (c : ascii) : regex := RChar (ascii_eqb c).
Definition ROneOf (cs : string) : regex := RChar (λ c, has_char c cs).

Fixpoint RWord (s : string) : regex :=
  match s with
  | EmptyString => REps
  | String c s' => RSeq (RLit c) (RWord s')
  end.

Fixpoint nullable (r : regex) : bool :=
  match r with
  | RNone | RChar _ => false
  | REps | RStar _ => true
  | RSeq r1 r2 => nullable r1 && nullable r2
  | RAlt r1 r2 => nullable r1 || nullable r2
  end.

(** Brzozowski derivative: what may follow the character [c]. *)
Fixpoint deriv (c : ascii) (r : regex) : regex :=
  match r with
  | RNone | REps => RNone
  | RChar p => if p c then REps else RNone
  | RSeq r1 r2 =>
      if nullable r1 then RAlt (RSeq (deriv c r1) r2) (deriv c r2)
      else RSeq (deriv c r1) r2
  | RAlt r1 r2 => RAlt (deriv c r1) (deriv c r2)
  | RStar r1 => RSeq (deriv c r1) (RStar r1)
  end.

(** The whole text is in the language. *)
Fixpoint re_fullmatch (r : regex) (s : string) : bool :=
  match s with
  | EmptyString => nullable r
  | String c s' => re_fullmatch (deriv c r) s'
  end.

(** Truth of [re.match(r, s)]. *)
Fixpoint re_match (r : regex) (s : string) : bool :=
  nullable r ||
  match s with
  | EmptyString => false
  | String c s' => re_match (deriv c r) s'
  end.

(** The language of a pattern. *)
Inductive lang : regex → string → Prop :=
| lang_eps : lang REps ""
| lang_char p c : p c = true → lang (RChar p) (String c "")
| lang_seq r1 r2 s1 s2 :
    lang r1 s1 → lang r2 s2 → lang (RSeq r1 r2) (s1 +:+ s2)
| lang_alt_l r1 r2 s : lang r1 s → lang (RAlt r1 r2) s
| lang_alt_r r1 r2 s : lang r2 s → lang (RAlt r1 r2) s
| lang_star_nil r : lang (RStar r) ""
| lang_star_app r s1 s2 :
    lang r s1 → lang (RStar r) s2 → lang (RStar r) (s1 +:+ s2).

(** The pattern of [CFLOAT_REGEXP] is a floating-point literal followed by
    the letter [f]. The literal: an optional sign; then digits with an
    optional fraction (a dot and any digits), or a dot and digits; then an
    optional exponent ([e] or [E], an optional sign, digits). *)
Definition digits1 : regex := RPlus (RChar is_digit).
Definition FLOAT_LITERAL : regex :=
  RSeq (ROpt (ROneOf "+-"))
    (RSeq (RAlt (RSeq digits1 (ROpt (RSeq (RLit ".") (RStar (RChar is_digit)))))
                (RSeq (RLit ".") digits1))
          (ROpt (RSeq (ROneOf "eE") (RSeq (ROpt (ROneOf "+-")) digits1)))).

Definition CFLOAT_PATTERN : regex := RSeq FLOAT_LITERAL (RLit "f").
Definition CFLOAT_REGEXP (s : string) : bool := re_match CFLOAT_PATTERN s.

(** [_handle_c_style_floats(val)]. *)
Definition _handle_c_style_floats (val : string) : string :=
  if CFLOAT_REGEXP val then remove_char "f" val else val.

(** [RE_VISOP], [.+(Left|Right|Op|Path|Value)$]: [.] is any character but a
    newline, and [$] holds at the end of the text or before a final
    newline. *)
Definition newline : ascii := ascii_of_nat 10.
Definition RE_VISOP : regex :=
  RSeq (RPlus (RChar (λ c, negb (ascii_eqb c newline))))
    (RSeq (RAlt (RWord "Left") (RAlt (RWord "Right") (RAlt (RWord "Op")
             (RAlt (RWord "Path") (RWord "Value")))))
          (ROpt (RLit newline))).

Definition is_visop (pname : string) : bool := re_fullmatch RE_VISOP pname.

(** ** More of [str] *)

(** [s.split(sep)] for a one-character separator. *)
Fixpoint split_on (sep : ascii) (s : string) : list string :=
  match s with
  | EmptyString => [""]
  | String c s' =>
      let r := split_on sep s' in
      if ascii_eqb c sep then "" :: r
      else match r with
           | h :: t => String c h :: t
           | [] => [String c ""]
           end
  end.

(** [s.split()]: the maximal runs of characters that are not white space.
    The flag tells whether the first run found so far starts right after
    the character being read. *)
Fixpoint split_ws_aux (s : string) : bool * list string :=
  match s with
  | EmptyString => (false, [])
  | String c s' =>
      let '(joined, r) := split_ws_aux s' in
      if is_space c then (false, r)
      else (true,
            match joined, r with
            | true, h :: t => String c h :: t
            | _, _ => String c "" :: r
            end)
  end.
Definition split_ws (s : string) : list string := (split_ws_aux s).2.

(** [s.rsplit(sep, 1)]: cut at the last separator; [None] when there is
    none, where Python returns the one-element list [[s]]. *)
Fixpoint rsplit1 (sep : ascii) (s : string) : option (string * string) :=
  match s with
  | EmptyString => None
  | String c s' =>
      match rsplit1 sep s' with
      | Some (a, b) => Some (String c a, b)
      | None => if ascii_eqb c sep then Some ("", s') else None
      end
  end.

Fixpoint lstrip (s : string) : string :=
  match s with
  | EmptyString => EmptyString
  | String c s' => if is_space c then lstrip s' else s
  end.

(** Drops the white space that ends the text. *)
Fixpoint rstrip (s : string) : string :=
  match s with
  | EmptyString => EmptyString
  | String c s' =>
      match rstrip s' with
      | EmptyString => if is_space c then EmptyString else String c EmptyString
      | r => String c r
      end
  end.

(** [s.strip()]. *)
Definition strip (s : string) : string := rstrip (lstrip s).

Definition starts_with_space (s : string) : bool :=
  match s with String c _ => is_space c | EmptyString => false end.

(** [re.sub(r'\n\s+', '<br>', s)]: a newline and all the white space after
    it, when there is some, become one [<br>]. [skipping] is set while the
    white space of a replaced run is being passed over. *)
Fixpoint sub_breaks (skipping : bool) (s : string) : string :=
  match s with
  | EmptyString => EmptyString
  | String c s' =>
      if skipping && is_space c then sub_breaks true s'
      else if ascii_eqb c newline && starts_with_space s' then
        "<br>" +:+ sub_breaks true s'
      else String c (sub_breaks false s')
  end.

(** [s.endswith(t)]. *)
Definition ends_with (t s : string) : bool :=
  starts_with (String.rev t) (String.rev s).

(** [s[-1:]] and [s[:-1]]. *)
Fixpoint str_last (s : string) : string :=
  match s with
  | EmptyString => EmptyString
  | String c EmptyString => s
  | String _ s' => str_last s'
  end.

Fixpoint str_init (s : string) : string :=
  match s with
  | EmptyString | String _ EmptyString => EmptyString
  | String c s' => String c (str_init s')
  end.

(** ** Dictionaries and instances *)

(** [d[k] = v] on an ordered dictionary: an existing key keeps its place. *)
Fixpoint dict_set {A} (k : string) (v : A) (d : list (string * A)) : list (string * A) :=
  match d with
  | [] => [(k, v)]
  | (k', v') :: d' => if str_eqb k k' then (k, v) :: d' else (k', v') :: dict_set k v d'
  end.

(** The attributes of an instance: its [__dict__], which keeps them in the
    order of their first assignment. *)
Abbreviation obj := (list (string * pyval)).

(** [vars(self).get(name)]: the attribute, when the instance has it. *)
Definition vars (self : obj) (name : string) : option pyval := assoc name self.

(** An instance without attributes. *)
Definition no_attrs : obj := [].

Definition hasattr (self : obj) (name : string) : bool :=
  match vars self name with Some _ => true | None => false end.

Definition getattr (self : obj) (name : string) : result pyval :=
  match vars self name with
  | Some v => Ret v
  | None => raise AttributeError name
  end.

Definition setattr (self : obj) (name : string) (v : pyval) : obj :=
  dict_set name v self.

Definition is_None (v : pyval) : bool :=
  match v with VNone => true | _ => false end.

(** [hash(v)] succeeds: lists and dictionaries have no hash. *)
Fixpoint hashable (v : pyval) : bool :=
  match v with
  | VList _ | VDict _ => false
  | VTuple l => forallb hashable l
  | _ => true
  end.

(** [v == s] for a string [s], and [v in l] for a list of strings. *)
Definition eq_str (v : pyval) (s : string) : bool :=
  match v with VStr t => str_eqb t s | _ => false end.

Definition in_strs (v : pyval) (l : list string) : bool :=
  match v with VStr t => str_in t l | _ => false end.


Fixpoint str_repeat (n : nat) (s : string) : string :=
  match n with O => EmptyString | S n' => s +:+ str_repeat n' s end.

(** [sys.maxsize], the largest machine index. *)
Definition index_max : Z := 2 ^ 63 - 1.

(** The sequence [seq * k] has [len * k] items, [len] those of [seq]: none
    for a count below one. The count has to fit a machine index, or it is
    an [OverflowError]; so has the number of items, or it is [too_long], a
    [MemoryError] for a list or a tuple and an [OverflowError] for a text;
    and the interpreter has to find the memory for them, or it is a
    [MemoryError]. *)
Definition repeated (py : builtins) (len : nat) (k : Z) (too_long : exc_class)
    (build : nat → pyval) : result pyval :=
  if (k <? - index_max - 1)%Z || (index_max <? k)%Z then
    raise OverflowError "cannot fit 'int' into an index-sized integer"
  else
    let items := (Z.of_nat len * Z.max k 0)%Z in
    if (items =? 0)%Z then Ret (build 0%nat)
    else if (index_max <? items)%Z then raise too_long "repeated sequence is too long"
    else if py_alloc py items then Ret (build (Z.to_nat k))
    else raise MemoryError "".

(** [seq * n] for a sequence [seq]: [n] copies end to end, none when [n] is
    negative. *)
Definition py_mul_seq (py : builtins) (seq n : pyval) : result pyval :=
  let times (k : Z) : result pyval :=
    match seq with
    | VList l => repeated py (length l) k MemoryError (λ c, VList (concat (replicate c l)))
    | VTuple l => repeated py (length l) k MemoryError (λ c, VTuple (concat (replicate c l)))
    | VStr s => repeated py (String.length s) k OverflowError (λ c, VStr (str_repeat c s))
    | _ => raise TypeError "unsupported operand type(s) for *"
    end in
  match n with
  | VInt k => times k
  | VBool b => times (if b then 1 else 0)%Z
  | _ => raise TypeError "can't multiply sequence by non-int"
  end.

(** ** The parameter model: [NodeDescParam] *)

Section Param.

Variable py : builtins.

(** The caller's [build_condvis_func(ops, trigger_params)]. It may raise,
    and it may change both objects it is handed: it answers with their new
    contents. *)
Variable build_condvis : pyval → pyval → result (pyval * pyval).

(** [NodeDescParam.__init__]; [self.name] is a property kept in [_name]. *)
Definition NodeDescParam_init (build_condvis_func : pyval) : obj :=
  setattr (setattr (setattr (setattr (setattr (setattr (setattr (setattr no_attrs
    "_name" VNone)
    "type" VNone)
    "default" VNone)
    "has_ui_struct" (VBool false))
    "conditionalVisOps" (VDict []))
    "trigger_params" (VList []))
    "conditionalVisTrigger" (VBool false))
    "build_condvis_func" build_condvis_func.

(** [DEFAULT_VALUE.get(t, None)]. *)
Definition DEFAULT_VALUE_get (t : pyval) : result pyval :=
  if hashable t then
    match t with
    | VStr s => Ret (default VNone (assoc s DEFAULT_VALUE))
    | _ => Ret VNone
    end
  else raise TypeError "unhashable type".

(** [setattr(self, name, max(self.default, 1.0))] and its [min] twin. *)
Definition set_soft_max (self : obj) : result obj :=
  let! d := getattr self "default" in
  let! m := py_max d (NFloat 1) in
  Ret (setattr self "slidermax" m).

Definition set_soft_min (self : obj) : result obj :=
  let! d := getattr self "default" in
  let! m := py_min d (NFloat 0) in
  Ret (setattr self "slidermin" m).

(** The call [f(ops, trigger_params)] through the attribute holding [f]. *)
Definition call_condvis (func ops trig : pyval) : result (pyval * pyval) :=
  match func with
  | VCondvisFunc => build_condvis ops trig
  | _ => raise TypeError "object is not callable"
  end.

(** [NodeDescParam.finalize]. *)
Definition finalize (self : obj) : result obj :=
  let! d := getattr self "default" in
  let! self :=
    (if is_None d then
       let! t := getattr self "type" in
       let! v := DEFAULT_VALUE_get t in
       Ret (setattr self "default" v)
     else Ret self) in
  let! t := getattr self "type" in
  let! self :=
    (if eq_str t "float" || eq_str t "int" then
       if hasattr self "min" then
         (* set a slidermax if not defined. *)
         if negb (hasattr self "max") && negb (hasattr self "slidermax")
         then set_soft_max self else Ret self
       else if hasattr self "slider" then
         (* set a 0->1 soft limit if none defined. *)
         let! self :=
           (if negb (hasattr self "min") && negb (hasattr self "slidermin")
            then set_soft_min self else Ret self) in
         if negb (hasattr self "max") && negb (hasattr self "slidermax")
         then set_soft_max self else Ret self
       else Ret self
     else Ret self) in
  (* Parse conditional visibility *)
  let! ops := getattr self "conditionalVisOps" in
  if truthy ops then
    let! func := getattr self "build_condvis_func" in
    if negb (is_None func) then
      let! trig := getattr self "trigger_params" in
      let! '(ops', trig') := call_condvis func ops trig in
      Ret (setattr (setattr self "conditionalVisOps" ops') "trigger_params" trig')
    else Ret self
  else Ret self.

(** [self.size is not None], as [is_array] has it. *)
Definition is_array (self : obj) : result bool :=
  let! size := getattr self "size" in Ret (negb (is_None size)).

(** The [%s] conversion. *)
Definition fmt_s (v : pyval) : string :=
  match v with VStr s => s | _ => py_str py v end.

(** [NodeDescParam._format_help]. *)
Definition _format_help (self : obj) : result obj :=
  match vars self "help" with
  | Some (VStr help) =>
      let! name := getattr self "_name" in
      let! type := getattr self "type" in
      let attr_type_str := fmt_s name +:+ " (" +:+ fmt_s type +:+ ")" in
      if negb (ends_with attr_type_str help) then
        let help := if negb (str_eqb help "") then help +:+ "<br><br>" else help in
        Ret (setattr self "help" (VStr (help +:+ attr_type_str)))
      else Ret self
  | Some VNone | None => Ret self
  | Some _ => raise AttributeError "endswith"
  end.

End Param.

(** ** Parameters from args files: [NodeDescParamXML]

    An element of the args DOM is represented by what the parameter code
    reads of it through [minidom]: its tag and attributes, and those of its
    ancestors, innermost first, up to the root element (whose parent is the
    [Document]). The elements covered are those without child elements, so
    every [getElementsByTagName] on the parameter element is empty. *)

Record xml_tag := XmlTag {
  tagName : string;
  attrs : list (string * string);     (* the [attributes] map, in order *)
}.

Record xml_element := XmlElement {
  element : xml_tag;
  ancestors : list xml_tag;
}.

Definition hasAttribute (e : xml_tag) (name : string) : bool :=
  bool_decide (is_Some (assoc name (attrs e))).

(** [minidom] answers [''] for an attribute that is not there. *)
Definition getAttribute (e : xml_tag) (name : string) : string :=
  default "" (assoc name (attrs e)).

(** Runs a raising function over a list, left to right. *)
Fixpoint mapM {A B} (f : A → result B) (l : list A) : result (list B) :=
  match l with
  | [] => Ret []
  | a :: l' => let! b := f a in let! bs := mapM f l' in Ret (b :: bs)
  end.

Fixpoint foldM {A S} (f : S → A → result S) (s : S) (l : list A) : result S :=
  match l with
  | [] => Ret s
  | a :: l' => let! s' := f s a in foldM f s' l'
  end.

(** [range(0, stop, step)], [step] positive. *)
Definition range_step (stop step : nat) : list nat :=
  (λ k, k * step) <$> seq 0 ((stop + step - 1) / step).

(** The entries of [optional_attrs]; the flag marks those paired with
    [to_bool]. *)
Definition optional_attrs : list (string * bool) :=
  [("URL", false); ("buttonText", false); ("connectable", true);
   ("digits", false); ("label", false); ("match", false); ("max", false);
   ("min", false); ("riattr", false); ("riopt", false);
   ("scriptText", false); ("sensitivity", false); ("slider", false);
   ("slidermax", false); ("slidermin", false); ("syntax", false);
   ("tag", false); ("units", false); ("vstructConditionalExpr", false);
   ("vstructmember", false); ("hidden", true);
   ("color_enableFilmlookVis", true); ("readOnly", true);
   ("editable", true); ("lockgeom", true)].

Section ParamXML.

Variable py : builtins.
Variable build_condvis : pyval → pyval → result (pyval * pyval).

(** [_set_type]: the [type] attribute, else the first token of the [tag]
    attribute, else [None]. *)
Definition _set_type (pdata : xml_element) : option string :=
  let e := element pdata in
  if hasAttribute e "type" then Some (getAttribute e "type")
  else
    let tag := getAttribute e "tag" in
    if negb (str_eqb tag "") then head (split_on "|" tag) else None.

(** [_set_size]. *)
Definition _set_size (pdata : xml_element) (self : obj) : result obj :=
  let e := element pdata in
  if hasAttribute e "isDynamicArray" then
    (* dynamic array *)
    if negb (str_eqb (getAttribute e "isDynamicArray") "0") then
      Ret (setattr self "size" (VInt (-1)))
    else if hasAttribute e "arraySize" then
      let! n := py_int py (VStr (getAttribute e "arraySize")) in
      Ret (setattr self "size" (VInt n))
    else Ret self
  else if hasAttribute e "arraySize" then
    (* fixed-size array *)
    let! n := py_int py (VStr (getAttribute e "arraySize")) in
    Ret (setattr self "size" (VInt n))
  else
    (* non-array *)
    Ret (setattr self "size" VNone).

(** [str_to_num]: [int] for the type ['int'], [float] otherwise. *)
Definition str_to_num (type : string) (s : string) : result pyval :=
  if str_eqb type "int" then let! z := py_int py (VStr s) in Ret (VInt z)
  else py_float py s.

(** [vals[i]]. *)
Definition list_item (vals : list string) (i : nat) : result string :=
  match vals !! i with
  | Some v => Ret v
  | None => raise IndexError "list index out of range"
  end.

(** The array branch of [_set_default] up to the last [if]: the values of
    the default, one tuple of [twidth] numbers each when [twidth > 1]. *)
Definition array_default (type : string) (vals : list string) : result (list pyval) :=
  match assoc type DATA_TYPE_WIDTH with
  | None => raise KeyError (repr_str type)
  | Some twidth =>
      if (1 <? twidth)%nat then
        mapM (λ i,
                let! tvals :=
                  mapM (λ j, let! v := list_item vals (i + j) in str_to_num type v)
                       (seq 0 twidth) in
                Ret (VTuple tvals))
             (range_step (length vals) twidth)
      else mapM (str_to_num type) vals
  end.

(** [_set_default]. *)
Definition _set_default (pdata : xml_element) (self : obj) : result obj :=
  let e := element pdata in
  if negb (hasAttribute e "default") then Ret self
  else
    let! t := getattr self "type" in
    match t with
    | VStr type =>
        if str_eqb type "struct" then Ret (setattr self "default" (VStr ""))
        else
          let pdefault := _handle_c_style_floats (getAttribute e "default") in
          if negb (str_contains "string" type) then
            let psize := default VNone (vars self "size") in
            if is_None psize then
              (* non-array numerical values *)
              let! v := safe_value_eval py (VStr (replace_char " " "," pdefault)) in
              Ret (setattr self "default" v)
            else
              (* arrays *)
              let! vals := array_default type (split_ws pdefault) in
              (* conform defaults to array size *)
              let! vals :=
                (if (length vals =? 1)%nat then
                   let! pos := py_gt psize (NInt 0) in
                   if pos then py_mul_seq py (VList vals) psize else Ret (VList vals)
                 else Ret (VList vals)) in
              Ret (setattr self "default" vals)
          else
            (* strings: there is no provision for string array defaults *)
            Ret (setattr self "default" (VStr pdefault))
    | _ => raise TypeError "argument of type is not iterable"
    end.

(** [_set_widget], for an element without [hintlist] and [hintdict]
    children (their loops assign the attribute each child names): the
    [options] attribute, in either of its two spellings, and the [widget]
    attribute. A token without a colon among
    tokens with one makes [kval[1]] an [IndexError], which the handler for
    [ValueError] lets through. *)
Definition options_of (tmp : string) : result (list (string * pyval)) :=
  if has_char ":" tmp then
    foldM (λ options tok,
             match rsplit1 ":" tok with
             | Some (k, v) => Ret (dict_set k (VStr v) options)
             | None => raise IndexError "list index out of range"
             end)
          [] (split_on "|" tmp)
  else if has_char "|" tmp then
    Ret (fold_left (λ options opt, dict_set opt (VStr opt) options)
                   (split_on "|" tmp) [])
  else Ret [(tmp, VStr tmp)].

Definition _set_widget (pdata : xml_element) (self : obj) : result obj :=
  let e := element pdata in
  let! self :=
    (if hasAttribute e "options" then
       let! options := options_of (getAttribute e "options") in
       Ret (setattr self "options" (VDict options))
     else Ret self) in
  if hasAttribute e "widget" then
    Ret (setattr self "widget" (VStr (getAttribute e "widget")))
  else Ret (setattr self "widget" (VStr "default")).

(** The loop of [_set_page]: while the node is a [page], its name goes in
    front of the path. Past the root element stands the [Document], which
    has no [tagName]. *)
Fixpoint page_path (nodes : list xml_tag) (page : string) : result string :=
  match nodes with
  | [] => raise AttributeError "'Document' object has no attribute 'tagName'"
  | p_node :: up =>
      if str_eqb (tagName p_node) "page" then
        page_path up (getAttribute p_node "name" +:+ String PAGE_SEP page)
      else Ret page
  end.

(** [_set_page]. *)
Definition _set_page (pdata : xml_element) (self : obj) : result obj :=
  let self := setattr self "page" (VStr "") in
  match ancestors pdata with
  | [] => raise AttributeError "'Document' object has no attribute 'hasAttribute'"
  | p_node :: _ =>
      (* consider the open state only for the innermost page. *)
      let self :=
        if hasAttribute p_node "open" then
          setattr self "page_open"
            (VBool (str_eqb (str_lower (getAttribute p_node "open")) "true"))
        else self in
      (* go up the page hierarchy to build the full path to this page. *)
      let! page := page_path (ancestors pdata) "" in
      let page :=
        if str_eqb (str_last page) (String PAGE_SEP "") then str_init page
        else page in
      Ret (setattr self "page" (VStr page))
  end.

(** [_set_help], for an element without a [help] child. *)
Definition _set_help (pdata : xml_element) (self : obj) : result obj :=
  let e := element pdata in
  let self :=
    if hasAttribute e "help" then
      setattr self "help" (VStr (sub_breaks false (strip (getAttribute e "help"))))
    else self in
  _format_help py self.

(** [val.rsplit('/', 1)[-1]] when [val] has a slash. *)
Definition last_segment (val : string) : string :=
  match rsplit1 "/" val with
  | Some (_, tail) => tail
  | None => val
  end.

(** [_set_conditional_vis_ops]: one pass over the attributes in document
    order. *)
Definition _set_conditional_vis_ops (pdata : xml_element) (self : obj) : result obj :=
  let e := element pdata in
  foldM (λ self pname,
           if is_visop pname then
             let val := getAttribute e pname in
             let val := if has_char "/" val then last_segment val else val in
             let! v := safe_value_eval py (VStr val) in
             let! ops := getattr self "conditionalVisOps" in
             match ops with
             | VDict d => Ret (setattr self "conditionalVisOps" (VDict (dict_set pname v d)))
             | _ => raise TypeError "object does not support item assignment"
             end
           else Ret self)
        self (fst <$> attrs e).

(** One round of the loop over [optional_attrs]. *)
Definition set_optional_attr (pdata : xml_element) (self : obj)
    (entry : string * bool) : result obj :=
  let e := element pdata in
  let '(attr, func) := entry in
  if hasAttribute e attr then
    let val := _handle_c_style_floats (getAttribute e attr) in
    let! t := getattr self "type" in
    let! val :=
      (if in_strs t FLOAT3 then
         let! size := getattr self "size" in
         if is_None size && (str_contains "min" attr || str_contains "max" attr) then
           (* 'min' or 'slidermin' *)
           let! floats := mapM (py_float py) (split_ws val) in
           Ret (VTuple floats)
         else Ret (VStr val)
       else Ret (VStr val)) in
    let! val := try_except (safe_value_eval py val) (λ _, true) (λ _, Ret val) in
    let! val := (if func then to_bool py val else Ret val) in
    Ret (setattr self attr val)
  else Ret self.

(** [_set_optional_attributes], for an element without a [tags] child. *)
Definition _set_optional_attributes (pdata : xml_element) (self : obj) : result obj :=
  let! self := _set_size pdata self in
  let! self := _set_default pdata self in
  let! self := _set_widget pdata self in
  let! self := _set_page pdata self in
  let! self := _set_help pdata self in
  let! self := _set_conditional_vis_ops pdata self in
  (* optional attributes *)
  let! self := foldM (set_optional_attr pdata) self optional_attrs in
  (* widget sanity check *)
  match vars self "widget" with
  | Some w =>
      if eq_str w "dynamicArray" then Ret (setattr self "widget" (VStr "default"))
      else Ret self
  | None => Ret self
  end.

(** [NodeDescParamXML.__init__]. *)
Definition NodeDescParamXML (pdata : xml_element) (build_condvis_func : pyval) : result obj :=
  let self := NodeDescParam_init build_condvis_func in
  let name := getAttribute (element pdata) "name" in
  let self := setattr self "_name" (VStr name) in
  let! type := validate_type name (_set_type pdata) in
  let self := setattr self "type" (VStr type) in
  let! self := _set_optional_attributes pdata self in
  finalize build_condvis self.

End ParamXML.

(** ** Parameters from JSON files: [NodeDescParamJSON] *)


(** ** Python equality and iteration *)

Definition num_eqb (a b : pynum) : bool :=
  match a, b with
  | NInt x, NInt y => (x =? y)%Z
  | NFloat x, NFloat y => PrimFloat.eqb x y
  | NInt x, NFloat y | NFloat y, NInt x =>
      match Z_compare_float x y with Some Eq => true | _ => false end
  end.

(** [a == b]. Dictionaries are equal when they have the same keys with equal
    values, whatever the order. *)
Fixpoint py_eq (a b : pyval) : bool :=
  match a, b with
  | VNone, VNone => true
  | VStr s, VStr t => str_eqb s t
  | VTuple l, VTuple m | VList l, VList m =>
      (fix all2 (l m : list pyval) : bool :=
         match l, m with
         | [], [] => true
         | x :: l', y :: m' => py_eq x y && all2 l' m'
         | _, _ => false
         end) l m
  | VDict d, VDict d' =>
      (length d =? length d')%nat &&
      (fix all_in (d : list (string * pyval)) : bool :=
         match d with
         | [] => true
         | (k, v) :: rest =>
             match assoc k d' with
             | Some v' => py_eq v v'
             | None => false
             end && all_in rest
         end) d
  | VType n, VType m => str_eqb n m
  | VCondvisFunc, VCondvisFunc => true
  | VObj i, VObj j => str_eqb i j
  | _, _ =>
      match as_num a, as_num b with
      | Some x, Some y => num_eqb x y
      | _, _ => false
      end
  end.

(** [x in l] for a list [l]. *)
Definition py_in (x : pyval) (l : list pyval) : bool := existsb (py_eq x) l.

Fixpoint chars (s : string) : list pyval :=
  match s with
  | EmptyString => []
  | String c s' => VStr (String c "") :: chars s'
  end.

(** The values [for x in v] goes through. *)
Definition py_iter (v : pyval) : result (list pyval) :=
  match v with
  | VList l | VTuple l => Ret l
  | VStr s => Ret (chars s)
  | VDict d => Ret ((λ kv, VStr kv.1) <$> d)
  | _ => raise TypeError "object is not iterable"
  end.

(** [list(set(l))]: one of each among equal values; a value without a hash
    is a [TypeError]. Python fixes no order for the result, which the code
    only searches; here the first occurrences stay in place. *)
Fixpoint nub (l : list pyval) : list pyval :=
  match l with
  | [] => []
  | x :: l' => x :: filter (λ y, negb (py_eq x y)) (nub l')
  end.

Definition list_set (l : list pyval) : result (list pyval) :=
  if forallb hashable l then Ret (nub l) else raise TypeError "unhashable type".

(** A dictionary keyed by arbitrary values: [k in d] and [d[k] = v]. *)
Fixpoint vdict_get {A} (k : pyval) (d : list (pyval * A)) : option A :=
  match d with
  | [] => None
  | (k', v) :: d' => if py_eq k k' then Some v else vdict_get k d'
  end.

Fixpoint vdict_set {A} (k : pyval) (v : A) (d : list (pyval * A)) : list (pyval * A) :=
  match d with
  | [] => [(k, v)]
  | (k', v') :: d' => if py_eq k k' then (k', v) :: d' else (k', v') :: vdict_set k v d'
  end.

(** ** The args DOM *)

#[warnings="-register-all"]
Inductive xml_node :=
| Element (tag : xml_tag) (childNodes : list xml_node)
| Text (data : string).

(** An element met in a document: its tag, its children, and the tags of
    its ancestors, innermost first. *)
Record dom_element := DomElement {
  el_ancestors : list xml_tag;
  el_tag : xml_tag;
  el_children : list xml_node;
}.

(** The element itself, then its descendants, in document order. *)
Fixpoint elements_of (anc : list xml_tag) (n : xml_node) : list dom_element :=
  match n with
  | Text _ => []
  | Element t ch => DomElement anc t ch :: concat (map (elements_of (t :: anc)) ch)
  end.

(** [node.getElementsByTagName(name)], for the children [nodes] of a node
    whose ancestor chain, itself included, is [anc]. *)
Definition getElementsByTagName (anc : list xml_tag) (nodes : list xml_node)
    (name : string) : list dom_element :=
  filter (λ e, tagName (el_tag e) = name) (concat (map (elements_of anc) nodes)).

(** A document is the list of the [Document] node's children. *)
Abbreviation xml_document := (list xml_node).

Definition doc_elements (xml : xml_document) (name : string) : list dom_element :=
  getElementsByTagName [] xml name.

Definition sub_elements (e : dom_element) (name : string) : list dom_element :=
  getElementsByTagName (el_tag e :: el_ancestors e) (el_children e) name.

(** What [NodeDescParamXML] reads of an element. *)
Definition flat (e : dom_element) : xml_element :=
  XmlElement (el_tag e) (el_ancestors e).

(** ** The node aggregate: [NodeDesc] *)

(** An opened [OslQuery]: [shadername()], [shadertype()] and the records
    [getparam(i)] for [i] below [nparams()]. *)
Record osl_query := OslQuery {
  shadername : string;
  shadertype : string;
  osl_params : list pyval;
}.

(** The data a parser keeps in [_parsed_data]. *)
Inductive parsed_data :=
| NoData
| XmlData (xml : xml_document)
| OslData (oinfo : osl_query)
| JsonData (jdata : pyval).

(** Parameter objects are shared (a textured parameter is in [params] and in
    [textured_params]) and changed after they are stored, and so is the list
    of page triggers: both live in a store and are held by reference. *)
Abbreviation loc := nat.

Record store := Store {
  objs : list obj;        (* the parameter objects *)
  cells : list pyval;     (* other mutable objects: lists *)
}.

Record NodeDesc := {
  _name : pyval;
  node_type : pyval;
  rman_node_type : pyval;
  help : pyval;
  params : list loc;
  outputs : list loc;
  attributes : list loc;
  param_dict : option (list (pyval * loc));
  attribute_dict : option (list (pyval * loc));
  output_dict : option (list (pyval * loc));
  textured_params : list loc;
  pages_condvis_dict : list (string * pyval);
  pages_trigger_params : loc;
  ui_structs : list (pyval * list pyval);
  ui_struct_membership : list (pyval * pyval);
  build_condvis_func : pyval;
  _parsed_data_type : pyval;
  _parsed_data : parsed_data;
}.

(** The running state of a construction: the store and [self]. *)
Record state := State { heap : store; self : NodeDesc }.

Definition set_params (v : list loc) (n : NodeDesc) : NodeDesc :=
  {| _name := _name n; node_type := node_type n; rman_node_type := rman_node_type n;
     help := help n; params := v; outputs := outputs n; attributes := attributes n;
     param_dict := param_dict n; attribute_dict := attribute_dict n;
     output_dict := output_dict n; textured_params := textured_params n;
     pages_condvis_dict := pages_condvis_dict n;
     pages_trigger_params := pages_trigger_params n; ui_structs := ui_structs n;
     ui_struct_membership := ui_struct_membership n;
     build_condvis_func := build_condvis_func n;
     _parsed_data_type := _parsed_data_type n; _parsed_data := _parsed_data n |}.

Definition set_outputs (v : list loc) (n : NodeDesc) : NodeDesc :=
  {| _name := _name n; node_type := node_type n; rman_node_type := rman_node_type n;
     help := help n; params := params n; outputs := v; attributes := attributes n;
     param_dict := param_dict n; attribute_dict := attribute_dict n;
     output_dict := output_dict n; textured_params := textured_params n;
     pages_condvis_dict := pages_condvis_dict n;
     pages_trigger_params := pages_trigger_params n; ui_structs := ui_structs n;
     ui_struct_membership := ui_struct_membership n;
     build_condvis_func := build_condvis_func n;
     _parsed_data_type := _parsed_data_type n; _parsed_data := _parsed_data n |}.

Definition set_attributes (v : list loc) (n : NodeDesc) : NodeDesc :=
  {| _name := _name n; node_type := node_type n; rman_node_type := rman_node_type n;
     help := help n; params := params n; outputs := outputs n; attributes := v;
     param_dict := param_dict n; attribute_dict := attribute_dict n;
     output_dict := output_dict n; textured_params := textured_params n;
     pages_condvis_dict := pages_condvis_dict n;
     pages_trigger_params := pages_trigger_params n; ui_structs := ui_structs n;
     ui_struct_membership := ui_struct_membership n;
     build_condvis_func := build_condvis_func n;
     _parsed_data_type := _parsed_data_type n; _parsed_data := _parsed_data n |}.

Definition set_textured_params (v : list loc) (n : NodeDesc) : NodeDesc :=
  {| _name := _name n; node_type := node_type n; rman_node_type := rman_node_type n;
     help := help n; params := params n; outputs := outputs n;
     attributes := attributes n;
     param_dict := param_dict n; attribute_dict := attribute_dict n;
     output_dict := output_dict n; textured_params := v;
     pages_condvis_dict := pages_condvis_dict n;
     pages_trigger_params := pages_trigger_params n; ui_structs := ui_structs n;
     ui_struct_membership := ui_struct_membership n;
     build_condvis_func := build_condvis_func n;
     _parsed_data_type := _parsed_data_type n; _parsed_data := _parsed_data n |}.

Definition set_identity (name type rtype : pyval) (n : NodeDesc) : NodeDesc :=
  {| _name := name; node_type := type; rman_node_type := rtype;
     help := help n; params := params n; outputs := outputs n;
     attributes := attributes n;
     param_dict := param_dict n; attribute_dict := attribute_dict n;
     output_dict := output_dict n; textured_params := textured_params n;
     pages_condvis_dict := pages_condvis_dict n;
     pages_trigger_params := pages_trigger_params n; ui_structs := ui_structs n;
     ui_struct_membership := ui_struct_membership n;
     build_condvis_func := build_condvis_func n;
     _parsed_data_type := _parsed_data_type n; _parsed_data := _parsed_data n |}.

Definition set_help (v : pyval) (n : NodeDesc) : NodeDesc :=
  {| _name := _name n; node_type := node_type n; rman_node_type := rman_node_type n;
     help := v; params := params n; outputs := outputs n;
     attributes := attributes n;
     param_dict := param_dict n; attribute_dict := attribute_dict n;
     output_dict := output_dict n; textured_params := textured_params n;
     pages_condvis_dict := pages_condvis_dict n;
     pages_trigger_params := pages_trigger_params n; ui_structs := ui_structs n;
     ui_struct_membership := ui_struct_membership n;
     build_condvis_func := build_condvis_func n;
     _parsed_data_type := _parsed_data_type n; _parsed_data := _parsed_data n |}.

Definition set_pages_condvis_dict (v : list (string * pyval)) (n : NodeDesc) : NodeDesc :=
  {| _name := _name n; node_type := node_type n; rman_node_type := rman_node_type n;
     help := help n; params := params n; outputs := outputs n;
     attributes := attributes n;
     param_dict := param_dict n; attribute_dict := attribute_dict n;
     output_dict := output_dict n; textured_params := textured_params n;
     pages_condvis_dict := v;
     pages_trigger_params := pages_trigger_params n; ui_structs := ui_structs n;
     ui_struct_membership := ui_struct_membership n;
     build_condvis_func := build_condvis_func n;
     _parsed_data_type := _parsed_data_type n; _parsed_data := _parsed_data n |}.

Definition set_ui_structs (v : list (pyval * list pyval)) (w : list (pyval * pyval))
    (n : NodeDesc) : NodeDesc :=
  {| _name := _name n; node_type := node_type n; rman_node_type := rman_node_type n;
     help := help n; params := params n; outputs := outputs n;
     attributes := attributes n;
     param_dict := param_dict n; attribute_dict := attribute_dict n;
     output_dict := output_dict n; textured_params := textured_params n;
     pages_condvis_dict := pages_condvis_dict n;
     pages_trigger_params := pages_trigger_params n; ui_structs := v;
     ui_struct_membership := w;
     build_condvis_func := build_condvis_func n;
     _parsed_data_type := _parsed_data_type n; _parsed_data := _parsed_data n |}.

Definition set_parsed_data (type : pyval) (v : parsed_data) (n : NodeDesc) : NodeDesc :=
  {| _name := _name n; node_type := node_type n; rman_node_type := rman_node_type n;
     help := help n; params := params n; outputs := outputs n;
     attributes := attributes n;
     param_dict := param_dict n; attribute_dict := attribute_dict n;
     output_dict := output_dict n; textured_params := textured_params n;
     pages_condvis_dict := pages_condvis_dict n;
     pages_trigger_params := pages_trigger_params n; ui_structs := ui_structs n;
     ui_struct_membership := ui_struct_membership n;
     build_condvis_func := build_condvis_func n;
     _parsed_data_type := type; _parsed_data := v |}.

(** [clear_parsed_data]: [self._parsed_data = None]. *)
Definition clear_parsed_data (st : state) : state :=
  State (heap st) (set_parsed_data (_parsed_data_type (self st)) NoData (self st)).

(** What the module takes from outside the repository's two files: the
    XML, OSL and JSON readers, the file system, the methods of [FilePath],
    and the keys of the texture manager's [TXMAKE_PRESETS]. *)
Record host := Host {
  mx_parse : string → result xml_document;
  path_exists : string → bool;
  oslquery_open : string → result osl_query;
  json_load : string → result pyval;
  os_path : string → string;
  basename : string → string;
  TXMAKE_PRESETS : list string;
}.

Definition OSL_TO_RIS_TYPES : list (string * string) :=
  [("surface", "bxdf"); ("displacement", "displacement");
   ("volume", "bxdf"); ("shader", "pattern")].

Definition quoted (s : string) : string := String dquote (s +:+ String dquote "").

Section Node.

Variable py : builtins.
Variable build_condvis : pyval → pyval → result (pyval * pyval).
Variable os : host.

(** The parameter classes, which the constructor takes as keyword
    arguments: each builds a parameter object from its datum and the
    visibility builder, or raises. *)
Variable xmlparamclass : dom_element → pyval → result obj.
Variable oslparamclass : pyval → pyval → result obj.
Variable jsonparamclass : pyval → pyval → result obj.

(** The object behind a reference. *)
Definition deref (st : state) (p : loc) : obj := default no_attrs (objs (heap st) !! p).

Definition update_self (f : NodeDesc → NodeDesc) (st : state) : state :=
  State (heap st) (f (self st)).

(** A new parameter object enters the store. *)
Definition alloc_obj (o : obj) (st : state) : loc * state :=
  (length (objs (heap st)),
   State (Store (objs (heap st) ++ [o]) (cells (heap st))) (self st)).

Definition alloc_cell (v : pyval) (st : state) : loc * state :=
  (length (cells (heap st)),
   State (Store (objs (heap st)) (cells (heap st) ++ [v])) (self st)).

Definition set_cell (l : loc) (v : pyval) (st : state) : state :=
  State (Store (objs (heap st)) (<[l := v]> (cells (heap st)))) (self st).

Definition set_obj (p : loc) (o : obj) (st : state) : state :=
  State (Store (<[p := o]> (objs (heap st))) (cells (heap st))) (self st).

(** The fields as [__init__] sets them, before [_parse_node]. *)
Definition NodeDesc_new (build_condvis_func : pyval) : state :=
  State (Store [] [VList []])
    {| _name := VNone; node_type := VNone; rman_node_type := VNone; help := VNone;
       params := []; outputs := []; attributes := [];
       param_dict := None; attribute_dict := None; output_dict := None;
       textured_params := [];
       pages_condvis_dict := [];
       pages_trigger_params := 0;
       ui_structs := []; ui_struct_membership := [];
       build_condvis_func := build_condvis_func;
       _parsed_data_type := VNone; _parsed_data := NoData |}.

(** The loop of [_mark_if_textured]: is some option a texture preset? *)
Fixpoint has_preset (opts : list pyval) : result bool :=
  match opts with
  | [] => Ret false
  | iopt :: rest =>
      if hashable iopt then
        if existsb (eq_str iopt) (TXMAKE_PRESETS os) then Ret true
        else has_preset rest
      else raise TypeError "unhashable type"
  end.

(** [_mark_if_textured(obj)]. *)
Definition _mark_if_textured (p : loc) (st : state) : result state :=
  match vars (deref st p) "options" with
  | None | Some VNone => Ret st
  | Some opt =>
      let! opts := py_iter opt in
      let! found := has_preset opts in
      if found then
        Ret (update_self (λ n, set_textured_params (textured_params n ++ [p]) n) st)
      else Ret st
  end.

(** The first [help] child's text, as [node.firstChild.data] reads it. *)
Definition first_child_data (ch : list xml_node) : result string :=
  match ch with
  | Text d :: _ => Ret d
  | _ => raise AttributeError "data"
  end.

(** The loop over [xml.firstChild.childNodes]. *)
Definition node_help (xml : xml_document) (st : state) : result state :=
  match xml with
  | Element _ ch :: _ =>
      foldM (λ st node,
               match node with
               | Element t sub =>
                   if str_eqb (tagName t) "help" then
                     let! d := first_child_data sub in
                     Ret (update_self (set_help (VStr (strip d))) st)
                   else Ret st
               | Text _ => Ret st
               end)
            st ch
  | Text _ :: _ => Ret st
  | [] => raise AttributeError "childNodes"
  end.

(** One parameter element: build the object, store it, append it. *)
Definition add_xml_param (append : loc → NodeDesc → NodeDesc) (mark : bool)
    (st : state) (prm : dom_element) : result state :=
  let! o := xmlparamclass prm (build_condvis_func (self st)) in
  let '(p, st) := alloc_obj o st in
  let st := update_self (append p) st in
  if mark then _mark_if_textured p st else Ret st.

(** One round of the loop over the [page] elements. *)
Definition add_page (st : state) (page : dom_element) : result state :=
  let e := el_tag page in
  let page_name := getAttribute e "name" in
  if hasAttribute e "conditionalVisOp" && truthy (build_condvis_func (self st)) then
    let! value := safe_value_eval py (VStr (getAttribute e "conditionalVisValue")) in
    let ops := VDict [("conditionalVisOp", VStr (getAttribute e "conditionalVisOp"));
                      ("conditionalVisPath", VStr (getAttribute e "conditionalVisPath"));
                      ("conditionalVisValue", value)] in
    let st := update_self (λ n, set_pages_condvis_dict
                (dict_set page_name ops (pages_condvis_dict n)) n) st in
    let l := pages_trigger_params (self st) in
    let trig := default VNone (cells (heap st) !! l) in
    let! '(ops', trig') := call_condvis build_condvis (build_condvis_func (self st)) ops trig in
    let st := update_self (λ n, set_pages_condvis_dict
                (dict_set page_name ops' (pages_condvis_dict n)) n) st in
    Ret (set_cell l trig' st)
  else Ret st.

(** [_parse_args_xml(xml, xmlfile)]. *)
Definition _parse_args_xml (xml : xml_document) (xmlfile : string) (st : state) : result state :=
  let st := update_self (set_parsed_data (VStr "xml") (XmlData xml)) st in
  (* the node name is based on the file Name *)
  let base := basename os xmlfile in
  let name := match rsplit1 "." base with Some (stem, _) => stem | None => base end in
  (* get the node type (bxdf, pattern, etc) *)
  let shader_types := doc_elements xml "shaderType" in
  let shader_types :=
    match shader_types with [] => doc_elements xml "typeTag" | _ => shader_types end in
  let! type :=
    match shader_types with
    | first :: _ =>
        match sub_elements first "tag" with
        | tag :: _ => Ret (getAttribute (el_tag tag) "value")
        | [] => raise NodeDescError ("NodeDesc Error: No " +:+ quoted "tag" +:+
                  " element in " +:+ quoted "shaderType" +:+ " ! : " +:+ xmlfile)
        end
    | [] => raise NodeDescError ("NodeDesc Error: No " +:+ quoted "shaderType" +:+
              " element in args file ! : " +:+ xmlfile)
    end in
  let st := update_self (λ n, set_identity (VStr name) (VStr type) (rman_node_type n) n) st in
  (* node help *)
  let! st := node_help xml st in
  (* is this a metashader ? *)
  let rtype :=
    match doc_elements xml "metashader" with
    | m :: _ => getAttribute (el_tag m) "shader"
    | [] => name
    end in
  let st := update_self (λ n, set_identity (_name n) (node_type n) (VStr rtype) n) st in
  (* get the node parameters *)
  let! st := foldM (add_xml_param (λ p n, set_params (params n ++ [p]) n) true)
                   st (doc_elements xml "param") in
  let! st := foldM (add_xml_param (λ p n, set_outputs (outputs n ++ [p]) n) false)
                   st (doc_elements xml "output") in
  let! st := foldM (add_xml_param (λ p n, set_attributes (attributes n ++ [p]) n) false)
                   st (doc_elements xml "attribute") in
  foldM add_page st (doc_elements xml "page").

(** [x in v] for a string [x]: a substring of a string, a member of a list
    or tuple, a key of a dictionary. *)
Definition contains_str (v : pyval) (x : string) : result bool :=
  match v with
  | VStr s => Ret (str_contains x s)
  | VList l | VTuple l => Ret (py_in (VStr x) l)
  | VDict d => Ret (bool_decide (is_Some (assoc x d)))
  | _ => raise TypeError "argument is not iterable"
  end.

(** One round of the loop of [_parse_oso_file]. *)
Definition add_osl_param (st : state) (param_data : pyval) : result state :=
  let! o := oslparamclass param_data (build_condvis_func (self st)) in
  let '(p, st') := alloc_obj o st in
  let! name := getattr o "_name" in
  (* struct members appear as struct.member: ignore. *)
  let! member := contains_str name "." in
  if member then Ret st'
  else
    let! category := getattr o "category" in
    if eq_str category "param" then
      if truthy (default (VBool true) (vars o "lockgeom")) then
        _mark_if_textured p (update_self (λ n, set_params (params n ++ [p]) n) st')
      else Ret st'
    else if eq_str category "output" then
      Ret (update_self (λ n, set_outputs (outputs n ++ [p]) n) st')
    else if eq_str category "attr" then
      Ret (update_self (λ n, set_attributes (attributes n ++ [p]) n) st')
    else Ret st'.

(** [_parse_oso_file(oso)]. *)
Definition _parse_oso_file (oso : string) (st : state) : result state :=
  if negb (path_exists os (os_path os oso)) then Ret st
  else
    (* open shader *)
    let! oinfo := oslquery_open os oso in
    let st := update_self (set_parsed_data (VStr "oso") (OslData oinfo)) st in
    (* get name and type *)
    let name := VStr (shadername oinfo) in
    match assoc (shadertype oinfo) OSL_TO_RIS_TYPES with
    | None => raise KeyError (repr_str (shadertype oinfo))
    | Some type =>
        let st := update_self (set_identity name (VStr type) name) st in
        (* parse params *)
        foldM add_osl_param st (osl_params oinfo)
    end.

(** [jdata[key]]. *)
Definition json_item (jdata : pyval) (key : string) : result pyval :=
  match jdata with
  | VDict d =>
      match assoc key d with
      | Some v => Ret v
      | None => raise KeyError (repr_str key)
      end
  | _ => raise TypeError "indices must be integers"
  end.

Definition add_json_param (st : state) (pdata : pyval) : result state :=
  let! o := jsonparamclass pdata (build_condvis_func (self st)) in
  let '(p, st) := alloc_obj o st in
  _mark_if_textured p (update_self (λ n, set_params (params n ++ [p]) n) st).

(** [_parse_json_file(jsonfile)]; [jdata] is the loaded object, a
    dictionary. *)
Definition _parse_json_file (jsonfile : string) (st : state) : result state :=
  let! jdata := json_load os (os_path os jsonfile) in
  let st := update_self (set_parsed_data (VStr "json") (JsonData jdata)) st in
  match jdata with
  | VDict d =>
      let validator := default (VStr "") (assoc "$schema" d) in
      if eq_str validator "http://json-schema.org/schema#" then
        (* silently ignore schemas *)
        raise NodeDescIgnore ("NodeDesc Ignore: Schema file: " +:+ os_path os jsonfile)
      else
        let! node_schema := contains_str validator "rmanNodeSchema" in
        if negb node_schema then
          raise NodeDescIgnore ("NodeDesc Ignore: Not a node file: " +:+ os_path os jsonfile)
        else
          (* set mandatory attributes. *)
          let! name := json_item jdata "name" in
          let! type := json_item jdata "node_type" in
          let! rtype := json_item jdata "rman_node_type" in
          let st := update_self (set_identity name type rtype) st in
          match assoc "params" d with
          | Some ps =>
              let! pdatas := py_iter ps in
              foldM add_json_param st pdatas
          | None => Ret st
          end
  | _ => raise AttributeError "get"
  end.

(** The dispatch on the file name's ending that opens [_parse_node]. *)
Definition parse_file (filepath : string) (st : state) : result state :=
  if ends_with ".args" filepath then
    match mx_parse os (os_path os filepath) with
    | Raise _ => Ret st                     (* except BaseException: a warning *)
    | Ret xmldoc => _parse_args_xml xmldoc filepath st
    end
  else if ends_with ".oso" filepath then _parse_oso_file filepath st
  else if ends_with ".json" filepath then _parse_json_file filepath st
  else Ret st.

(** Is [self.params[i]] a string parameter named [notes]? *)
Definition is_notes (st : state) (p : loc) : result bool :=
  let prm := deref st p in
  let! name := getattr prm "_name" in
  if eq_str name "notes" then
    let! type := getattr prm "type" in Ret (eq_str type "string")
  else Ret false.

(** The first loop after the dispatch: the index of the first such
    parameter is deleted, and the scan stops there. *)
Fixpoint weed_notes (st : state) (ps : list loc) : result (list loc) :=
  match ps with
  | [] => Ret []
  | p :: rest =>
      let! found := is_notes st p in
      if found then Ret rest
      else let! rest' := weed_notes st rest in Ret (p :: rest')
  end.

(** [l += values] on the list object at [l]: it grows in place. *)
Definition list_iadd (l : loc) (values : list pyval) (st : state) : result state :=
  match cells (heap st) !! l with
  | Some (VList old) => Ret (set_cell l (VList (old ++ values)) st)
  | _ => raise TypeError "unsupported operand type(s) for +="
  end.

(** One round of the loop that collects triggers and struct members;
    [trigger_params_list] is the reference held by the local variable. *)
Definition collect_param (trigger_params_list : loc) (st : state) (p : loc) : result state :=
  let prm := deref st p in
  let! trig := getattr prm "trigger_params" in
  let! names := py_iter trig in
  let! st := list_iadd trigger_params_list names st in
  let! has := getattr prm "has_ui_struct" in
  if truthy has then
    let! struct_name := getattr prm "uiStruct" in
    if hashable struct_name then
      let members := default [] (vdict_get struct_name (ui_structs (self st))) in
      let! name := getattr prm "_name" in
      if hashable name then
        Ret (update_self (λ n,
               set_ui_structs (vdict_set struct_name (members ++ [name]) (ui_structs n))
                              (vdict_set name struct_name (ui_struct_membership n)) n) st)
      else raise TypeError "unhashable type"
    else raise TypeError "unhashable type"
  else Ret st.

(** One round of the last loop. *)
Definition tag_trigger (names : list pyval) (st : state) (p : loc) : result state :=
  let prm := deref st p in
  let! name := getattr prm "_name" in
  if py_in name names then
    Ret (set_obj p (setattr prm "conditionalVisTrigger" (VBool true)) st)
  else Ret st.

(** The passes of [_parse_node] that follow the dispatch. *)
Definition post_parse (st : state) : result state :=
  (* weed out 'notes' string attributes that are just a studio artifact. *)
  let! ps := weed_notes st (params (self st)) in
  let st := update_self (set_params ps) st in
  (* collect parameters triggering conditional visibility evaluation *)
  let trigger_params_list := pages_trigger_params (self st) in
  let! st := foldM (collect_param trigger_params_list) st (params (self st)) in
  (* trigger_params_list = list(set(trigger_params_list)): a new list *)
  let! names := py_iter (default VNone (cells (heap st) !! trigger_params_list)) in
  let! names := list_set names in
  let '(trigger_params_list, st) := alloc_cell (VList names) st in
  foldM (tag_trigger names) st (params (self st)).

(** [_parse_node(filepath)]. *)
Definition _parse_node (filepath : string) (st : state) : result state :=
  let! st := parse_file filepath st in
  post_parse st.

(** [NodeDesc(filepath, build_condvis_func, **kwargs)]. *)
Definition NodeDesc_init (filepath : string) (build_condvis_func : pyval) : result state :=
  _parse_node filepath (NodeDesc_new build_condvis_func).

End Node.

(** ** More of [str] and of the instances *)

(** A method of [str] called on the value: an [AttributeError] unless it is
    a string. *)
Definition as_str (method : string) (v : pyval) : result string :=
  match v with
  | VStr s => Ret s
  | _ => raise AttributeError method
  end.

(** [s.replace('  ', ' ')]: pairs of spaces, from the left, become one. *)
Fixpoint replace_two_spaces (s : string) : string :=
  match s with
  | String " " (String " " rest) => String " " (replace_two_spaces rest)
  | String c rest => String c (replace_two_spaces rest)
  | EmptyString => EmptyString
  end.

(** ** Parameters from OSL object files: [NodeDescParamOSL]

    The datum of a parameter is the record [oslquery] returns, a
    dictionary; its [metadata] entry lists dictionaries with a [name] and
    a [default]. The methods carry the names they have in the class. *)

Module OSL.
Section ParamOSL.

Variable py : builtins.
Variable build_condvis : pyval → pyval → result (pyval * pyval).

(** [repr(v)] of a value that is not a string, as the interpreter prints
    it. *)
Variable py_repr : pyval → string.

(** [{d['name']: d for d in pdata['metadata']}]. *)
Definition metadict_of (pdata : pyval) : result (list (pyval * pyval)) :=
  let! metadata := json_item pdata "metadata" in
  let! ds := py_iter metadata in
  foldM (λ metadict d,
           let! name := json_item d "name" in
           if hashable name then Ret (vdict_set name d metadict)
           else raise TypeError "unhashable type")
        [] ds.

(** [osl_metadatum(metadict, name, default)]. *)
Definition osl_metadatum (metadict : list (pyval * pyval)) (name : string)
    (default : pyval) : result pyval :=
  match vdict_get (VStr name) metadict with
  | Some d => json_item d "default"
  | None => Ret default
  end.

Definition _set_category (pdata : pyval) : result pyval :=
  let! isoutput := json_item pdata "isoutput" in
  if truthy isoutput then Ret (VStr "output") else Ret (VStr "param").

Definition _set_name (pdata : pyval) : result pyval := json_item pdata "name".

(** [_set_type]: the type and, for a struct, the object with its
    [struct_name]. *)
Definition _set_type (pdata : pyval) (self : obj) : result (string * obj) :=
  let! isstruct := json_item pdata "isstruct" in
  if truthy isstruct then
    let! structname := json_item pdata "structname" in
    Ret ("struct", setattr self "struct_name" structname)
  else
    let! type := json_item pdata "type" in
    let! type := as_str "split" type in
    match split_on "[" type with
    | first :: _ => Ret (first, self)
    | [] => raise IndexError "list index out of range"
    end.

(** [validate_type(self.name, ptype)], whatever the name is. *)
Definition validate_type_of (name : pyval) (ptype : string) : result string :=
  match name with
  | VStr pname => validate_type pname (Some ptype)
  | _ =>
      if str_in ptype VALID_TYPES then Ret ptype
      else raise NodeDescError ("NodeDesc Error: param " +:+ py_repr name +:+
                                " has invalid type: " +:+ repr_str ptype)
  end.

Definition _set_size (pdata : pyval) (self : obj) : result obj :=
  let! varlenarray := json_item pdata "varlenarray" in
  if truthy varlenarray then Ret (setattr self "size" (VInt (-1)))
  else
    let! arraylen := json_item pdata "arraylen" in
    let! fixed := py_gt arraylen (NInt 0) in
    if fixed then Ret (setattr self "size" arraylen)
    else Ret (setattr self "size" VNone).

Definition _set_default (pdata : pyval) (self : obj) : result obj :=
  let! d := json_item pdata "default" in Ret (setattr self "default" d).

Definition _set_page (metadict : list (pyval * pyval)) (self : obj) : result obj :=
  match vdict_get (VStr "page") metadict with
  | Some _ =>
      let! page := osl_metadatum metadict "page" VNone in
      let! page := as_str "replace" page in
      let self := setattr self "page" (VStr (replace_char "." PAGE_SEP page)) in
      (* the page's open state at startup in OSL. *)
      let! page_open := osl_metadatum metadict "page_open" (VBool false) in
      Ret (setattr self "page_open" page_open)
  | None => Ret self
  end.

Definition _set_help (metadict : list (pyval * pyval)) (self : obj) : result obj :=
  let! help := osl_metadatum metadict "help" (VStr "") in
  let! help := as_str "replace" help in
  _format_help py (setattr self "help" (VStr (replace_two_spaces help))).

(** One option of the [options] metadatum. *)
Definition add_option (options : list (string * pyval)) (opt : string) :
    result (list (string * pyval)) :=
  let '(key, val) :=
    if has_char ":" opt then
      match rsplit1 ":" opt with Some kv => kv | None => (opt, opt) end
    else (opt, opt) in
  let! v := try_except (safe_value_eval py (VStr val)) (λ _, true) (λ _, Ret (VStr val)) in
  Ret (dict_set key v options).

(** One preset of the [presets] metadatum: [key, val = preset.split(':')]
    wants exactly two parts. *)
Definition add_preset (type : pyval) (presets : list (string * pyval)) (preset : string) :
    result (list (string * pyval)) :=
  match split_on ":" preset with
  | [key; val] =>
      if in_strs type FLOATX then
        let! floats := mapM (py_float py) (split_ws val) in
        Ret (dict_set key (VTuple floats) presets)
      else if eq_str type "string" then Ret (dict_set key (VStr val) presets)
      else
        let! v := safe_value_eval py (VStr val) in
        Ret (dict_set key v presets)
  | _ => raise ValueError "values to unpack (expected 2)"
  end.

Definition _set_widget (metadict : list (pyval * pyval)) (self : obj) : result obj :=
  (* hintdict *)
  let! self :=
    (match vdict_get (VStr "options") metadict with
     | Some _ =>
         let! text := osl_metadatum metadict "options" VNone in
         let! text := as_str "split" text in
         let! options := foldM add_option [] (split_on "|" text) in
         Ret (setattr self "options" (VDict options))
     | None => Ret self
     end) in
  let! self :=
    (match vdict_get (VStr "presets") metadict with
     | Some _ =>
         let! text := osl_metadatum metadict "presets" VNone in
         let! text := as_str "split" text in
         let! type := getattr self "type" in
         let! presets := foldM (add_preset type) [] (split_on "|" text) in
         Ret (setattr self "presets" (VDict presets))
     | None => Ret self
     end) in
  let! widget := osl_metadatum metadict "widget" (VStr "default") in
  Ret (setattr self "widget" widget).

(** [_set_conditional_vis_ops]: one pass over the metadata, in order;
    [re.match] wants a string for a key. *)
Definition _set_conditional_vis_ops (metadict : list (pyval * pyval)) (self : obj) :
    result obj :=
  foldM (λ self '(key, val),
           match key with
           | VStr pname =>
               if is_visop pname then
                 let! raw := json_item val "default" in
                 let! v := safe_value_eval py raw in
                 let! ops := getattr self "conditionalVisOps" in
                 match ops with
                 | VDict d =>
                     Ret (setattr self "conditionalVisOps" (VDict (dict_set pname v d)))
                 | _ => raise TypeError "object does not support item assignment"
                 end
               else Ret self
           | _ => raise TypeError "expected string or bytes-like object"
           end)
        self metadict.

(** [__set_attr_named(attr_name)]. *)
Definition set_attr_named (metadict : list (pyval * pyval)) (self : obj)
    (entry : string * bool) : result obj :=
  let '(attr_name, func) := entry in
  match vdict_get (VStr attr_name) metadict with
  | None => Ret self
  | Some d =>
      let! val := json_item d "default" in
      let! val := (if func then to_bool py val else Ret val) in
      Ret (setattr self attr_name val)
  end.

Definition _set_optional_attributes (pdata : pyval) (metadict : list (pyval * pyval))
    (self : obj) : result obj :=
  let! self := _set_size pdata self in
  let! self := _set_default pdata self in
  let! self := _set_widget metadict self in
  let! self := _set_page metadict self in
  let! self := _set_help metadict self in
  let! self := _set_conditional_vis_ops metadict self in
  let! self := foldM (set_attr_named metadict) self optional_attrs in
  match vars self "tag" with
  | Some tag =>
      if eq_str tag "vstruct" then Ret (setattr self "vstruct" (VBool true))
      else Ret self
  | None => Ret self
  end.

(** [NodeDescParamOSL.__init__]. *)
Definition NodeDescParamOSL (pdata : pyval) (build_condvis_func : pyval) : result obj :=
  let self := NodeDescParam_init build_condvis_func in
  let! metadict := metadict_of pdata in
  let! category := _set_category pdata in
  let self := setattr self "category" category in
  let! name := _set_name pdata in
  let self := setattr self "_name" name in
  let! '(ptype, self) := _set_type pdata self in
  let! type := validate_type_of name ptype in
  let self := setattr self "type" (VStr type) in
  let! self := _set_optional_attributes pdata metadict self in
  finalize build_condvis self.

End ParamOSL.
End OSL.

(** ** More of [NodeDescParamJSON] *)

(** [_postprocess_page]: the JSON syntax uses [/] to describe the page
    hierarchy; internally it is [|]. *)
Definition _postprocess_page (self : obj) : result obj :=
  let this_page := default VNone (vars self "page") in
  if truthy this_page then
    let! page := as_str "replace" this_page in
    Ret (setattr self "page" (VStr (replace_char "/" PAGE_SEP page)))
  else Ret self.

(** [_postprocess_options]: script-based widget options, a JSON-only
    feature. Whether the options are pairs is read off the first one;
    [key, val = opt.rsplit(':', 1)] wants a colon in each. *)
Definition _postprocess_options (py : builtins) (self : obj) : result obj :=
  match vars self "options" with
  | Some (VStr text) =>
      let opts := split_on "|" text in
      let! options :=
        (match opts with
         | [] => raise IndexError "list index out of range"
         | first :: _ =>
             if has_char ":" first then
               foldM (λ options opt,
                        match rsplit1 ":" opt with
                        | Some (key, val) =>
                            let! v := try_except (safe_value_eval py (VStr val))
                                        (λ _, true) (λ _, Ret (VStr val)) in
                            Ret (dict_set key v options)
                        | None =>
                            raise ValueError "not enough values to unpack (expected 2, got 1)"
                        end)
                     [] opts
             else
               Ret (fold_left (λ options key, dict_set key (VStr key) options) opts [])
         end) in
      Ret (setattr self "options" (VDict options))
  | _ => Ret self
  end.

(** ** More of [NodeDesc]: the getters and the help page *)

Definition set_param_dict (v : option (list (pyval * loc))) (n : NodeDesc) : NodeDesc :=
  {| _name := _name n; node_type := node_type n; rman_node_type := rman_node_type n;
     help := help n; params := params n; outputs := outputs n;
     attributes := attributes n;
     param_dict := v; attribute_dict := attribute_dict n;
     output_dict := output_dict n; textured_params := textured_params n;
     pages_condvis_dict := pages_condvis_dict n;
     pages_trigger_params := pages_trigger_params n; ui_structs := ui_structs n;
     ui_struct_membership := ui_struct_membership n;
     build_condvis_func := build_condvis_func n;
     _parsed_data_type := _parsed_data_type n; _parsed_data := _parsed_data n |}.

Definition set_output_dict (v : option (list (pyval * loc))) (n : NodeDesc) : NodeDesc :=
  {| _name := _name n; node_type := node_type n; rman_node_type := rman_node_type n;
     help := help n; params := params n; outputs := outputs n;
     attributes := attributes n;
     param_dict := param_dict n; attribute_dict := attribute_dict n;
     output_dict := v; textured_params := textured_params n;
     pages_condvis_dict := pages_condvis_dict n;
     pages_trigger_params := pages_trigger_params n; ui_structs := ui_structs n;
     ui_struct_membership := ui_struct_membership n;
     build_condvis_func := build_condvis_func n;
     _parsed_data_type := _parsed_data_type n; _parsed_data := _parsed_data n |}.

Definition set_attribute_dict (v : option (list (pyval * loc))) (n : NodeDesc) : NodeDesc :=
  {| _name := _name n; node_type := node_type n; rman_node_type := rman_node_type n;
     help := help n; params := params n; outputs := outputs n;
     attributes := attributes n;
     param_dict := param_dict n; attribute_dict := v;
     output_dict := output_dict n; textured_params := textured_params n;
     pages_condvis_dict := pages_condvis_dict n;
     pages_trigger_params := pages_trigger_params n; ui_structs := ui_structs n;
     ui_struct_membership := ui_struct_membership n;
     build_condvis_func := build_condvis_func n;
     _parsed_data_type := _parsed_data_type n; _parsed_data := _parsed_data n |}.

(** [{d.name: d for d in ds}]: a name met again keeps its place and takes
    the later object. *)
Definition name_dict (st : state) (ds : list loc) : result (list (pyval * loc)) :=
  foldM (λ d p,
           let! name := getattr (deref st p) "_name" in
           if hashable name then Ret (vdict_set name p d)
           else raise TypeError "unhashable type")
        [] ds.

(** The three getters share their shape: the dictionary is built at the
    first call and kept; a [KeyError] of the lookup becomes [None]. *)
Definition get_desc (cached : NodeDesc → option (list (pyval * loc)))
    (listed : NodeDesc → list loc)
    (cache : option (list (pyval * loc)) → NodeDesc → NodeDesc)
    (pname : string) (st : state) : result (option loc * state) :=
  let! st :=
    (match cached (self st) with
     | None =>
         let! d := name_dict st (listed (self st)) in
         Ret (update_self (cache (Some d)) st)
     | Some _ => Ret st
     end) in
  match cached (self st) with
  | Some d => Ret (vdict_get (VStr pname) d, st)
  | None => raise TypeError "'NoneType' object is not subscriptable"
  end.

(** [get_param_desc(pname)], [get_output_desc(pname)] and
    [get_attribute_desc(pname)], for a name that is a string. *)
Definition get_param_desc : string → state → result (option loc * state) :=
  get_desc param_dict params set_param_dict.
Definition get_output_desc : string → state → result (option loc * state) :=
  get_desc output_dict outputs set_output_dict.
Definition get_attribute_desc : string → state → result (option loc * state) :=
  get_desc attribute_dict attributes set_attribute_dict.

(** [node_help_url(version, root)]; [root] is [None] or a string. *)
Definition node_help_url (py : builtins) (version : pyval) (root : option string)
    (n : NodeDesc) : string :=
  let wiki := "https://rmanwiki.pixar.com/display/REN" +:+ fmt_s py version +:+ "/" +:+
              fmt_s py (_name n) in
  match root with
  | None => wiki
  | Some root =>
      match split_on "|" root with
      | [base] => base +:+ "/REN" +:+ fmt_s py version +:+ "/" +:+ fmt_s py (_name n)
      | [base; ext] =>
          base +:+ "/REN" +:+ fmt_s py version +:+ "/" +:+ fmt_s py (_name n) +:+ ext
      | _ => wiki
      end
  end.

(** ** A sample of the builtins, for the examples

    The theorems below hold for every instance of [builtins]. The examples
    need one: here [int] reads a run of decimal digits, [float] the few
    literals of a table, and [eval] a decimal literal or the name of a
    builtin type; an undefined name is a [NameError] and any other text a
    [SyntaxError]. The examples use them on texts of these kinds only, on
    which this is what Python does. The sample interpreter finds the
    memory for a million items, and no more. *)

Fixpoint digits_value (acc : Z) (s : string) : option Z :=
  match s with
  | EmptyString => Some acc
  | String c s' =>
      if is_digit c then digits_value (10 * acc + Z.of_nat (nat_of_ascii c - 48)) s'
      else None
  end.

Definition sample_int (s : string) : option Z :=
  match s with EmptyString => None | _ => digits_value 0 s end.

Definition sample_float (s : string) : option float :=
  assoc s [("0", 0%float); ("1", 1%float); ("0.5", 0.5%float); ("0.25", 0.25%float)].

(** An undotted name: letters, digits and underscores, not starting with a
    digit. *)
Definition is_name_char (c : ascii) : bool :=
  let n := nat_of_ascii c in
  is_digit c || (n =? 95)%nat || ((65 <=? n) && (n <=? 90))%nat || ((97 <=? n) && (n <=? 122))%nat.

Definition is_name (s : string) : bool :=
  match s with
  | EmptyString => false
  | String c _ => negb (is_digit c) && all_chars is_name_char s
  end.

(** A decimal literal of Python: digits, without a leading zero unless it
    is a zero. *)
Definition is_literal (s : string) : bool :=
  match s with
  | String "0" rest => all_chars (ascii_eqb "0") rest
  | _ => true
  end.

Definition sample_eval (s : string) : result pyval :=
  match sample_int s with
  | Some z =>
      if is_literal s then Ret (VInt z)
      else raise (OtherException "SyntaxError") "invalid syntax"
  | None =>
      if str_in s ["int"; "float"; "str"; "bool"; "list"; "tuple"; "dict"] then Ret (VType s)
      else if is_name s then
        raise (OtherException "NameError") ("name " +:+ repr_str s +:+ " is not defined")
      else raise (OtherException "SyntaxError") "invalid syntax"
  end.

Definition sample_builtins : builtins :=
  Builtins sample_eval sample_int sample_float (λ _, "") (λ n, (n <=? 1000000)%Z).




(** A visibility builder for the examples: it appends to the trigger list
    the last segment of the operand path. *)
Definition sample_condvis (ops trig : pyval) : result (pyval * pyval) :=
  match ops, trig with
  | VDict d, VList l =>
      match assoc "conditionalVisPath" d with
      | Some (VStr path) =>
          Ret (ops, VList (l ++ [VStr (if has_char "/" path then last_segment path else path)]))
      | _ => Ret (ops, trig)
      end
  | _, _ => raise TypeError "sample_condvis"
  end.

(** The default parameter class, [NodeDescParamXML], on the elements of the
    examples, none of which has child elements. *)
Definition sample_xmlparamclass (e : dom_element) (build_condvis_func : pyval) : result obj :=
  NodeDescParamXML sample_builtins sample_condvis (flat e) build_condvis_func.

(** The OSL and JSON classes are not called on an args file. *)
Definition no_paramclass (pdata build_condvis_func : pyval) : result obj :=
  raise TypeError "no parameter class".

(** A host whose XML reader answers every path with the document [xml]. *)
Definition host_with (xml : xml_document) (base : string) : host :=
  Host (λ _, Ret xml) (λ _, false)
       (λ _, raise (OtherException "IOError") "")
       (λ _, raise (OtherException "IOError") "")
       (λ p, p) (λ _, base) [].

(** ** The vocabulary of the properties, and the inputs of the examples *)

(** A text is plain when [repr] merely wraps it in quotes: it has no
    backslash, no character that is not printable (a control character,
    U+00A0, U+00AD), and not both kinds of quote. *)
Definition plain_char (c : ascii) : bool :=
  let n := nat_of_ascii c in
  negb (ascii_eqb c backslash) && (32 <=? n)%nat &&
  negb ((127 <=? n)%nat && (n <=? 160)%nat) && negb (n =? 173)%nat.

(** See [plain_char]. *)
Definition plain (s : string) : bool :=
  all_chars plain_char s && negb (has_char squote s && has_char dquote s).



(** The same literals without their [f]. *)
Fixpoint floats (lits : list string) : string :=
  match lits with
  | [] => ""
  | [lit] => lit
  | lit :: rest => lit +:+ " " +:+ floats rest
  end.

(** A row of C-style literals in general: after the first, each comes with
    the white space that stands before it. *)
Fixpoint c_floats_after (rest : list (string * string)) : string :=
  match rest with
  | [] => ""
  | (ws, lit) :: rest' => ws +:+ lit +:+ "f" +:+ c_floats_after rest'
  end.
Definition c_row (lit : string) (rest : list (string * string)) : string :=
  lit +:+ "f" +:+ c_floats_after rest.



(** The computation returns an object, and the object satisfies [P]. *)
Definition built {A} (r : result A) (P : A → Prop) : Prop :=
  match r with Ret a => P a | Raise _ => False end.

(** [<param name="density" type="float" isDynamicArray="0"/>] under the root
    element. *)
Definition dynamic_zero_param : xml_element :=
  XmlElement
    (XmlTag "param" [("name", "density"); ("type", "float"); ("isDynamicArray", "0")])
    [XmlTag "args" [("format", "1.0")]].

(** [<param name="foo" type="float" min="0" slider="1"/>] under the root
    element. *)
Definition foo_param : xml_element :=
  XmlElement
    (XmlTag "param" [("name", "foo"); ("type", "float"); ("min", "0"); ("slider", "1")])
    [XmlTag "args" [("format", "1.0")]].

(** [f] leaves the attribute [k] as it was. *)
Definition keeps (k : string) (f : obj → result obj) : Prop :=
  ∀ self self', f self = Ret self' → vars self' k = vars self k.


(** [<param name="flags" type="string" arraySize="2" default="1ffff"/>] *)
Definition flags_param : xml_element :=
  XmlElement
    (XmlTag "param" [("name", "flags"); ("type", "string");
                     ("arraySize", "2"); ("default", "1ffff")])
    [XmlTag "args" [("format", "1.0")]].


(** [<param name="weights" type="float" arraySize="3" default="0.5f"/>] *)
Definition weights_param : xml_element :=
  XmlElement
    (XmlTag "param" [("name", "weights"); ("type", "float");
                     ("arraySize", "3"); ("default", "0.5f")])
    [XmlTag "args" [("format", "1.0")]].


(** The parameter built from [weights_param]. *)
Definition weights_obj : obj :=
  Eval vm_compute in
    match NodeDescParamXML sample_builtins sample_condvis weights_param VNone with
    | Ret o => o
    | Raise _ => []
    end.



(** A string parameter named [notes]. *)
Definition notes_string (o : obj) : bool :=
  match vars o "_name" with
  | Some name =>
      eq_str name "notes" &&
      match vars o "type" with Some type => eq_str type "string" | None => false end
  | None => false
  end.

(** The list without the first element that satisfies [P]. *)
Fixpoint drop_first {A} (P : A → bool) (l : list A) : list A :=
  match l with
  | [] => []
  | a :: l' => if P a then l' else a :: drop_first P l'
  end.

(** What a state keeps across a step, apart from the store. *)
Definition same_lists (st st' : state) : Prop :=
  params (self st') = params (self st) ∧
  outputs (self st') = outputs (self st) ∧
  attributes (self st') = attributes (self st) ∧
  pages_trigger_params (self st') = pages_trigger_params (self st).

(** The trigger names a parameter object holds. *)
Definition triggers_of (st : state) (p : loc) (names : list pyval) : Prop :=
  ∃ trig, vars (deref st p) "trigger_params" = Some trig ∧ py_iter trig = Ret names.

(** An element node. *)
Definition el (t : string) (attrs : list (string * string)) (ch : list xml_node) : xml_node :=
  Element (XmlTag t attrs) ch.

(** An args file with a page and two parameters under conditional
    visibility, two [notes] parameters and a [notes] output. *)
Definition demo_args : xml_document :=
  [el "args" [("format", "1.0")]
     [el "shaderType" [] [el "tag" [("value", "pattern")] []];
      el "page" [("name", "Shading"); ("conditionalVisOp", "equalTo");
                 ("conditionalVisPath", "../enable"); ("conditionalVisValue", "1")]
        [el "param" [("name", "enable"); ("type", "int"); ("default", "1")] [];
         el "param" [("name", "notes"); ("type", "string")] [];
         el "param" [("name", "gain"); ("type", "float");
                     ("conditionalVisOp", "equalTo");
                     ("conditionalVisPath", "../mode");
                     ("conditionalVisValue", "1")] [];
         el "param" [("name", "bias"); ("type", "float");
                     ("conditionalVisOp", "equalTo");
                     ("conditionalVisPath", "../mode");
                     ("conditionalVisValue", "0")] [];
         el "param" [("name", "mode"); ("type", "int")] [];
         el "param" [("name", "notes"); ("type", "string"); ("default", "kept")] []];
      el "output" [("name", "notes"); ("type", "string")] []]].

(** The construction of the node from [demo_args], and its result. *)
Definition demo_init : result state :=
  NodeDesc_init sample_builtins sample_condvis (host_with demo_args "PxrDemo.args")
    sample_xmlparamclass no_paramclass no_paramclass "/shaders/PxrDemo.args" VCondvisFunc.

(** The node built from [demo_args]. *)
Definition demo_state : state :=
  Eval vm_compute in
    match demo_init with Ret st => st | Raise _ => NodeDesc_new VNone end.

(** The names of the parameters a list refers to. *)
Definition names_of (st : state) (ps : list loc) : list (option pyval) :=
  (λ p, vars (deref st p) "_name") <$> ps.

(** One round of the loop over the [page] elements, as the trigger list
    sees it: for a page under conditional visibility the builder is handed
    the page's dictionary and the list, and the list is what the builder
    leaves of it. *)
Definition page_round (py : builtins) (cb : pyval → pyval → result (pyval * pyval))
    (func : pyval) (trig : pyval) (page : dom_element) : result pyval :=
  let e := el_tag page in
  if hasAttribute e "conditionalVisOp" && truthy func then
    let! value := safe_value_eval py (VStr (getAttribute e "conditionalVisValue")) in
    let ops := VDict [("conditionalVisOp", VStr (getAttribute e "conditionalVisOp"));
                      ("conditionalVisPath", VStr (getAttribute e "conditionalVisPath"));
                      ("conditionalVisValue", value)] in
    let! '(_, trig') := call_condvis cb func ops trig in
    Ret trig'
  else Ret trig.

(** The trigger names of the pages: what the builder makes of the empty
    list, one page after the other in document order. *)
Definition page_triggers (py : builtins) (cb : pyval → pyval → result (pyval * pyval))
    (func : pyval) (pages : list dom_element) : result pyval :=
  foldM (page_round py cb func) (VList []) pages.


(** ** More vocabulary, and more inputs *)

(** [sep.join(l)]. *)
Fixpoint str_join (sep : string) (l : list string) : string :=
  match l with
  | [] => ""
  | [s] => s
  | s :: rest => s +:+ sep +:+ str_join sep rest
  end.

(** The names of the pages around an element, innermost first. *)
Definition page_names (pages : list xml_tag) : list string :=
  (λ t, getAttribute t "name") <$> pages.

(** The endings [RE_VISOP] asks of a name. *)
Definition VISOP_SUFFIXES : list string := ["Left"; "Right"; "Op"; "Path"; "Value"].



(** [max(d, 1.0)] and [min(d, 0.0)] for a number [d]. *)
Definition soft_max (d : pyval) (x : pynum) : pyval :=
  if num_ltb x (NFloat 1) then VFloat 1 else d.
Definition soft_min (d : pyval) (x : pynum) : pyval :=
  if num_ltb (NFloat 0) x then VFloat 0 else d.

(** The attributes [_set_optional_attributes] may assign, for an element
    without child elements, and those [finalize] may assign. *)
Definition optional_written : list string :=
  ["size"; "default"; "options"; "widget"; "page"; "page_open"; "help";
   "conditionalVisOps"] ++ optional_attrs.*1.
Definition finalize_written : list string :=
  ["default"; "slidermax"; "slidermin"; "conditionalVisOps"; "trigger_params"].

(** The attributes the steps of [NodeDescParamOSL._set_optional_attributes]
    after [_set_size] may assign. *)
Definition osl_written : list string :=
  ["default"; "options"; "presets"; "widget"; "page"; "page_open"; "help";
   "conditionalVisOps"; "vstruct"] ++ optional_attrs.*1.

(** The widget of an element: its [widget] attribute, [default] when it has
    none or names [dynamicArray]. *)
Definition widget_of (e : xml_tag) : string :=
  if hasAttribute e "widget" && negb (str_eqb (getAttribute e "widget") "dynamicArray")
  then getAttribute e "widget" else "default".

(** The closing line of a help text: the name and, in brackets, the
    type. *)
Definition attr_type_str (py : builtins) (self : obj) : string :=
  fmt_s py (default VNone (vars self "_name")) +:+ " (" +:+
  fmt_s py (default VNone (vars self "type")) +:+ ")".

(** The tuple [_set_default] reads at index [i] of the values. *)
Definition tuple_at (py : builtins) (type : string) (vals : list string)
    (twidth i : nat) : result pyval :=
  let! tvals :=
    mapM (λ j, let! v := list_item vals (i + j) in str_to_num py type v) (seq 0 twidth) in
  Ret (VTuple tvals).

(** What the parser wrote of the node, apart from the three parameter
    lists. *)
Definition same_parse (st st' : state) : Prop :=
  _name (self st') = _name (self st) ∧
  node_type (self st') = node_type (self st) ∧
  rman_node_type (self st') = rman_node_type (self st) ∧
  help (self st') = help (self st) ∧
  textured_params (self st') = textured_params (self st) ∧
  _parsed_data (self st') = _parsed_data (self st) ∧
  _parsed_data_type (self st') = _parsed_data_type (self st).

(** The fields the parser sets once, before its loops. *)
Definition same_head (st st' : state) : Prop :=
  _name (self st') = _name (self st) ∧
  node_type (self st') = node_type (self st) ∧
  rman_node_type (self st') = rman_node_type (self st) ∧
  _parsed_data (self st') = _parsed_data (self st) ∧
  _parsed_data_type (self st') = _parsed_data_type (self st).

(** Every textured parameter is a parameter, in the same order, and every
    parameter is an object of the store. *)
Definition textured_in_params (st : state) : Prop :=
  sublist (textured_params (self st)) (params (self st)) ∧
  Forall (λ p, p < length (objs (heap st))) (params (self st)).

(** The name [_parse_args_xml] gives the node: the base name of the file up
    to its last dot. *)
Definition stem (base : string) : string :=
  match rsplit1 "." base with Some (stem, _) => stem | None => base end.

(** The [shaderType] elements of a document or, without any, its [typeTag]
    elements. *)
Definition shader_types (xml : xml_document) : list dom_element :=
  match doc_elements xml "shaderType" with
  | [] => doc_elements xml "typeTag"
  | _ => doc_elements xml "shaderType"
  end.

(** The node as [__init__] leaves it when nothing is parsed. *)
Definition empty_node (build_condvis_func : pyval) (st : state) : Prop :=
  self st = self (NodeDesc_new build_condvis_func) ∧ objs (heap st) = [].

(** The parameter objects of a list carry these names, in order. *)
Definition named (st : state) (ds : list loc) (names : list string) : Prop :=
  Forall2 (λ p n, vars (deref st p) "_name" = Some (VStr n)) ds names.

(** The last object of the list that carries the name. *)
Fixpoint last_named (pname : string) (ds : list loc) (names : list string) : option loc :=
  match ds, names with
  | p :: ds', n :: names' =>
      match last_named pname ds' names' with
      | Some q => Some q
      | None => if str_eqb pname n then Some p else None
      end
  | _, _ => None
  end.

(** Every value of the list is a string. *)
Definition all_strings (l : list pyval) : Prop := Forall (λ v, ∃ s, v = VStr s) l.

(** A parameter inside two pages:
    [<page name="Specular"><page name="Advanced"><param name="aniso" .../>]. *)
Definition aniso_param : xml_element :=
  XmlElement
    (XmlTag "param" [("name", "aniso"); ("type", "float")])
    [XmlTag "page" [("name", "Advanced")]; XmlTag "page" [("name", "Specular")];
     XmlTag "args" [("format", "1.0")]].

(** A parameter whose only ancestor is a page. *)
Definition stray_param : xml_element :=
  XmlElement (XmlTag "param" [("name", "stray"); ("type", "float")])
             [XmlTag "page" [("name", "Lost")]].


(** A float parameter with [default] 0.5 and a [min], before and after
    [finalize]. *)
Definition soft_obj : obj :=
  setattr (setattr (setattr (NodeDescParam_init VNone)
    "type" (VStr "float")) "default" (VFloat 0.5)) "min" (VInt 0).

Definition soft_obj_final : obj :=
  Eval vm_compute in
    match finalize sample_condvis soft_obj with
    | Ret o => o
    | Raise _ => []
    end.

(** The same with a list for a default, as an array parameter has it. *)
Definition array_min_obj : obj :=
  setattr (setattr (setattr (NodeDescParam_init VNone)
    "type" (VStr "float")) "default" (VList [VFloat 0.5; VFloat 0.5])) "min" (VInt 0).

(** [<param name="weights" type="float" arraySize="3" default="0.5" min="0"/>] *)
Definition weights_min_param : xml_element :=
  XmlElement
    (XmlTag "param" [("name", "weights"); ("type", "float"); ("arraySize", "3");
                     ("default", "0.5"); ("min", "0")])
    [XmlTag "args" [("format", "1.0")]].

(** The parameter built from [foo_param]. *)
Definition foo_obj : obj :=
  Eval vm_compute in
    match NodeDescParamXML sample_builtins sample_condvis foo_param VNone with
    | Ret o => o
    | Raise _ => []
    end.

(** A parameter with a help text, before and after [_format_help]. *)
Definition help_obj : obj :=
  setattr (setattr (setattr (NodeDescParam_init VNone)
    "_name" (VStr "gain")) "type" (VStr "float")) "help" (VStr "Gain of the signal").

Definition help_obj_final : obj :=
  Eval vm_compute in
    match _format_help sample_builtins help_obj with
    | Ret o => o
    | Raise _ => []
    end.

(** An args file without a [shaderType]. *)
Definition untyped_args : xml_document :=
  [el "args" [("format", "1.0")]
     [el "param" [("name", "gain"); ("type", "float")] []]].

(** A host whose JSON reader answers every path with [jdata]. *)
Definition json_host (jdata : pyval) : host :=
  Host (λ _, raise (OtherException "IOError") "") (λ _, false)
       (λ _, raise (OtherException "IOError") "")
       (λ _, Ret jdata) (λ p, p) (λ _, "") [].

(** The record of an OSL parameter [float gain[3]] whose metadata unlock
    its geometry and label it. *)
Definition osl_gain : pyval :=
  VDict [("name", VStr "gain"); ("type", VStr "float[3]");
         ("isoutput", VBool false); ("isstruct", VBool false);
         ("structname", VStr ""); ("varlenarray", VBool false);
         ("arraylen", VInt 3);
         ("default", VList [VFloat 1; VFloat 1; VFloat 1]);
         ("metadata",
          VList [VDict [("name", VStr "lockgeom"); ("type", VStr "int");
                        ("default", VInt 0)];
                 VDict [("name", VStr "label"); ("type", VStr "string");
                        ("default", VStr "Gain")]])].

(** The record of an OSL output [color result]. *)
Definition osl_result : pyval :=
  VDict [("name", VStr "result"); ("type", VStr "color");
         ("isoutput", VBool true); ("isstruct", VBool false);
         ("structname", VStr ""); ("varlenarray", VBool false);
         ("arraylen", VInt 0);
         ("default", VList [VFloat 0; VFloat 0; VFloat 0]);
         ("metadata", VList [])].

(** The default OSL class, on the sample builtins. *)
Definition sample_oslparamclass : pyval → pyval → result obj :=
  OSL.NodeDescParamOSL sample_builtins sample_condvis (λ _, "").

(** The metadata of [osl_gain], and the parameter built from it. *)
Definition osl_gain_metadict : list (pyval * pyval) :=
  Eval vm_compute in
    match OSL.metadict_of osl_gain with
    | Ret md => md
    | Raise _ => []
    end.

Definition osl_gain_obj : obj :=
  Eval vm_compute in
    match sample_oslparamclass osl_gain VNone with
    | Ret o => o
    | Raise _ => []
    end.

(** A host whose OSL reader answers every path with a shader of these two
    parameters. *)
Definition oso_host : host :=
  Host (λ _, raise (OtherException "IOError") "") (λ _, true)
       (λ _, Ret (OslQuery "PxrGain" "shader" [osl_gain; osl_result]))
       (λ _, raise (OtherException "IOError") "")
       (λ p, p) (λ _, "PxrGain.oso") [].

(** The node built from it. *)
Definition oso_state : state :=
  Eval vm_compute in
    match NodeDesc_init sample_builtins sample_condvis oso_host
            sample_xmlparamclass sample_oslparamclass no_paramclass
            "/shaders/PxrGain.oso" VNone with
    | Ret st => st
    | Raise _ => NodeDesc_new VNone
    end.

(** The node after [osl_gain] went through the loop of [_parse_oso_file]. *)
Definition gain_skipped_state : state :=
  Eval vm_compute in
    match add_osl_param oso_host sample_oslparamclass (NodeDesc_new VNone) osl_gain with
    | Ret st => st
    | Raise _ => NodeDesc_new VNone
    end.


(** An args file with two parameters whose options name a texture preset,
    the second of them a string parameter named [notes], and a host whose
    texture manager has the presets [texture] and [env]. *)
Definition textured_args : xml_document :=
  [el "args" [("format", "1.0")]
     [el "shaderType" [] [el "tag" [("value", "pattern")] []];
      el "param" [("name", "filename"); ("type", "string"); ("options", "texture|bump")] [];
      el "param" [("name", "notes"); ("type", "string"); ("options", "env")] [];
      el "param" [("name", "gain"); ("type", "float")] []]].

Definition textured_host : host :=
  Host (λ _, Ret textured_args) (λ _, false)
       (λ _, raise (OtherException "IOError") "")
       (λ _, raise (OtherException "IOError") "")
       (λ p, p) (λ _, "PxrTex.args") ["texture"; "env"].

(** The node built from [textured_args]. *)
Definition textured_state : state :=
  Eval vm_compute in
    match NodeDesc_init sample_builtins sample_condvis textured_host
            sample_xmlparamclass no_paramclass no_paramclass "/shaders/PxrTex.args" VNone with
    | Ret st => st
    | Raise _ => NodeDesc_new VNone
    end.

(** * Properties *)

(** ** Strings *)

Lemma str_app_cons c s t : String c s +:+ t = String c (s +:+ t).
Proof. reflexivity. Qed.

Lemma str_app_nil_l s : "" +:+ s = s.
Proof. reflexivity. Qed.

Lemma str_app_nil_r s : s +:+ "" = s.
Proof. induction s as [|c s IH]; [done|]. by rewrite str_app_cons, IH. Qed.

Lemma str_app_assoc s t u : (s +:+ t) +:+ u = s +:+ t +:+ u.
Proof. induction s as [|c s IH]; [done|]. by rewrite !str_app_cons, IH. Qed.

Lemma ascii_eqb_eq a b : ascii_eqb a b = true ↔ a = b.
Proof. unfold ascii_eqb. apply bool_decide_eq_true. Qed.

Lemma ascii_eqb_refl a : ascii_eqb a a = true.
Proof. by apply ascii_eqb_eq. Qed.

Lemma str_eqb_eq a b : str_eqb a b = true ↔ a = b.
Proof. unfold str_eqb. apply bool_decide_eq_true. Qed.

Lemma str_in_elem s l : str_in s l = true ↔ s ∈ l.
Proof. unfold str_in. apply bool_decide_eq_true. Qed.

Lemma starts_with_app s t : starts_with s t = true ↔ ∃ post, t = s +:+ post.
Proof.
  revert t. induction s as [|c s IH]; intros t; simpl.
  - split; [intros _; by exists t | done].
  - destruct t as [|d t].
    { split; [done |]. intros [post H]. by rewrite str_app_cons in H. }
    rewrite andb_true_iff, ascii_eqb_eq, IH. split.
    + intros [-> [post ->]]. by exists post.
    + intros [post H]. rewrite str_app_cons in H. injection H as -> ->. eauto.
Qed.

(** [str_contains] decides [occurs_in]. *)
Lemma str_contains_occurs s t : str_contains s t = true ↔ occurs_in s t.
Proof.
  induction t as [|d t IH]; simpl.
  - rewrite orb_false_r, starts_with_app. split.
    + intros [post H]. exists "", post. by rewrite str_app_nil_l.
    + intros (pre & post & H). destruct pre; [by exists post |].
      by rewrite str_app_cons in H.
  - rewrite orb_true_iff, starts_with_app, IH. split.
    + intros [[post H] | (pre & post & H)].
      * exists "", post. by rewrite str_app_nil_l.
      * exists (String d pre), post. by rewrite str_app_cons, H.
    + intros (pre & post & H). destruct pre as [|c pre].
      * left. by exists post.
      * right. rewrite str_app_cons in H. injection H as _ H. by exists pre, post.
Qed.






(** ** C1: [safe_value_eval] *)

Lemma safe_value_eval_returns py raw_val : returns (safe_value_eval py raw_val).
Proof.
  unfold returns, safe_value_eval.
  destruct (eval_builtin py raw_val) as [val|e]; [|by eexists].
  destruct (isinstance_type val); by eexists.
Qed.

(** With an [eval] that comes back and leaves the names of the module the
    builtins, [Interp.safe_value_eval] is the [safe_value_eval] of the
    record [builtins], and the state is the one [eval] left. *)
Lemma safe_value_eval_refines (I : Interp.interpreter) (py : builtins) (raw_val : pyval)
    (w w1 : Interp.world I) :
  Interp.run_eval I raw_val w = Interp.Done (eval_builtin py raw_val) w1 →
  Interp.builtin_names I w1 →
  Interp.safe_value_eval I raw_val w = Interp.Done (safe_value_eval py raw_val) w1.
Proof.
  intros He [Hc Hi]. unfold Interp.safe_value_eval, safe_value_eval. rewrite He.
  destruct (eval_builtin py raw_val) as [val|e].
  - rewrite Hi. by destruct (isinstance_type val).
  - by rewrite Hc.
Qed.




(** The string ["int"] comes back as a string, and so does a text that is
    no Python expression. *)
Example safe_value_eval_int :
  safe_value_eval sample_builtins (VStr "int") = Ret (VStr "int") ∧
  safe_value_eval sample_builtins (VStr "(1, 2") = Ret (VStr "(1, 2") ∧
  safe_value_eval sample_builtins (VStr "") = Ret (VStr "") ∧
  safe_value_eval sample_builtins (VStr "12") = Ret (VInt 12).
Proof. repeat split. Qed.

(** ** C7: [to_bool] *)

(** C7. On a string, [to_bool] never reaches its [raise]: when [int]
    refuses the text, [bool(val)] answers, and it is [True] for every text
    but the empty one, so ["abc"] and ["false"] both give [True]. *)
Theorem to_bool_str_never_raises (py : builtins) (s : string) :
  to_bool py (VStr s) =
  Ret (VBool (match py_int_str py s with
              | Some z => negb (z =? 0)%Z
              | None => negb (str_eqb s "")
              end)).
Proof.
  unfold to_bool, py_int. destruct (py_int_str py s) as [z|]; reflexivity.
Qed.

Example to_bool_samples :
  to_bool sample_builtins (VStr "abc") = Ret (VBool true) ∧
  to_bool sample_builtins (VStr "false") = Ret (VBool true) ∧
  to_bool sample_builtins (VStr "0") = Ret (VBool false) ∧
  to_bool sample_builtins (VStr "1") = Ret (VBool true) ∧
  to_bool sample_builtins (VBool false) = Ret (VBool false) ∧
  raises TypeError (to_bool sample_builtins VNone).
Proof. repeat split. by eexists. Qed.

(** ** C6: [validate_type] *)






(** Nor is a type string with a character that is not printable: the
    no-break space U+00A0 is shown as its escape. *)
Example validate_type_not_printable :
  let t := String "a" (String (ascii_of_nat 160) "b") in
  plain t = false ∧
  validate_type "Kd" (Some t) =
    raise NodeDescError "NodeDesc Error: param 'Kd' has invalid type: 'a\xa0b'" ∧
  ¬ occurs_in t "NodeDesc Error: param 'Kd' has invalid type: 'a\xa0b'".
Proof.
  split; [reflexivity|]. split; [reflexivity|].
  intros H. apply str_contains_occurs in H. by vm_compute in H.
Qed.

Example validate_type_samples :
  validate_type "Kd" (Some "float") = Ret "float" ∧
  validate_type "Kd" (Some "bxdf") = Ret "bxdf" ∧
  validate_type "Kd" (Some "double") =
    raise NodeDescError "NodeDesc Error: param 'Kd' has invalid type: 'double'" ∧
  validate_type "Kd" None =
    raise NodeDescError "NodeDesc Error: param 'Kd' has invalid type: None".
Proof. repeat split. Qed.

(** ** Regular expressions: the matcher against the language *)

Lemma str_app_eq_nil s t : s +:+ t = "" → s = "" ∧ t = "".
Proof. destruct s; [done|]. by rewrite str_app_cons. Qed.

Lemma nullable_lang r : nullable r = true ↔ lang r "".
Proof.
  split.
  - induction r as [| |p|r1 IH1 r2 IH2|r1 IH1 r2 IH2|r IH]; simpl; intros H; try done.
    + constructor.
    + apply andb_true_iff in H as [H1 H2].
      exact (lang_seq r1 r2 "" "" (IH1 H1) (IH2 H2)).
    + apply orb_true_iff in H as [H|H]; [apply lang_alt_l | apply lang_alt_r]; auto.
    + constructor.
  - intros H. remember "" as s eqn:Hs.
    induction H as [|p c Hp|r1 r2 s1 s2 H1 IH1 H2 IH2|r1 r2 s H IH|r1 r2 s H IH| |];
      simpl; try done.
    + apply str_app_eq_nil in Hs as [-> ->]. by rewrite IH1, IH2.
    + by rewrite IH.
    + rewrite IH by done. apply orb_true_r.
Qed.

Lemma deriv_sound c r s : lang (deriv c r) s → lang r (String c s).
Proof.
  revert s. induction r as [| |p|r1 IH1 r2 IH2|r1 IH1 r2 IH2|r IH]; simpl; intros s H.
  - inversion H.
  - inversion H.
  - destruct (p c) eqn:Hp; inversion H; subst. by constructor.
  - destruct (nullable r1) eqn:Hn.
    + inversion H as [| |? ? s1 s2 H1 H2|? ? ? Hl|? ? ? Hr| |]; subst.
      * inversion Hl as [| |? ? s1 s2 H1 H2| | | |]; subst.
        exact (lang_seq r1 r2 (String c s1) s2 (IH1 _ H1) H2).
      * apply nullable_lang in Hn.
        exact (lang_seq r1 r2 "" (String c s) Hn (IH2 _ Hr)).
    + inversion H as [| |? ? s1 s2 H1 H2| | | |]; subst.
      exact (lang_seq r1 r2 (String c s1) s2 (IH1 _ H1) H2).
  - inversion H; subst; [apply lang_alt_l | apply lang_alt_r]; auto.
  - inversion H as [| |? ? s1 s2 H1 H2| | | |]; subst.
    exact (lang_star_app r (String c s1) s2 (IH _ H1) H2).
Qed.

Lemma deriv_complete c r s : lang r (String c s) → lang (deriv c r) s.
Proof.
  intros H. remember (String c s) as t eqn:Ht. revert s Ht.
  induction H as [|p d Hp|r1 r2 s1 s2 H1 IH1 H2 IH2|r1 r2 t H IH|r1 r2 t H IH
                 |r|r s1 s2 H1 IH1 H2 IH2]; intros s Ht; simpl; try done.
  - injection Ht as -> <-. rewrite Hp. constructor.
  - destruct s1 as [|d s1].
    + rewrite str_app_nil_l in Ht. apply nullable_lang in H1. rewrite H1.
      apply lang_alt_r. by apply IH2.
    + rewrite str_app_cons in Ht. injection Ht as -> <-.
      destruct (nullable r1); [apply lang_alt_l|]; apply lang_seq; auto.
  - apply lang_alt_l. by apply IH.
  - apply lang_alt_r. by apply IH.
  - destruct s1 as [|d s1].
    + rewrite str_app_nil_l in Ht. by apply IH2.
    + rewrite str_app_cons in Ht. injection Ht as -> <-.
      apply lang_seq; auto.
Qed.

Lemma re_fullmatch_lang r s : re_fullmatch r s = true ↔ lang r s.
Proof.
  revert r. induction s as [|c s IH]; intros r; simpl.
  - apply nullable_lang.
  - rewrite IH. split; [apply deriv_sound | apply deriv_complete].
Qed.





(** ** C8: [_handle_c_style_floats] *)






(** A row with a tabulation and two spaces between its literals. *)
Example handle_c_style_floats_row :
  c_row "0.5" [(String (ascii_of_nat 9) "", ".25"); ("  ", "1e3")] =
    String "0" (String "." (String "5" (String "f" (String (ascii_of_nat 9) ".25f  1e3f")))) ∧
  _handle_c_style_floats (c_row "0.5" [(String (ascii_of_nat 9) "", ".25"); ("  ", "1e3")]) =
    String "0" (String "." (String "5" (String (ascii_of_nat 9) ".25  1e3"))).
Proof. by vm_compute. Qed.

Example handle_c_style_floats_samples :
  _handle_c_style_floats "0.001f" = "0.001" ∧
  _handle_c_style_floats "-1.5e-3f" = "-1.5e-3" ∧
  _handle_c_style_floats "0.001" = "0.001" ∧
  _handle_c_style_floats "falloff" = "falloff" ∧
  _handle_c_style_floats "1ef" = "1ef".
Proof. by vm_compute. Qed.

(** ** Results of a construction *)

Lemma built_returns {A} (r : result A) (P : A → Prop) :
  built r P → ∃ a, r = Ret a ∧ P a.
Proof. destruct r as [a|e]; [|done]. intros H. by exists a. Qed.

(** Runs the computation in the goal up to its next call of
    [safe_value_eval], whose argument is then evaluated. *)
Ltac run_to_eval py :=
  lazy head beta iota zeta delta -[safe_value_eval];
  match goal with
  | |- context [safe_value_eval py ?x] =>
      let x' := eval vm_compute in x in
      change (safe_value_eval py x) with (safe_value_eval py x')
  end.

(** ** C4: [_set_size] *)

(** C4. [_set_size] by cases on the two attributes. Three of them are as the
    claim has them. In the fourth, [isDynamicArray="0"] without an
    [arraySize], no branch assigns [self.size]: the object is returned as
    it came, and the parameter built from such an element has no [size]
    attribute at all, so that [is_array()] raises [AttributeError] where the
    claim (and the method's own docstring) promise [None]. *)
Theorem set_size_cases (py : builtins) (cb : pyval → pyval → result (pyval * pyval)) :
  (∀ pdata self,
     hasAttribute (element pdata) "isDynamicArray" = true →
     getAttribute (element pdata) "isDynamicArray" ≠ "0" →
     _set_size py pdata self = Ret (setattr self "size" (VInt (-1)))) ∧
  (∀ pdata self n,
     (hasAttribute (element pdata) "isDynamicArray" = true →
      getAttribute (element pdata) "isDynamicArray" = "0") →
     hasAttribute (element pdata) "arraySize" = true →
     py_int_str py (getAttribute (element pdata) "arraySize") = Some n →
     _set_size py pdata self = Ret (setattr self "size" (VInt n))) ∧
  (∀ pdata self,
     hasAttribute (element pdata) "isDynamicArray" = false →
     hasAttribute (element pdata) "arraySize" = false →
     _set_size py pdata self = Ret (setattr self "size" VNone)) ∧
  (∀ pdata self,
     hasAttribute (element pdata) "isDynamicArray" = true →
     getAttribute (element pdata) "isDynamicArray" = "0" →
     hasAttribute (element pdata) "arraySize" = false →
     _set_size py pdata self = Ret self) ∧
  (∃ o, NodeDescParamXML py cb dynamic_zero_param VNone = Ret o ∧
        vars o "size" = None ∧
        raises AttributeError (is_array o)).
Proof.
  unfold _set_size. repeat split.
  - intros pdata self -> Hne.
    destruct (str_eqb _ "0") eqn:E; [|done]. by apply str_eqb_eq in E.
  - intros pdata self n Hdyn -> Hn. unfold py_int. rewrite Hn.
    destruct (hasAttribute (element pdata) "isDynamicArray"); [|done].
    rewrite Hdyn by done. reflexivity.
  - by intros pdata self -> ->.
  - by intros pdata self -> -> ->.
  - apply (built_returns _ (λ o, vars o "size" = None ∧ raises AttributeError (is_array o))).
    vm_compute. split; [done | by eexists].
Qed.

(** ** C5: the soft bounds of [finalize] *)

(** C5, as the code has it. Whatever [eval] makes of ["0"] and ["1"], the
    parameter is built, with [default == 0.0] and [slidermax == 1.0]; it
    has a [min], so [finalize] takes its first branch and never looks at
    [slider]: no [slidermin] is set. *)
Theorem foo_soft_bounds (py : builtins) (cb : pyval → pyval → result (pyval * pyval))
    (build_condvis_func : pyval) :
  ∃ o, NodeDescParamXML py cb foo_param build_condvis_func = Ret o ∧
       vars o "default" = Some (VFloat 0) ∧
       vars o "slidermax" = Some (VFloat 1) ∧
       vars o "slidermin" = None ∧
       is_Some (vars o "min") ∧ is_Some (vars o "slider").
Proof.
  apply (built_returns _ (λ o, vars o "default" = Some (VFloat 0) ∧
    vars o "slidermax" = Some (VFloat 1) ∧ vars o "slidermin" = None ∧
    is_Some (vars o "min") ∧ is_Some (vars o "slider"))).
  destruct (safe_value_eval_returns py (VStr "0")) as [v0 H0].
  destruct (safe_value_eval_returns py (VStr "1")) as [v1 H1].
  run_to_eval py. rewrite H0.
  run_to_eval py. rewrite H1.
  vm_compute. repeat split; by eexists.
Qed.

(** The claim has [slidermin == 0.0]; the parameter has no [slidermin]. *)
Lemma foo_slidermin_counterexample :
  ∃ o, NodeDescParamXML sample_builtins sample_condvis foo_param VNone = Ret o ∧
       vars o "min" = Some (VInt 0) ∧ vars o "slider" = Some (VInt 1) ∧
       vars o "default" = Some (VFloat 0) ∧ vars o "slidermax" = Some (VFloat 1) ∧
       vars o "slidermin" = None ∧ hasattr o "slidermin" = false.
Proof.
  apply (built_returns _ (λ o, vars o "min" = Some (VInt 0) ∧ vars o "slider" = Some (VInt 1) ∧
    vars o "default" = Some (VFloat 0) ∧ vars o "slidermax" = Some (VFloat 1) ∧
    vars o "slidermin" = None ∧ hasattr o "slidermin" = false)).
  by vm_compute.
Qed.

(** ** Reading exceptions and attributes *)

Lemma bind_ret_inv {A B} (m : result A) (k : A → result B) (b : B) :
  bind m k = Ret b → ∃ a, m = Ret a ∧ k a = Ret b.
Proof. destruct m as [a|e]; [|done]. intros H. by exists a. Qed.

(** Takes apart a hypothesis [c = Ret x], statement by statement. *)
Ltac ret_inv :=
  repeat match goal with
    | H : bind _ _ = Ret _ |- _ =>
        let E := fresh "E" in apply bind_ret_inv in H as (? & E & H)
    | H : Ret _ = Ret _ |- _ => injection H as H; try subst
    | H : Raise _ = Ret _ |- _ => discriminate H
    | H : raise _ _ = Ret _ |- _ => discriminate H
    | H : (if ?c then _ else _) = Ret _ |- _ => destruct c eqn:?
    | H : match ?x with _ => _ end = Ret _ |- _ => destruct x eqn:?
    end.

Lemma str_eqb_refl a : str_eqb a a = true.
Proof. by apply str_eqb_eq. Qed.

Lemma str_eqb_ne a b : a ≠ b → str_eqb a b = false.
Proof. intros H. apply not_true_iff_false. by rewrite str_eqb_eq. Qed.

Lemma assoc_dict_set {A} (k k' : string) (v : A) (d : list (string * A)) :
  assoc k' (dict_set k v d) = if str_eqb k k' then Some v else assoc k' d.
Proof.
  induction d as [|[k0 v0] d IH]; simpl.
  - destruct (decide (k = k')) as [->|Hne].
    + by rewrite str_eqb_refl.
    + by rewrite (str_eqb_ne k k'), (str_eqb_ne k' k).
  - destruct (decide (k = k0)) as [->|Hk0]; simpl.
    + rewrite str_eqb_refl. simpl. destruct (decide (k0 = k')) as [->|Hne].
      * by rewrite str_eqb_refl.
      * by rewrite (str_eqb_ne k0 k'), (str_eqb_ne k' k0).
    + rewrite (str_eqb_ne k k0) by done. simpl. rewrite IH.
      destruct (decide (k' = k0)) as [->|Hne].
      * by rewrite str_eqb_refl, (str_eqb_ne k k0).
      * by rewrite (str_eqb_ne k' k0).
Qed.

Lemma vars_setattr self k v k' :
  vars (setattr self k v) k' = if str_eqb k k' then Some v else vars self k'.
Proof. apply assoc_dict_set. Qed.

Lemma vars_setattr_eq self k v : vars (setattr self k v) k = Some v.
Proof. by rewrite vars_setattr, str_eqb_refl. Qed.

Lemma vars_setattr_ne self k v k' : k ≠ k' → vars (setattr self k v) k' = vars self k'.
Proof. intros. by rewrite vars_setattr, str_eqb_ne. Qed.

Lemma getattr_ret self k v : getattr self k = Ret v ↔ vars self k = Some v.
Proof.
  unfold getattr. destruct (vars self k); split; intros H; by simplify_eq.
Qed.

Lemma foldM_keeps {A} k (f : obj → A → result obj) (l : list A) :
  Forall (λ a, keeps k (λ self, f self a)) l → keeps k (λ self, foldM f self l).
Proof.
  induction 1 as [|a l Ha Hl IH]; intros self self' H; simpl in H.
  - by injection H as ->.
  - apply bind_ret_inv in H as (s & Hs & H). rewrite (IH _ _ H). by apply Ha.
Qed.


(** ** C2: the broadcast of a single default *)

(** Settles [keeps k f] for a function made of [setattr]s on other
    attributes. *)
Ltac keeps_tac :=
  intros self self' H; ret_inv;
  repeat first
    [ rewrite vars_setattr_ne by done
    | match goal with |- context [if ?c then _ else _] => destruct c end ];
  try done.

Section Frame.
Variable py : builtins.
Variable cb : pyval → pyval → result (pyval * pyval).
Variable pdata : xml_element.

Lemma _set_widget_keeps_default : keeps "default" (_set_widget pdata).
Proof. unfold _set_widget. keeps_tac. Qed.

Lemma _set_page_keeps_default : keeps "default" (_set_page pdata).
Proof. unfold _set_page. keeps_tac. Qed.

Lemma _format_help_keeps_default : keeps "default" (_format_help py).
Proof. unfold _format_help. keeps_tac. Qed.

Lemma _set_help_keeps_default : keeps "default" (_set_help py pdata).
Proof.
  unfold _set_help. intros self self' H.
  apply _format_help_keeps_default in H. rewrite H.
  destruct (hasAttribute _ _); [|done]. by rewrite vars_setattr.
Qed.

Lemma _set_conditional_vis_ops_keeps_default :
  keeps "default" (_set_conditional_vis_ops py pdata).
Proof.
  unfold _set_conditional_vis_ops. apply foldM_keeps, Forall_forall.
  intros pname _. keeps_tac.
Qed.

Lemma set_optional_attr_keeps_default entry :
  entry.1 ≠ "default" → keeps "default" (λ self, set_optional_attr py pdata self entry).
Proof.
  destruct entry as [attr func]. simpl. intros Hne. unfold set_optional_attr.
  intros self self' H; ret_inv; by rewrite ?vars_setattr_ne.
Qed.

Lemma finalize_keeps_size : keeps "size" (finalize cb).
Proof.
  unfold finalize, set_soft_max, set_soft_min. keeps_tac.
Qed.











Lemma _set_optional_attributes_keeps self self' S1 S2 :
  _set_size py pdata self = Ret S1 → _set_default py pdata S1 = Ret S2 →
  _set_optional_attributes py pdata self = Ret self' →
  vars self' "default" = vars S2 "default".
Proof.
  intros H1 H2 H. unfold _set_optional_attributes in H.
  rewrite H1 in H. cbn [bind] in H. rewrite H2 in H. cbn [bind] in H.
  apply bind_ret_inv in H as (S3 & E3 & H). apply _set_widget_keeps_default in E3.
  apply bind_ret_inv in H as (S4 & E4 & H). apply _set_page_keeps_default in E4.
  apply bind_ret_inv in H as (S5 & E5 & H). apply _set_help_keeps_default in E5.
  apply bind_ret_inv in H as (S6 & E6 & H). apply _set_conditional_vis_ops_keeps_default in E6.
  apply bind_ret_inv in H as (S7 & E7 & H).
  apply (foldM_keeps "default") in E7.
  2:{ apply Forall_forall. intros entry Hin. apply set_optional_attr_keeps_default.
      revert entry Hin. apply Forall_forall. unfold optional_attrs.
      repeat constructor; done. }
  rewrite <- E3, <- E4, <- E5, <- E6, <- E7.
  ret_inv; by rewrite ?vars_setattr_ne.
Qed.
End Frame.



(** The text of a string default goes through the cleanup of C-style
    floats like any other: [1ffff] begins like a literal with its [f], and
    loses every [f]. *)
Example string_default_cleaned :
  ∃ o, NodeDescParamXML sample_builtins sample_condvis flags_param VNone = Ret o ∧
       vars o "default" = Some (VStr "1").
Proof. apply (built_returns _ (λ o, vars o "default" = Some (VStr "1"))). by vm_compute. Qed.


(** ** C9: [clear_parsed_data] *)

(** C9. [clear_parsed_data] sets the retained parse data to [None]; the
    store (the parameter objects and the trigger list) and every other
    field of the node are as before. *)
Theorem clear_parsed_data_frame (st : state) :
  let st' := clear_parsed_data st in
  _parsed_data (self st') = NoData ∧
  heap st' = heap st ∧
  _name (self st') = _name (self st) ∧
  node_type (self st') = node_type (self st) ∧
  rman_node_type (self st') = rman_node_type (self st) ∧
  help (self st') = help (self st) ∧
  params (self st') = params (self st) ∧
  outputs (self st') = outputs (self st) ∧
  attributes (self st') = attributes (self st) ∧
  param_dict (self st') = param_dict (self st) ∧
  attribute_dict (self st') = attribute_dict (self st) ∧
  output_dict (self st') = output_dict (self st) ∧
  textured_params (self st') = textured_params (self st) ∧
  pages_condvis_dict (self st') = pages_condvis_dict (self st) ∧
  pages_trigger_params (self st') = pages_trigger_params (self st) ∧
  ui_structs (self st') = ui_structs (self st) ∧
  ui_struct_membership (self st') = ui_struct_membership (self st) ∧
  build_condvis_func (self st') = build_condvis_func (self st) ∧
  _parsed_data_type (self st') = _parsed_data_type (self st).
Proof. repeat split. Qed.

(** ** C3 and C10: the passes of [_parse_node] *)

Section NodeFacts.
Variable py : builtins.
Variable cb : pyval → pyval → result (pyval * pyval).
Variable os : host.
Variables (xc : dom_element → pyval → result obj) (oc jc : pyval → pyval → result obj).

Lemma is_notes_spec st p b : is_notes st p = Ret b → b = notes_string (deref st p).
Proof.
  unfold is_notes, notes_string, getattr. intros H.
  destruct (vars (deref st p) "_name") as [name|]; [|done]. simpl in H.
  destruct (eq_str name "notes"); simpl in *; [|by simplify_eq].
  destruct (vars (deref st p) "type"); simpl in H; [by simplify_eq | discriminate H].
Qed.

Lemma weed_notes_spec st ps ps' :
  weed_notes st ps = Ret ps' → ps' = drop_first (λ p, notes_string (deref st p)) ps.
Proof.
  revert ps'. induction ps as [|p ps IH]; intros ps' H; simpl in *.
  - by simplify_eq.
  - apply bind_ret_inv in H as (b & Hb & H). apply is_notes_spec in Hb as ->.
    destruct (notes_string (deref st p)); [by simplify_eq|].
    apply bind_ret_inv in H as (rest & Hr & H). simplify_eq. f_equal. by apply IH.
Qed.

Lemma drop_first_single {A} (P : A → bool) l :
  length (filter (λ a, P a = true) l) ≤ 1 → Forall (λ a, P a = false) (drop_first P l).
Proof.
  induction l as [|a l IH]; simpl; [constructor|].
  rewrite filter_cons. destruct (P a) eqn:Ha.
  - rewrite decide_True by done. simpl. intros Hl.
    assert (filter (λ a, P a = true) l = []) as Hnil.
    { destruct (filter _ l); [done | simpl in Hl; lia]. }
    apply Forall_forall. intros b Hb.
    destruct (P b) eqn:Hpb; [|done].
    assert (b ∈ filter (λ a, P a = true) l) as Hin by by apply list_elem_of_filter.
    rewrite Hnil in Hin. by apply elem_of_nil in Hin.
  - rewrite decide_False by done. intros Hl. constructor; auto.
Qed.

Lemma collect_param_spec l st p st' old :
  collect_param l st p = Ret st' →
  cells (heap st) !! l = Some (VList old) →
  ∃ trig names,
    vars (deref st p) "trigger_params" = Some trig ∧ py_iter trig = Ret names ∧
    cells (heap st') = <[l := VList (old ++ names)]> (cells (heap st)) ∧
    objs (heap st') = objs (heap st) ∧ same_lists st st'.
Proof.
  unfold collect_param, list_iadd. intros H Hl.
  apply bind_ret_inv in H as (trig & Et & H). apply getattr_ret in Et.
  apply bind_ret_inv in H as (names & En & H).
  rewrite Hl in H. cbn [bind] in H.
  exists trig, names. split; [done|]. split; [done|].
  ret_inv; by repeat split.
Qed.

Lemma deref_objs st st' p : objs (heap st') = objs (heap st) → deref st' p = deref st p.
Proof. unfold deref. by intros ->. Qed.

Lemma collect_fold l ps : ∀ st st' old,
  foldM (collect_param l) st ps = Ret st' →
  cells (heap st) !! l = Some (VList old) →
  ∃ lists,
    Forall2 (triggers_of st) ps lists ∧
    cells (heap st') !! l = Some (VList (old ++ concat lists)) ∧
    length (cells (heap st')) = length (cells (heap st)) ∧
    objs (heap st') = objs (heap st) ∧ same_lists st st'.
Proof.
  induction ps as [|p ps IH]; intros st st' old H Hl; simpl in H.
  - simplify_eq. exists []. rewrite app_nil_r. by repeat split.
  - apply bind_ret_inv in H as (st1 & H1 & H).
    destruct (collect_param_spec _ _ _ _ _ H1 Hl)
      as (trig & names & Ht & Hn & Hc & Ho & Hp & Hq & Ha & Hpt).
    assert (cells (heap st1) !! l = Some (VList (old ++ names))) as Hl1.
    { rewrite Hc. apply list_lookup_insert_eq. by eapply lookup_lt_Some. }
    destruct (IH _ _ _ H Hl1) as (lists & HF & Hc' & Hlen & Ho' & Hp' & Hq' & Ha' & Hpt').
    exists (names :: lists). split; [|split; [|split; [|split]]].
    + constructor; [by exists trig|].
      eapply Forall2_impl; [exact HF|]. intros q ns (t & Hv & Hi).
      exists t. by rewrite <- (deref_objs st st1 q Ho).
    + simpl. by rewrite app_assoc.
    + by rewrite Hlen, Hc, length_insert.
    + congruence.
    + repeat split; congruence.
Qed.

Lemma collect_param_frame l st p st' :
  collect_param l st p = Ret st' → objs (heap st') = objs (heap st) ∧ same_lists st st'.
Proof. unfold collect_param, list_iadd. intros H. ret_inv; by repeat split. Qed.

Lemma collect_fold_frame l ps : ∀ st st',
  foldM (collect_param l) st ps = Ret st' →
  objs (heap st') = objs (heap st) ∧ same_lists st st'.
Proof.
  induction ps as [|p ps IH]; intros st st' H; simpl in H.
  - by simplify_eq.
  - apply bind_ret_inv in H as (st1 & H1 & H).
    destruct (collect_param_frame _ _ _ _ H1) as (Ho & Hp & Hq & Ha & Hpt).
    destruct (IH _ _ H) as (Ho' & Hp' & Hq' & Ha' & Hpt').
    repeat split; congruence.
Qed.

Lemma tag_trigger_spec names st p st' :
  tag_trigger names st p = Ret st' →
  cells (heap st') = cells (heap st) ∧ self st' = self st ∧
  ∀ q k, k ≠ "conditionalVisTrigger" → vars (deref st' q) k = vars (deref st q) k.
Proof.
  unfold tag_trigger. intros H. ret_inv; [|done].
  repeat split. intros q k Hk. unfold deref, set_obj. simpl.
  destruct (decide (p = q)) as [->|Hne].
  - destruct (decide (q < length (objs (heap st)))) as [Hlt|Hge].
    + rewrite list_lookup_insert_eq by done. simpl.
      by rewrite vars_setattr_ne.
    + by rewrite list_insert_ge by lia.
  - by rewrite list_lookup_insert_ne.
Qed.

Lemma tag_fold names ps : ∀ st st',
  foldM (tag_trigger names) st ps = Ret st' →
  cells (heap st') = cells (heap st) ∧ self st' = self st ∧
  ∀ q k, k ≠ "conditionalVisTrigger" → vars (deref st' q) k = vars (deref st q) k.
Proof.
  induction ps as [|p ps IH]; intros st st' H; simpl in H.
  - by simplify_eq.
  - apply bind_ret_inv in H as (st1 & H1 & H).
    destruct (tag_trigger_spec _ _ _ _ H1) as (Hc & Hs & Hv).
    destruct (IH _ _ H) as (Hc' & Hs' & Hv').
    repeat split; [congruence | congruence |].
    intros q k Hk. by rewrite Hv', Hv.
Qed.

(** The passes after the dispatch: what they change and what they keep. *)
Lemma post_parse_spec st st' :
  post_parse st = Ret st' →
  params (self st') = drop_first (λ p, notes_string (deref st p)) (params (self st)) ∧
  outputs (self st') = outputs (self st) ∧
  attributes (self st') = attributes (self st) ∧
  pages_trigger_params (self st') = pages_trigger_params (self st) ∧
  (∀ q k, k ≠ "conditionalVisTrigger" → vars (deref st' q) k = vars (deref st q) k) ∧
  (∀ old, cells (heap st) !! pages_trigger_params (self st) = Some (VList old) →
     ∃ lists, Forall2 (triggers_of st') (params (self st')) lists ∧
       cells (heap st') !! pages_trigger_params (self st') = Some (VList (old ++ concat lists))).
Proof.
  unfold post_parse. intros H.
  apply bind_ret_inv in H as (ps & Hw & H). apply weed_notes_spec in Hw.
  apply bind_ret_inv in H as (st2 & Hc & H).
  apply bind_ret_inv in H as (names & Hn & H).
  apply bind_ret_inv in H as (names' & Hn' & H).
  cbn [alloc_cell] in H.
  set (st1 := update_self (set_params ps) st) in *.
  set (st3 := State _ _) in H.
  destruct (tag_fold _ _ _ _ H) as (Hcells & Hself & Hvars).
  assert (∀ q, deref st3 q = deref st2 q) as Hd32 by done.
  assert (∀ q, deref st1 q = deref st q) as Hd1 by done.
  assert (∀ old, cells (heap st) !! pages_trigger_params (self st) = Some (VList old) →
     ∃ lists, Forall2 (triggers_of st) ps lists ∧
       cells (heap st2) !! pages_trigger_params (self st) = Some (VList (old ++ concat lists)) ∧
       objs (heap st2) = objs (heap st) ∧ same_lists st1 st2) as Hcoll.
  { intros old Hold.
    destruct (collect_fold _ _ _ _ old Hc Hold) as (lists & HF & Hl & _ & Ho & Hs).
    exists lists. repeat split; try done; apply Hs. }
  destruct (collect_fold_frame _ _ _ _ Hc) as (Hobj2 & Hp2 & Ho2 & Ha2 & Hpt2).
  change (params (self st1)) with ps in Hp2.
  change (objs (heap st1)) with (objs (heap st)) in Hobj2.
  change (outputs (self st1)) with (outputs (self st)) in Ho2.
  change (attributes (self st1)) with (attributes (self st)) in Ha2.
  change (pages_trigger_params (self st1)) with (pages_trigger_params (self st)) in Hpt2.
  rewrite Hself. simpl. repeat split; try congruence.
  - intros q k Hk. rewrite Hvars by done. rewrite Hd32.
    by rewrite (deref_objs st st2 q Hobj2).
  - intros old Hold. destruct (Hcoll old Hold) as (lists & HF & Hl & Ho & Hs).
    exists lists. split.
    + rewrite Hp2. eapply Forall2_impl; [exact HF|]. intros q ns (t & Hv & Hi).
      exists t. split; [|done]. rewrite Hvars by done. rewrite Hd32.
      by rewrite (deref_objs st st2 q Hobj2).
    + rewrite Hcells. unfold st3. simpl. rewrite Hpt2.
      rewrite lookup_app_l; [done|]. by eapply lookup_lt_Some.
Qed.

Lemma notes_string_kept st st' q :
  (∀ q k, k ≠ "conditionalVisTrigger" → vars (deref st' q) k = vars (deref st q) k) →
  notes_string (deref st' q) = notes_string (deref st q).
Proof. intros H. unfold notes_string. by rewrite !H. Qed.

(** C3, as the code has it. After a construction from any format, [params]
    is what the parser left without the first string parameter named
    [notes]; [outputs] and [attributes] are what the parser left. So when
    the parser left at most one such parameter in [params], none remains
    there. *)
Theorem notes_weeded_from_params (filepath : string) (build_condvis_func : pyval)
    (st' : state) :
  NodeDesc_init py cb os xc oc jc filepath build_condvis_func = Ret st' →
  ∃ st, parse_file py cb os xc oc jc filepath (NodeDesc_new build_condvis_func) = Ret st ∧
    params (self st') =
      drop_first (λ p, notes_string (deref st' p)) (params (self st)) ∧
    outputs (self st') = outputs (self st) ∧
    attributes (self st') = attributes (self st) ∧
    (length (filter (λ p, notes_string (deref st' p) = true) (params (self st))) ≤ 1 →
     Forall (λ p, notes_string (deref st' p) = false) (params (self st'))).
Proof.
  unfold NodeDesc_init, _parse_node. intros H.
  apply bind_ret_inv in H as (st & Hparse & H). exists st. split; [done|].
  destruct (post_parse_spec _ _ H) as (Hp & Ho & Ha & _ & Hv & _).
  assert (params (self st') =
            drop_first (λ p, notes_string (deref st' p)) (params (self st))) as Hp'.
  { rewrite Hp. clear -Hv. induction (params (self st)) as [|p l IH]; [done|].
    simpl. rewrite (notes_string_kept st st' p Hv). by rewrite IH. }
  repeat split; try done.
  intros Hone. rewrite Hp'. by apply drop_first_single.
Qed.












End NodeFacts.

Lemma demo_facts :
  demo_init = Ret demo_state ∧
  names_of demo_state (params (self demo_state)) =
    Some <$> [VStr "enable"; VStr "gain"; VStr "bias"; VStr "mode"; VStr "notes"] ∧
  names_of demo_state (outputs (self demo_state)) = [Some (VStr "notes")] ∧
  cells (heap demo_state) !! pages_trigger_params (self demo_state) =
    Some (VList [VStr "enable"; VStr "mode"; VStr "mode"]) ∧
  page_triggers sample_builtins sample_condvis VCondvisFunc (doc_elements demo_args "page") =
    Ret (VList [VStr "enable"]).
Proof. by vm_compute. Qed.

(** The second [notes] parameter stays in [params], and the [notes] output
    stays in [outputs]. *)
Lemma notes_counterexample :
  ∃ st', demo_init = Ret st' ∧
    (∃ p, p ∈ params (self st') ∧ notes_string (deref st' p) = true) ∧
    (∃ p, p ∈ outputs (self st') ∧ notes_string (deref st' p) = true).
Proof.
  exists demo_state. split; [by vm_compute|]. split.
  - exists 5. split; [|by vm_compute]. vm_compute. repeat constructor.
  - exists 6. split; [|by vm_compute]. vm_compute. repeat constructor.
Qed.

Lemma notes_weeded_witness :
  ∃ st, parse_file sample_builtins sample_condvis (host_with demo_args "PxrDemo.args")
          sample_xmlparamclass no_paramclass no_paramclass "/shaders/PxrDemo.args"
          (NodeDesc_new VCondvisFunc) = Ret st ∧
    params (self demo_state) =
      drop_first (λ p, notes_string (deref demo_state p)) (params (self st)) ∧
    outputs (self demo_state) = outputs (self st) ∧
    attributes (self demo_state) = attributes (self st) ∧
    (length (filter (λ p, notes_string (deref demo_state p) = true) (params (self st))) ≤ 1 →
     Forall (λ p, notes_string (deref demo_state p) = false) (params (self demo_state))).
Proof.
  apply (notes_weeded_from_params sample_builtins sample_condvis
           (host_with demo_args "PxrDemo.args") sample_xmlparamclass no_paramclass
           no_paramclass "/shaders/PxrDemo.args" VCondvisFunc demo_state).
  vm_compute. reflexivity.
Defined.


(** * Further properties *)

(** ** Pages and options of an args parameter *)

Lemma str_last_snoc s c : str_last (s +:+ String c "") = String c "".
Proof.
  induction s as [|d s IH]; [done|]. rewrite str_app_cons. simpl.
  destruct (s +:+ String c "") eqn:E; [|done].
  by destruct s.
Qed.

Lemma str_init_snoc s c : str_init (s +:+ String c "") = s.
Proof.
  induction s as [|d s IH]; [done|]. rewrite str_app_cons. simpl.
  destruct (s +:+ String c "") eqn:E.
  - by destruct s.
  - by rewrite IH.
Qed.

(** The loop of [_set_page], from the inside out: every page name goes in
    front of what is there, with its separator. *)
Lemma page_path_pages pages root up acc :
  Forall (λ t, tagName t = "page") pages → tagName root ≠ "page" →
  page_path (pages ++ root :: up) acc =
    Ret (fold_left (λ page name, name +:+ String PAGE_SEP page) (page_names pages) acc).
Proof.
  intros Hp Hr. revert acc. induction Hp as [|p pages Hpage _ IH]; intros acc; simpl.
  - by rewrite (str_eqb_ne _ _ Hr).
  - rewrite Hpage, str_eqb_refl. apply IH.
Qed.

Lemma fold_pages_join names acc :
  fold_left (λ page name, name +:+ String PAGE_SEP page) names (acc +:+ "|") =
    str_join "|" (rev names ++ [acc]) +:+ "|".
Proof.
  revert acc. induction names as [|n names IH]; intros acc; simpl.
  - done.
  - change (n +:+ String PAGE_SEP (acc +:+ "|")) with (n +:+ "|" +:+ (acc +:+ "|")).
    rewrite <- !str_app_assoc. rewrite (str_app_assoc n "|" acc), IH.
    f_equal. rewrite <- app_assoc. simpl.
    generalize (rev names). intros l. induction l as [|x l IHl]; simpl.
    + done.
    + destruct l as [|y l]; simpl in *; [done|]. by rewrite IHl.
Qed.

Lemma fold_pages names :
  fold_left (λ page name, name +:+ String PAGE_SEP page) names "" =
    match names with [] => "" | _ => str_join "|" (rev names) +:+ "|" end.
Proof.
  destruct names as [|n names]; [done|]. simpl.
  change (n +:+ String PAGE_SEP "") with (n +:+ "|").
  rewrite fold_pages_join. done.
Qed.

(** X1. For an element inside pages, below an element that is not a page,
    [_set_page] succeeds and [page] is the names of the pages joined by the
    separator, outermost first; outside any page it is the empty string. *)
Theorem set_page_path (pdata : xml_element) (self : obj)
    (pages : list xml_tag) (root : xml_tag) (up : list xml_tag) :
  ancestors pdata = pages ++ root :: up →
  Forall (λ t, tagName t = "page") pages →
  tagName root ≠ "page" →
  ∃ self', _set_page pdata self = Ret self' ∧
    vars self' "page" = Some (VStr (str_join "|" (rev (page_names pages)))).
Proof.
  intros Ha Hp Hr. unfold _set_page. rewrite Ha.
  rewrite (page_path_pages _ _ _ _ Hp Hr), fold_pages.
  destruct (pages ++ root :: up) as [|p_node rest] eqn:E; [by destruct pages|].
  cbn [bind]. eexists. split; [reflexivity|]. rewrite vars_setattr_eq. do 2 f_equal.
  destruct (page_names pages) as [|n names] eqn:En; [done|].
  change "|" with (String PAGE_SEP "") at 1 3.
  by rewrite str_last_snoc, str_eqb_refl, str_init_snoc.
Qed.

Lemma page_path_all_pages pages acc :
  Forall (λ t, tagName t = "page") pages → raises AttributeError (page_path pages acc).
Proof.
  intros Hp. revert acc. induction Hp as [|p pages Hpage _ IH]; intros acc; simpl.
  - by eexists.
  - rewrite Hpage, str_eqb_refl. apply IH.
Qed.

(** X2. When every ancestor of the element is a page, or it has none, the
    walk of [_set_page] reaches the [Document], which has neither
    [hasAttribute] nor [tagName]: an [AttributeError]. *)
Theorem set_page_no_root (pdata : xml_element) (self : obj) :
  Forall (λ t, tagName t = "page") (ancestors pdata) →
  raises AttributeError (_set_page pdata self).
Proof.
  intros Hp. unfold _set_page.
  destruct (ancestors pdata) as [|p_node rest] eqn:E; [by eexists|].
  destruct (page_path_all_pages _ "" Hp) as [msg ->]. by eexists.
Qed.

(* options *)

Lemma rsplit1_none sep s : rsplit1 sep s = None ↔ has_char sep s = false.
Proof.
  induction s as [|c s IH]; simpl; [done|].
  destruct (rsplit1 sep s) as [[a b]|].
  - split; [done|]. intros H. apply orb_false_iff in H as [_ H]. by apply IH in H.
  - destruct IH as [IH _]. rewrite (IH eq_refl), orb_false_r.
    unfold ascii_eqb. repeat case_bool_decide; naive_solver.
Qed.

Lemma foldM_raises {A S} (f : S → A → result S) (c : exc_class) (l : list A) (a : A) :
  a ∈ l → (∀ s, raises c (f s a)) →
  (∀ s b, b ∈ l → returns (f s b) ∨ raises c (f s b)) →
  ∀ s, raises c (foldM f s l).
Proof.
  intros Ha Hr Hall. induction l as [|b l IH]; intros s; [by apply elem_of_nil in Ha|].
  simpl. apply elem_of_cons in Ha as [<-|Ha].
  - destruct (Hr s) as [msg ->]. by eexists.
  - destruct (Hall s b) as [[s' ->]|[msg ->]]; [by left | | by eexists]. simpl.
    apply IH; [done|]. intros s0 b0 Hb0. apply Hall. by right.
Qed.

(** X3. When the text of [options] has a colon and one of its tokens has
    none, [kval[1]] is an [IndexError], which [except ValueError] lets
    through. *)
Theorem options_of_missing_colon (tmp tok : string) :
  has_char ":" tmp = true →
  tok ∈ split_on "|" tmp → has_char ":" tok = false →
  raises IndexError (options_of tmp).
Proof.
  intros Hc Htok Hno. unfold options_of. rewrite Hc.
  apply (foldM_raises _ _ _ tok); [done| |].
  - intros s. apply rsplit1_none in Hno. rewrite Hno. by eexists.
  - intros s b _. destruct (rsplit1 ":" b) as [[k v]|]; [left | right]; by eexists.
Qed.

Lemma rsplit1_app sep a b :
  has_char sep b = false → rsplit1 sep (a +:+ String sep b) = Some (a, b).
Proof.
  intros Hb. induction a as [|c a IH].
  - rewrite str_app_nil_l. simpl. apply rsplit1_none in Hb. rewrite Hb.
    by rewrite ascii_eqb_refl.
  - rewrite str_app_cons. simpl. by rewrite IH.
Qed.

Lemma assoc_app {A} k (l1 l2 : list (string * A)) :
  assoc k (l1 ++ l2) = match assoc k l1 with Some v => Some v | None => assoc k l2 end.
Proof.
  induction l1 as [|[k' v'] l1 IH]; simpl; [done|]. by destruct (str_eqb k k').
Qed.

Lemma split_on_absent sep s : has_char sep s = false → split_on sep s = [s].
Proof.
  induction s as [|c s IH]; simpl; [done|]. intros H.
  apply orb_false_iff in H as [Hc Hs]. rewrite (IH Hs).
  unfold ascii_eqb in *. repeat case_bool_decide; naive_solver.
Qed.

Lemma options_plain_fold toks : ∀ d0 tok,
  assoc tok (fold_left (λ options opt, dict_set opt (VStr opt) options) toks d0) =
    if bool_decide (tok ∈ toks) then Some (VStr tok) else assoc tok d0.
Proof.
  induction toks as [|t toks IH]; intros d0 tok; cbn [fold_left].
  - by rewrite bool_decide_false by apply not_elem_of_nil.
  - rewrite IH, assoc_dict_set.
    destruct (decide (tok ∈ toks)) as [Hin|Hin].
    + rewrite !bool_decide_true; [done| |done]. by right.
    + rewrite (bool_decide_false _ Hin).
      destruct (decide (t = tok)) as [->|Hne].
      * rewrite str_eqb_refl, bool_decide_true; [done | by left].
      * rewrite str_eqb_ne by done. rewrite bool_decide_false; [done|].
        intros [->|?]%elem_of_cons; done.
Qed.

(** X4. Without a colon in the text, the options are its tokens, each
    mapped to itself, and nothing else. *)
Theorem options_of_plain (tmp : string) :
  has_char ":" tmp = false →
  ∃ d, options_of tmp = Ret d ∧
    ∀ tok, assoc tok d =
      if bool_decide (tok ∈ split_on "|" tmp) then Some (VStr tok) else None.
Proof.
  intros Hc. unfold options_of. rewrite Hc.
  destruct (has_char "|" tmp) eqn:Hp.
  - eexists. split; [done|]. intros tok. by rewrite options_plain_fold.
  - eexists. split; [done|]. intros tok. rewrite (split_on_absent _ _ Hp). simpl.
    destruct (decide (tok = tmp)) as [->|Hne].
    + rewrite str_eqb_refl, bool_decide_true; [done | by left].
    + rewrite str_eqb_ne by done. rewrite bool_decide_false; [done|].
      intros [->|[]%elem_of_nil]%elem_of_cons; done.
Qed.

Lemma options_pairs_fold toks : ∀ pairs d0,
  Forall2 (λ tok kv, tok = kv.1 +:+ ":" +:+ kv.2 ∧ has_char ":" kv.2 = false) toks pairs →
  ∃ d, foldM (λ options tok,
                match rsplit1 ":" tok with
                | Some (k, v) => Ret (dict_set k (VStr v) options)
                | None => raise IndexError "list index out of range"
                end) d0 toks = Ret d ∧
    ∀ k, assoc k d = match assoc k (rev pairs) with
                     | Some v => Some (VStr v)
                     | None => assoc k d0
                     end.
Proof.
  induction toks as [|t toks IH]; intros pairs d0 H.
  - apply Forall2_nil_inv_l in H as ->. by exists d0.
  - apply Forall2_cons_inv_l in H as ([k v] & pairs' & [-> Hv] & H & ->). simpl in *.
    change (k +:+ ":" +:+ v) with (k +:+ String ":" v).
    rewrite (rsplit1_app _ _ _ Hv). simpl.
    destruct (IH pairs' (dict_set k (VStr v) d0) H) as (d & -> & Hd).
    exists d. split; [done|]. intros k'. rewrite Hd, assoc_app, assoc_dict_set. simpl.
    destruct (assoc k' (rev pairs')); [done|].
    destruct (decide (k = k')) as [->|Hne].
    + by rewrite str_eqb_refl.
    + by rewrite (str_eqb_ne k k'), (str_eqb_ne k' k).
Qed.

(** X5. When every token is [key:value], the value without a colon, the
    options map each key to its value; of two tokens with one key the later
    wins. *)
Theorem options_of_pairs (tmp : string) (pairs : list (string * string)) :
  has_char ":" tmp = true →
  Forall2 (λ tok kv, tok = kv.1 +:+ ":" +:+ kv.2 ∧ has_char ":" kv.2 = false)
          (split_on "|" tmp) pairs →
  ∃ d, options_of tmp = Ret d ∧ ∀ k, assoc k d = VStr <$> assoc k (rev pairs).
Proof.
  intros Hc H. unfold options_of. rewrite Hc.
  destruct (options_pairs_fold _ _ [] H) as (d & -> & Hd).
  exists d. split; [done|]. intros k. rewrite Hd. by destruct (assoc k (rev pairs)).
Qed.

(** ** The names of conditional visibility *)

Lemma lang_word w s : lang (RWord w) s ↔ s = w.
Proof.
  revert s. induction w as [|c w IH]; intros s; simpl.
  - split; [by inversion 1 | intros ->; constructor].
  - split.
    + inversion 1 as [| |r1 r2 s1 s2 H1 H2| | | |]; subst.
      inversion H1 as [|p c' Hp| | | | |]; subst. apply ascii_eqb_eq in Hp as <-.
      apply IH in H2 as ->. done.
    + intros ->. change (String c w) with (String c "" +:+ w).
      constructor; [constructor; apply ascii_eqb_refl | by apply IH].
Qed.

Lemma lang_star_chars p s : lang (RStar (RChar p)) s ↔ all_chars p s = true.
Proof.
  split.
  - intros H. remember (RStar (RChar p)) as r eqn:Er.
    induction H as [| | | | | |r s1 s2 H1 _ H2 IH2]; try discriminate; [done|].
    injection Er as ->. inversion H1 as [|p' c Hp| | | | |]; subst.
    rewrite str_app_cons, str_app_nil_l. simpl. rewrite Hp. by apply IH2.
  - induction s as [|c s IH]; simpl; [constructor|].
    intros [Hc Hs]%andb_true_iff. change (String c s) with (String c "" +:+ s).
    constructor; [by constructor | by apply IH].
Qed.

Lemma lang_plus_chars p s :
  lang (RPlus (RChar p)) s ↔ s ≠ "" ∧ all_chars p s = true.
Proof.
  unfold RPlus. split.
  - inversion 1 as [| |r1 r2 s1 s2 H1 H2| | | |]; subst.
    inversion H1 as [|p' c Hp| | | | |]; subst. apply lang_star_chars in H2.
    rewrite str_app_cons, str_app_nil_l. simpl. by rewrite Hp.
  - intros [Hne H]. destruct s as [|c s]; [done|]. simpl in H.
    apply andb_true_iff in H as [Hc Hs]. change (String c s) with (String c "" +:+ s).
    constructor; [by constructor | by apply lang_star_chars].
Qed.

Lemma all_chars_not c s :
  all_chars (λ x, negb (ascii_eqb x c)) s = true ↔ has_char c s = false.
Proof.
  induction s as [|d s IH]; simpl; [done|].
  rewrite andb_true_iff, orb_false_iff, IH, negb_true_iff.
  unfold ascii_eqb. clear. repeat case_bool_decide; intuition congruence.
Qed.

Lemma lang_alt r1 r2 s : lang (RAlt r1 r2) s ↔ lang r1 s ∨ lang r2 s.
Proof.
  split; [by inversion 1; subst; auto|]. intros [H|H]; by constructor.
Qed.

Lemma lang_visop_suffix s :
  lang (RAlt (RWord "Left") (RAlt (RWord "Right") (RAlt (RWord "Op")
          (RAlt (RWord "Path") (RWord "Value"))))) s ↔ s ∈ VISOP_SUFFIXES.
Proof.
  unfold VISOP_SUFFIXES. rewrite !elem_of_cons, elem_of_nil, !lang_alt, !lang_word.
  tauto.
Qed.

(** X6. The names [RE_VISOP] accepts: one of the five endings after at
    least one character that is no newline, and at most a newline after
    it. *)
Theorem is_visop_spec (pname : string) :
  is_visop pname = true ↔
  ∃ pre suf nl, pname = pre +:+ suf +:+ nl ∧
    pre ≠ "" ∧ has_char newline pre = false ∧
    suf ∈ VISOP_SUFFIXES ∧ (nl = "" ∨ nl = String newline "").
Proof.
  unfold is_visop. rewrite re_fullmatch_lang. unfold RE_VISOP. split.
  - inversion 1 as [| |r1 r2 pre rest Hpre Hrest| | | |]; subst.
    inversion Hrest as [| |r1 r2 suf nl Hsuf Hnl| | | |]; subst.
    apply lang_plus_chars in Hpre as [Hne Hpre]. apply all_chars_not in Hpre.
    apply lang_visop_suffix in Hsuf.
    exists pre, suf, nl. repeat split; try done.
    unfold ROpt in Hnl. inversion Hnl as [| | |r1 r2 s H1|r1 r2 s H1| |]; subst.
    + right. inversion H1 as [|p c Hp| | | | |]; subst. by apply ascii_eqb_eq in Hp as <-.
    + left. by inversion H1.
  - intros (pre & suf & nl & -> & Hne & Hpre & Hsuf & Hnl).
    constructor; [apply lang_plus_chars; split; [done | by apply all_chars_not]|].
    constructor; [by apply lang_visop_suffix|].
    destruct Hnl as [->| ->]; [apply lang_alt_r; constructor|].
    apply lang_alt_l. constructor. apply ascii_eqb_refl.
Qed.






(** ** [finalize] *)

Lemma hasattr_false self k : hasattr self k = false ↔ vars self k = None.
Proof. unfold hasattr. by destruct (vars self k). Qed.

Lemma hasattr_true self k : hasattr self k = true ↔ is_Some (vars self k).
Proof. unfold hasattr. destruct (vars self k); split; (done || by intros [? ?] || eauto). Qed.

Lemma is_None_true v : is_None v = true ↔ v = VNone.
Proof. by destruct v. Qed.

Lemma finalize_adds (cb : pyval → pyval → result (pyval * pyval))
    (self self' : obj) (k : string) (v : pyval) :
  finalize cb self = Ret self' →
  vars self k = Some v →
  k ≠ "conditionalVisOps" → k ≠ "trigger_params" →
  (k = "default" → v ≠ VNone) →
  vars self' k = Some v.
Proof.
  unfold finalize, set_soft_max, set_soft_min. intros H Hk Hc Ht Hd.
  apply bind_ret_inv in H as (d & Ed & H). apply getattr_ret in Ed.
  apply bind_ret_inv in H as (S1 & E1 & H).
  assert (vars S1 k = Some v ∧ ∀ a, a ≠ "default" → vars S1 a = vars self a) as [Hk1 HS1].
  { destruct (is_None d) eqn:En.
    - apply is_None_true in En as ->.
      assert (k ≠ "default") as Hne.
      { intros ->. rewrite Hk in Ed. injection Ed as ->. by apply Hd. }
      ret_inv; (split; [|intros a Ha]; by rewrite vars_setattr_ne).
    - by injection E1 as <-. }
  clear E1 Ed Hd.
  apply bind_ret_inv in H as (t & Et & H).
  apply bind_ret_inv in H as (S2 & E2 & H).
  assert (vars S2 k = Some v) as Hk2.
  { clear H. ret_inv; rewrite ?vars_setattr; unfold hasattr in *;
      repeat match goal with
        | |- context [str_eqb ?a k] =>
            destruct (decide (a = k)) as [<-|?];
            [rewrite str_eqb_refl | rewrite (str_eqb_ne a k) by done]
        | H : context [vars (setattr _ _ _) _] |- _ => rewrite vars_setattr_ne in H by done
        end; try done;
      repeat match goal with
        | H : context [vars ?s ?a], E : vars ?s ?a = Some _ |- _ => rewrite E in H
        end; try done;
      repeat match goal with
        | H : context [match ?x with _ => _ end] |- _ => destruct x
        end; done. }
  clear E2 Et.
  ret_inv; by rewrite ?vars_setattr_ne.
Qed.

(** X8. [finalize] only adds: an attribute the object has keeps its value,
    apart from a [default] that is [None] and the two objects handed to the
    visibility builder. *)
Theorem finalize_only_adds (cb : pyval → pyval → result (pyval * pyval))
    (self self' : obj) (k : string) (v : pyval) :
  finalize cb self = Ret self' →
  vars self k = Some v →
  k ≠ "conditionalVisOps" → k ≠ "trigger_params" →
  (k = "default" → v ≠ VNone) →
  vars self' k = Some v.
Proof. apply finalize_adds. Qed.

Lemma finalize_tail_keeps (cb : pyval → pyval → result (pyval * pyval)) self self' k :
  k ≠ "conditionalVisOps" → k ≠ "trigger_params" →
  (let! ops := getattr self "conditionalVisOps" in
   if truthy ops then
     let! func := getattr self "build_condvis_func" in
     if negb (is_None func) then
       let! trig := getattr self "trigger_params" in
       let! '(ops', trig') := call_condvis cb func ops trig in
       Ret (setattr (setattr self "conditionalVisOps" ops') "trigger_params" trig')
     else Ret self
   else Ret self) = Ret self' →
  vars self' k = vars self k.
Proof. intros Hc Ht H. ret_inv; by rewrite ?vars_setattr_ne. Qed.

(** X9. The soft bounds of [finalize], for a float or int parameter that
    has neither [max] nor [slidermax] and whose default is a number [d]:
    with a [min], [slidermax] is [max(d, 1.0)] and [slidermin] is left as
    it is; without a [min] but with a [slider], [slidermax] is
    [max(d, 1.0)] and [slidermin], unless there is one, [min(d, 0.0)];
    with neither, there is no [slidermax] and [slidermin] is left as it
    is. *)
Theorem finalize_soft_bounds (cb : pyval → pyval → result (pyval * pyval))
    (self self' : obj) (t : string) (d : pyval) (x : pynum) :
  finalize cb self = Ret self' →
  vars self "type" = Some (VStr t) → t = "float" ∨ t = "int" →
  vars self' "default" = Some d → as_num d = Some x →
  vars self "max" = None → vars self "slidermax" = None →
  (is_Some (vars self "min") →
     vars self' "slidermax" = Some (soft_max d x) ∧
     vars self' "slidermin" = vars self "slidermin") ∧
  (vars self "min" = None → is_Some (vars self "slider") →
     vars self' "slidermax" = Some (soft_max d x) ∧
     vars self' "slidermin" =
       Some (default (soft_min d x) (vars self "slidermin"))) ∧
  (vars self "min" = None → vars self "slider" = None →
     vars self' "slidermax" = None ∧
     vars self' "slidermin" = vars self "slidermin").
Proof.
  unfold finalize, set_soft_max, set_soft_min. intros H Htype Ht Hd Hx Hmax Hsmax.
  apply bind_ret_inv in H as (d0 & Ed & H).
  apply bind_ret_inv in H as (S1 & E1 & H).
  assert (∀ a, a ≠ "default" → vars S1 a = vars self a) as HS1.
  { intros a Ha. clear H. ret_inv; by rewrite ?vars_setattr_ne. }
  clear E1 Ed.
  rewrite <- (HS1 "min"), <- (HS1 "slider"), <- (HS1 "slidermin") by done.
  rewrite <- (HS1 "max") in Hmax by done. rewrite <- (HS1 "slidermax") in Hsmax by done.
  rewrite <- (HS1 "type") in Htype by done. clear HS1.
  apply bind_ret_inv in H as (t' & Et & H). apply getattr_ret in Et.
  rewrite Htype in Et. injection Et as <-.
  assert (eq_str (VStr t) "float" || eq_str (VStr t) "int" = true) as Hfi.
  { destruct Ht as [-> | ->]; done. }
  rewrite Hfi in H. clear Hfi.
  apply bind_ret_inv in H as (S2 & E2 & H).
  pose proof (finalize_tail_keeps cb S2 self' "default" ltac:(done) ltac:(done) H) as Hd2.
  pose proof (finalize_tail_keeps cb S2 self' "slidermax" ltac:(done) ltac:(done) H) as Hmax2.
  pose proof (finalize_tail_keeps cb S2 self' "slidermin" ltac:(done) ltac:(done) H) as Hmin2.
  rewrite Hmax2, Hmin2. rewrite Hd2 in Hd. clear H Hd2 Hmax2 Hmin2.
  unfold hasattr, getattr, py_max, py_min, py_lt, py_gt in E2.
  rewrite Hmax, Hsmax in E2. cbn [negb andb] in E2.
  assert (∀ S v, vars (setattr S "slidermin" v) "slidermax" = vars S "slidermax") as Hf1.
  { intros. by rewrite vars_setattr_ne. }
  assert (∀ S v, vars (setattr S "slidermin" v) "max" = vars S "max") as Hf2.
  { intros. by rewrite vars_setattr_ne. }
  assert (∀ S v, vars (setattr S "slidermin" v) "default" = vars S "default") as Hf3.
  { intros. by rewrite vars_setattr_ne. }
  split; [|split].
  - intros [m Hm]. rewrite Hm in E2.
    destruct (vars S1 "default") as [d1|] eqn:Ed1; [|done]. cbn [bind] in E2.
    destruct (as_num d1) as [x1|] eqn:Ex1; [|done]. cbn [bind] in E2.
    injection E2 as <-. rewrite vars_setattr_ne in Hd by done.
    rewrite Ed1 in Hd. injection Hd as ->. rewrite Hx in Ex1. injection Ex1 as <-.
    by rewrite vars_setattr_eq, vars_setattr_ne.
  - intros Hm [s Hs]. rewrite Hm, Hs in E2. cbn [negb andb] in E2.
    destruct (vars S1 "slidermin") as [m|] eqn:Em; cbn [negb bind] in E2.
    + rewrite Hmax, Hsmax in E2. cbn [negb andb] in E2.
      destruct (vars S1 "default") as [d1|] eqn:Ed1; [|done]. cbn [bind] in E2.
      destruct (as_num d1) as [x1|] eqn:Ex1; [|done]. cbn [bind] in E2.
      injection E2 as <-. rewrite vars_setattr_ne in Hd by done.
      rewrite Ed1 in Hd. injection Hd as ->. rewrite Hx in Ex1. injection Ex1 as <-.
      by rewrite vars_setattr_eq, vars_setattr_ne.
    + destruct (vars S1 "default") as [d1|] eqn:Ed1; [|done]. cbn [bind] in E2.
      destruct (as_num d1) as [x1|] eqn:Ex1; [|done]. cbn [bind] in E2.
      rewrite Hf1, Hf2, Hmax, Hsmax in E2. cbn [negb andb] in E2.
      rewrite Hf3, Ed1 in E2. cbn [bind] in E2. rewrite Ex1 in E2. cbn [bind] in E2.
      injection E2 as <-. rewrite !vars_setattr_ne in Hd by done.
      rewrite Ed1 in Hd. injection Hd as ->. rewrite Hx in Ex1. injection Ex1 as <-.
      rewrite vars_setattr_eq, vars_setattr_ne by done. by rewrite vars_setattr_eq.
  - intros Hm Hs. rewrite Hm, Hs in E2. by injection E2 as <-.
Qed.

(** X10. For a float or int parameter with a [min] or a [slider] and
    neither [max] nor [slidermax], a default that is not a number (the list
    of an array parameter, a text [eval] could not read) makes [max] or
    [min] raise [TypeError]. *)
Theorem finalize_bounds_type_error (cb : pyval → pyval → result (pyval * pyval))
    (self : obj) (t : string) (d : pyval) :
  vars self "type" = Some (VStr t) → t = "float" ∨ t = "int" →
  vars self "default" = Some d → d ≠ VNone → as_num d = None →
  vars self "max" = None → vars self "slidermax" = None →
  is_Some (vars self "min") ∨ is_Some (vars self "slider") →
  raises TypeError (finalize cb self).
Proof.
  intros Htype Ht Hd Hn Hx Hmax Hsmax Hms.
  unfold finalize, set_soft_max, set_soft_min, hasattr, getattr, py_max, py_min, py_lt, py_gt.
  rewrite Hd. cbn [bind]. assert (is_None d = false) as -> by by destruct d.
  cbn [bind]. rewrite Htype. cbn [bind].
  assert (eq_str (VStr t) "float" || eq_str (VStr t) "int" = true) as ->.
  { destruct Ht as [-> | ->]; done. }
  rewrite Hmax, Hsmax. cbn [negb andb].
  destruct (vars self "min") as [m|] eqn:Em.
  - rewrite Hd. cbn [bind]. rewrite Hx. by eexists.
  - destruct Hms as [[? ?]|[s Hs]]; [done|]. rewrite Hs.
    destruct (vars self "slidermin") as [sm|] eqn:Esm; cbn [negb andb bind].
    + rewrite Hmax, Hsmax. cbn [negb andb]. rewrite Hd. cbn [bind]. rewrite Hx. by eexists.
    + rewrite Hd. cbn [bind]. rewrite Hx. by eexists.
Qed.

(** ** What a built args parameter holds *)

Section Frames.
Variable py : builtins.
Variable cb : pyval → pyval → result (pyval * pyval).
Variable pdata : xml_element.

Lemma finalize_frame k : k ∉ finalize_written → keeps k (finalize cb).
Proof.
  unfold finalize_written. rewrite !not_elem_of_cons. intros (N1&N2&N3&N4&N5&_).
  unfold finalize, set_soft_max, set_soft_min. keeps_tac.
Qed.

Lemma set_optional_attr_frame k entry :
  entry.1 ≠ k → keeps k (λ self, set_optional_attr py pdata self entry).
Proof.
  destruct entry as [attr func]. simpl. intros Hne. unfold set_optional_attr.
  intros self self' H; ret_inv; by rewrite ?vars_setattr_ne.
Qed.

Lemma _set_optional_attributes_frame k :
  k ∉ optional_written → keeps k (_set_optional_attributes py pdata).
Proof.
  unfold optional_written. rewrite not_elem_of_app, !not_elem_of_cons.
  intros [(N1&N2&N3&N4&N5&N6&N7&N8&_) Hopt] self self' H.
  unfold _set_optional_attributes in H.
  apply bind_ret_inv in H as (S1 & E1 & H).
  apply bind_ret_inv in H as (S2 & E2 & H).
  apply bind_ret_inv in H as (S3 & E3 & H).
  apply bind_ret_inv in H as (S4 & E4 & H).
  apply bind_ret_inv in H as (S5 & E5 & H).
  apply bind_ret_inv in H as (S6 & E6 & H).
  apply bind_ret_inv in H as (S7 & E7 & H).
  assert (vars S1 k = vars self k) as <-.
  { revert E1. unfold _set_size. clear -N1. revert self S1. keeps_tac. }
  assert (vars S2 k = vars S1 k) as <-.
  { revert E2. unfold _set_default. clear -N2. revert S1 S2. keeps_tac. }
  assert (vars S3 k = vars S2 k) as <-.
  { revert E3. unfold _set_widget. clear -N3 N4. revert S2 S3. keeps_tac. }
  assert (vars S4 k = vars S3 k) as <-.
  { revert E4. unfold _set_page. clear -N5 N6. revert S3 S4. keeps_tac. }
  assert (vars S5 k = vars S4 k) as <-.
  { revert E5. unfold _set_help, _format_help. clear -N7. revert S4 S5. keeps_tac. }
  assert (vars S6 k = vars S5 k) as <-.
  { revert E6. clear -N8. revert S5 S6. unfold _set_conditional_vis_ops.
    apply foldM_keeps, Forall_forall. intros pname _. keeps_tac. }
  assert (vars S7 k = vars S6 k) as <-.
  { revert E7. clear -Hopt. revert S6 S7. apply foldM_keeps, Forall_forall. intros entry Hin.
    apply set_optional_attr_frame. intros <-. apply Hopt.
    by apply list_elem_of_fmap_2. }
  clear -H N4. ret_inv; by rewrite ?vars_setattr_ne.
Qed.

End Frames.

Lemma validate_type_valid pname ptype t :
  validate_type pname ptype = Ret t → ptype = Some t ∧ t ∈ VALID_TYPES.
Proof.
  unfold validate_type. destruct ptype as [t'|]; [|done].
  destruct (str_in t' VALID_TYPES) eqn:E; [|done].
  intros [= <-]. split; [done|]. by apply str_in_elem.
Qed.

(** X11. A parameter built from an args element has the element's [name],
    the type [_set_type] read, which is one of [VALID_TYPES], and the
    visibility builder it was given; [has_ui_struct] and
    [conditionalVisTrigger] are [False] and there is no [uiStruct]. *)
Theorem xml_param_identity (py : builtins) (cb : pyval → pyval → result (pyval * pyval))
    (pdata : xml_element) (build_condvis_func : pyval) (o : obj) :
  NodeDescParamXML py cb pdata build_condvis_func = Ret o →
  vars o "_name" = Some (VStr (getAttribute (element pdata) "name")) ∧
  (∃ t, _set_type pdata = Some t ∧ t ∈ VALID_TYPES ∧ vars o "type" = Some (VStr t)) ∧
  vars o "build_condvis_func" = Some build_condvis_func ∧
  vars o "has_ui_struct" = Some (VBool false) ∧
  vars o "conditionalVisTrigger" = Some (VBool false) ∧
  vars o "uiStruct" = None.
Proof.
  unfold NodeDescParamXML. intros H.
  apply bind_ret_inv in H as (t & Et & H). apply validate_type_valid in Et as [Et Hvalid].
  apply bind_ret_inv in H as (S & ES & H).
  assert (∀ k, k ∉ optional_written → k ∉ finalize_written →
            vars o k = vars (setattr (setattr (NodeDescParam_init build_condvis_func) "_name"
                         (VStr (getAttribute (element pdata) "name"))) "type" (VStr t)) k) as Hk.
  { intros k H1 H2. rewrite (finalize_frame cb k H2 _ _ H).
    apply (_set_optional_attributes_frame py pdata k H1 _ _ ES). }
  assert (∀ k, bool_decide (k ∈ optional_written ++ finalize_written) = false →
            (k ∉ optional_written) ∧ (k ∉ finalize_written)) as Hnot.
  { intros k Hb. apply bool_decide_eq_false in Hb. rewrite elem_of_app in Hb. tauto. }
  repeat split.
  - destruct (Hnot "_name" eq_refl). by rewrite Hk.
  - exists t. destruct (Hnot "type" eq_refl). by rewrite Hk.
  - destruct (Hnot "build_condvis_func" eq_refl). by rewrite Hk.
  - destruct (Hnot "has_ui_struct" eq_refl). by rewrite Hk.
  - destruct (Hnot "conditionalVisTrigger" eq_refl). by rewrite Hk.
  - destruct (Hnot "uiStruct" eq_refl). by rewrite Hk.
Qed.

(** X12. A parameter built from an args element always has a [widget]:
    the element's, or [default] when it has none or names [dynamicArray],
    which is never the widget. *)
Theorem xml_param_widget (py : builtins) (cb : pyval → pyval → result (pyval * pyval))
    (pdata : xml_element) (build_condvis_func : pyval) (o : obj) :
  NodeDescParamXML py cb pdata build_condvis_func = Ret o →
  vars o "widget" = Some (VStr (widget_of (element pdata))) ∧
  widget_of (element pdata) ≠ "dynamicArray".
Proof.
  intros H. split.
  2:{ unfold widget_of. destruct (hasAttribute _ _); [|done]. simpl.
      destruct (str_eqb _ _) eqn:E; [done|]. simpl. intros E'. rewrite E' in E. done. }
  unfold NodeDescParamXML in H.
  apply bind_ret_inv in H as (t & Et & H).
  apply bind_ret_inv in H as (S & ES & H).
  assert ("widget" ∉ finalize_written) as Hw.
  { by apply (proj1 (bool_decide_eq_false _)). }
  rewrite (finalize_frame cb "widget" Hw _ _ H).
  clear H. unfold _set_optional_attributes in ES.
  apply bind_ret_inv in ES as (S1 & E1 & H).
  apply bind_ret_inv in H as (S2 & E2 & H).
  apply bind_ret_inv in H as (S3 & E3 & H).
  apply bind_ret_inv in H as (S4 & E4 & H).
  apply bind_ret_inv in H as (S5 & E5 & H).
  apply bind_ret_inv in H as (S6 & E6 & H).
  apply bind_ret_inv in H as (S7 & E7 & H).
  assert (vars S3 "widget" = Some (VStr (if hasAttribute (element pdata) "widget"
            then getAttribute (element pdata) "widget" else "default"))) as H3.
  { clear -E3. unfold _set_widget in E3. ret_inv; by rewrite vars_setattr_eq. }
  assert (vars S4 "widget" = vars S3 "widget") as H4.
  { revert E4. unfold _set_page. clear. revert S3 S4. keeps_tac. }
  assert (vars S5 "widget" = vars S4 "widget") as H5.
  { revert E5. unfold _set_help, _format_help. clear. revert S4 S5. keeps_tac. }
  assert (vars S6 "widget" = vars S5 "widget") as H6.
  { revert E6. clear. revert S5 S6. unfold _set_conditional_vis_ops.
    apply foldM_keeps, Forall_forall. intros pname _. keeps_tac. }
  assert (vars S7 "widget" = vars S6 "widget") as H7.
  { revert E7. clear. revert S6 S7. apply foldM_keeps, Forall_forall. intros entry Hin.
    apply set_optional_attr_frame. revert entry Hin. apply Forall_forall.
    unfold optional_attrs. repeat constructor; done. }
  rewrite H6, H5, H4, H3 in H7. clear -H H7. rewrite H7 in H. unfold widget_of.
  destruct (hasAttribute (element pdata) "widget"); cbn [andb eq_str] in *.
  - destruct (str_eqb _ "dynamicArray"); cbn [negb];
      injection H as <-; by rewrite ?vars_setattr_eq.
  - by injection H as <-.
Qed.


(** ** Help texts *)

Lemma rev_app_spec s acc : String.rev_app s acc = String.rev s +:+ acc.
Proof.
  unfold String.rev. revert acc. induction s as [|c s IH]; intros acc; simpl.
  - by rewrite str_app_nil_l.
  - rewrite (IH (String c acc)), (IH (String c "")).
    by rewrite str_app_assoc, str_app_cons, str_app_nil_l.
Qed.

Lemma str_rev_app s t : String.rev (s +:+ t) = String.rev t +:+ String.rev s.
Proof.
  induction s as [|c s IH].
  - by rewrite str_app_nil_l, str_app_nil_r.
  - rewrite str_app_cons. unfold String.rev at 1 3. simpl.
    rewrite !rev_app_spec, IH. by rewrite str_app_assoc.
Qed.

Lemma ends_with_app s t : ends_with t (s +:+ t) = true.
Proof. unfold ends_with. rewrite str_rev_app. apply starts_with_app. by eexists. Qed.

(** X13. After [_format_help], a help text that is a string starts with
    what it was and ends with the name and, in brackets, the type; a second
    [_format_help] changes nothing. *)
Theorem format_help_closes (py : builtins) (self self' : obj) (help : string) :
  _format_help py self = Ret self' →
  vars self "help" = Some (VStr help) →
  (∃ help', vars self' "help" = Some (VStr help') ∧
            ends_with (attr_type_str py self) help' = true ∧
            starts_with help help' = true) ∧
  _format_help py self' = Ret self'.
Proof.
  unfold _format_help. intros H Hh. rewrite Hh in H.
  apply bind_ret_inv in H as (name & En & H). apply bind_ret_inv in H as (type & Et & H).
  apply getattr_ret in En, Et. unfold attr_type_str. rewrite En, Et. simpl.
  set (closing := fmt_s py name +:+ " (" +:+ fmt_s py type +:+ ")") in *.
  destruct (ends_with closing help) eqn:Eend; simpl in H; injection H as <-.
  - split.
    + exists help. repeat split; [done..|]. apply starts_with_app. exists "".
      by rewrite str_app_nil_r.
    + rewrite Hh. unfold getattr. rewrite En, Et. simpl. fold closing. by rewrite Eend.
  - split.
    + eexists. split; [apply vars_setattr_eq|]. split; [apply ends_with_app|].
      apply starts_with_app. destruct (negb (str_eqb help "")).
      * rewrite str_app_assoc. by eexists.
      * by eexists.
    + rewrite vars_setattr_eq. unfold getattr. rewrite !vars_setattr_ne, En, Et by done.
      simpl. fold closing. by rewrite ends_with_app.
Qed.


(** ** Defaults *)

Lemma finalize_default_of_type (cb : pyval → pyval → result (pyval * pyval)) self self' t :
  finalize cb self = Ret self' →
  vars self "default" = Some VNone → vars self "type" = Some (VStr t) →
  vars self' "default" = Some (default VNone (assoc t DEFAULT_VALUE)).
Proof.
  unfold finalize. intros H Hd Ht. unfold getattr at 1 in H. rewrite Hd in H.
  cbn [bind is_None] in H. unfold getattr at 1 in H. rewrite Ht in H.
  cbn [bind DEFAULT_VALUE_get hashable] in H.
  set (S1 := setattr self "default" _) in H.
  apply bind_ret_inv in H as (t' & Et & H).
  apply bind_ret_inv in H as (S2 & E2 & H).
  rewrite (finalize_tail_keeps cb S2 self' "default" ltac:(done) ltac:(done) H).
  assert (vars S2 "default" = vars S1 "default") as ->.
  { clear H. unfold set_soft_max, set_soft_min in E2. ret_inv; by rewrite ?vars_setattr_ne. }
  apply vars_setattr_eq.
Qed.

(** X14. A parameter built from an args element without child elements
    and without a [default] attribute has the default of its type in
    [DEFAULT_VALUE], [None] for a type that is not there. *)
Theorem xml_param_default_of_type (py : builtins)
    (cb : pyval → pyval → result (pyval * pyval))
    (pdata : xml_element) (build_condvis_func : pyval) (o : obj) :
  NodeDescParamXML py cb pdata build_condvis_func = Ret o →
  hasAttribute (element pdata) "default" = false →
  ∃ t, _set_type pdata = Some t ∧
    vars o "default" = Some (default VNone (assoc t DEFAULT_VALUE)).
Proof.
  unfold NodeDescParamXML. intros H Hno.
  apply bind_ret_inv in H as (t & Et & H). apply validate_type_valid in Et as [Et _].
  exists t. split; [done|].
  apply bind_ret_inv in H as (S & ES & H).
  set (S0 := setattr (setattr (NodeDescParam_init build_condvis_func) "_name" _) "type" _) in ES.
  assert (∃ S1, _set_size py pdata S0 = Ret S1) as [S1 E1].
  { unfold _set_optional_attributes in ES. apply bind_ret_inv in ES as (S1 & E1 & _). eauto. }
  assert (_set_default py pdata S1 = Ret S1) as E2.
  { unfold _set_default. by rewrite Hno. }
  pose proof (_set_optional_attributes_keeps py pdata _ _ _ _ E1 E2 ES) as Hd.
  assert (vars S1 "default" = Some VNone) as Hd1.
  { clear -E1. unfold _set_size in E1. ret_inv; by rewrite ?vars_setattr_ne. }
  rewrite Hd1 in Hd.
  apply (finalize_default_of_type cb S o t H Hd).
  rewrite (_set_optional_attributes_frame py pdata "type") with (self := S0);
    [apply vars_setattr_eq | by apply (proj1 (bool_decide_eq_false _)) | done].
Qed.


(** ** Array defaults of wide types *)

Lemma mapM_fmap {A B C} (g : B → result C) (f : A → B) (l : list A) :
  mapM g (f <$> l) = mapM (λ a, g (f a)) l.
Proof. induction l as [|a l IH]; [done|]. rewrite fmap_cons. cbn [mapM]. by rewrite IH. Qed.

Lemma mapM_ext {A B} (f g : A → result B) (l : list A) :
  (∀ a, a ∈ l → f a = g a) → mapM f l = mapM g l.
Proof.
  induction l as [|a l IH]; [done|]. intros H. simpl.
  rewrite (H a) by by left. rewrite IH; [done|]. intros b Hb. apply H. by right.
Qed.

Lemma mapM_app {A B} (f : A → result B) (l1 l2 : list A) :
  mapM f (l1 ++ l2) =
    let! bs1 := mapM f l1 in let! bs2 := mapM f l2 in Ret (bs1 ++ bs2).
Proof.
  induction l1 as [|a l1 IH]; simpl.
  - by destruct (mapM f l2).
  - destruct (f a); [|done]. simpl. rewrite IH.
    destruct (mapM f l1); [|done]. simpl. by destruct (mapM f l2).
Qed.

Lemma mapM_Forall2 {A B} (f : A → result B) (l : list A) (bs : list B) :
  Forall2 (λ a b, f a = Ret b) l bs → mapM f l = Ret bs.
Proof. induction 1 as [|a b l bs Ha _ IH]; [done|]. simpl. by rewrite Ha, IH. Qed.

Section ArrayDefault.
Variable py : builtins.
Variable type : string.

Lemma tuple_at_chunk pre chunk post xs :
  Forall2 (λ v x, str_to_num py type v = Ret x) chunk xs →
  tuple_at py type (pre ++ chunk ++ post) (length chunk) (length pre) = Ret (VTuple xs).
Proof.
  intros H. unfold tuple_at.
  rewrite (mapM_Forall2 _ _ xs); [done|].
  revert pre. induction H as [|v x chunk xs Hv _ IH]; intros pre; [constructor|].
  simpl. constructor.
  - unfold list_item. rewrite Nat.add_0_r, lookup_app_r, Nat.sub_diag by done. done.
  - rewrite <- fmap_S_seq. apply Forall2_fmap_l.
    specialize (IH (pre ++ [v])). rewrite <- app_assoc in IH. simpl in IH.
    eapply Forall2_impl; [exact IH|]. intros j y. simpl.
    rewrite length_app. simpl. by replace (length pre + 1 + j) with (length pre + S j) by lia.
Qed.

Lemma tuple_at_short pre tail twidth :
  length tail < twidth →
  Forall (λ v, returns (str_to_num py type v)) tail →
  raises IndexError (tuple_at py type (pre ++ tail) twidth (length pre)).
Proof.
  intros Hlen Hparse. unfold tuple_at.
  assert (raises IndexError
            (mapM (λ j, let! v := list_item (pre ++ tail) (length pre + j) in
                        str_to_num py type v) (seq 0 twidth))) as [msg ->]; [|by eexists].
  replace twidth with (length tail + (twidth - length tail)) by lia.
  rewrite seq_app, mapM_app. simpl.
  assert (∃ xs, mapM (λ j, let! v := list_item (pre ++ tail) (length pre + j) in
                           str_to_num py type v) (seq 0 (length tail)) = Ret xs) as [xs ->].
  { clear Hlen. revert pre. induction Hparse as [|v tail [x Hv] _ IH]; intros pre.
    - by exists [].
    - simpl. unfold list_item at 1.
      rewrite Nat.add_0_r, lookup_app_r, Nat.sub_diag by done. simpl. rewrite Hv. simpl.
      destruct (IH (pre ++ [v])) as [xs Hxs]. exists (x :: xs).
      rewrite <- fmap_S_seq, mapM_fmap.
      rewrite (mapM_ext _ (λ j, let! v0 := list_item ((pre ++ [v]) ++ tail)
                                  (length (pre ++ [v]) + j) in str_to_num py type v0)).
      + by rewrite Hxs.
      + intros j _. rewrite <- app_assoc, length_app. simpl.
        by replace (length pre + 1 + j) with (length pre + S j) by lia. }
  simpl. destruct (twidth - length tail) as [|n] eqn:E; [lia|]. simpl.
  unfold list_item. rewrite lookup_ge_None_2; [by eexists|].
  rewrite length_app. lia.
Qed.

Lemma length_concat_chunks (chunks : list (list string)) twidth :
  Forall (λ c, length c = twidth) chunks → length (concat chunks) = length chunks * twidth.
Proof. induction 1 as [|c chunks Hc _ IH]; [done|]. simpl. rewrite length_app. lia. Qed.

Lemma range_step_chunks m r twidth :
  0 < twidth → r < twidth →
  range_step (m * twidth + r) twidth =
    ((λ k, k * twidth) <$> seq 0 m) ++ (if (r =? 0)%nat then [] else [m * twidth]).
Proof.
  intros Htw Hr. unfold range_step.
  assert ((m * twidth + r + twidth - 1) / twidth = m + (if (r =? 0)%nat then 0 else 1)) as ->.
  { destruct (Nat.eqb_spec r 0) as [->|Hne].
    - replace (m * twidth + 0 + twidth - 1) with (twidth - 1 + m * twidth) by lia.
      rewrite Nat.div_add by lia. rewrite Nat.div_small by lia. lia.
    - replace (m * twidth + r + twidth - 1) with (r - 1 + (m + 1) * twidth) by lia.
      rewrite Nat.div_add by lia. rewrite Nat.div_small by lia. lia. }
  rewrite seq_app, fmap_app. f_equal. by destruct (r =? 0)%nat.
Qed.

Lemma tuples_of_chunks chunks : ∀ done nums post twidth,
  Forall2 (Forall2 (λ v x, str_to_num py type v = Ret x)) chunks nums →
  Forall (λ c, length c = twidth) done → Forall (λ c, length c = twidth) chunks →
  mapM (tuple_at py type (concat done ++ concat chunks ++ post) twidth)
       ((λ k, k * twidth) <$> seq (length done) (length chunks)) = Ret (VTuple <$> nums).
Proof.
  induction chunks as [|c chunks IH]; intros done nums post twidth H Hdone Hlen.
  - by apply Forall2_nil_inv_l in H as ->.
  - apply Forall2_cons_inv_l in H as (xs & nums' & Hc & H & ->).
    apply Forall_cons in Hlen as [Hc_len Hlen].
    cbn [length seq]. rewrite !fmap_cons. cbn [mapM concat].
    rewrite <- (length_concat_chunks done twidth) by done.
    rewrite <- Hc_len at 1. rewrite <- app_assoc.
    rewrite (tuple_at_chunk (concat done) c (concat chunks ++ post) xs Hc). cbn [bind].
    specialize (IH (done ++ [c]) nums' post twidth H).
    rewrite concat_app, length_app in IH. simpl in IH.
    rewrite app_nil_r, <- !app_assoc, Nat.add_1_r in IH.
    rewrite IH; [done| |done]. apply Forall_app. split; [done|]. by constructor.
Qed.

(** X15. The array branch of [_set_default] for a type of width above one:
    values that come in full tuples are read tuple by tuple, in order;
    values left over after the last full tuple make [vals[i + j]] an
    [IndexError]. *)
Theorem array_default_tuples (twidth : nat) (chunks : list (list string))
    (nums : list (list pyval)) :
  assoc type DATA_TYPE_WIDTH = Some twidth → 1 < twidth →
  Forall (λ c, length c = twidth) chunks →
  Forall2 (Forall2 (λ v x, str_to_num py type v = Ret x)) chunks nums →
  array_default py type (concat chunks) = Ret (VTuple <$> nums) ∧
  ∀ tail, 0 < length tail < twidth →
    Forall (λ v, returns (str_to_num py type v)) tail →
    raises IndexError (array_default py type (concat chunks ++ tail)).
Proof.
  intros Htw Hgt Hlen Hparse. unfold array_default. rewrite Htw.
  destruct (Nat.ltb_spec 1 twidth) as [_|?]; [|lia].
  change (λ i, let! tvals := mapM (λ j, let! v := list_item ?vals (i + j) in
                                        str_to_num py type v) (seq 0 twidth) in
               Ret (VTuple tvals)) with (tuple_at py type vals twidth).
  split.
  - rewrite (length_concat_chunks _ twidth Hlen).
    replace (length chunks * twidth) with (length chunks * twidth + 0) by lia.
    rewrite range_step_chunks by lia. simpl. rewrite app_nil_r.
    pose proof (tuples_of_chunks chunks [] nums [] twidth Hparse (Forall_nil_2 _) Hlen) as H.
    simpl in H. by rewrite app_nil_r in H.
  - intros tail [Hpos Hshort] Htail.
    rewrite length_app, (length_concat_chunks _ twidth Hlen).
    rewrite range_step_chunks by lia.
    destruct (Nat.eqb_spec (length tail) 0) as [?|_]; [lia|].
    rewrite mapM_app.
    pose proof (tuples_of_chunks chunks [] nums tail twidth Hparse (Forall_nil_2 _) Hlen) as H.
    simpl in H. rewrite H. cbn [bind mapM].
    rewrite <- (length_concat_chunks chunks twidth) by done.
    destruct (tuple_at_short (concat chunks) tail twidth Hshort Htail) as [msg ->].
    by eexists.
Qed.

End ArrayDefault.


(** ** The parsers *)

Lemma same_parse_refl st : same_parse st st.
Proof. by repeat split. Qed.

Lemma same_parse_trans st1 st2 st3 :
  same_parse st1 st2 → same_parse st2 st3 → same_parse st1 st3.
Proof. unfold same_parse. intuition congruence. Qed.

Lemma foldM_rel {S A} (R : S → S → Prop) (f : S → A → result S) (l : list A) :
  (∀ s, R s s) → (∀ s1 s2 s3, R s1 s2 → R s2 s3 → R s1 s3) →
  (∀ s a s', f s a = Ret s' → R s s') →
  ∀ s s', foldM f s l = Ret s' → R s s'.
Proof.
  intros Hrefl Htrans Hf. induction l as [|a l IH]; intros s s' H; simpl in H.
  - injection H as <-. apply Hrefl.
  - apply bind_ret_inv in H as (s1 & H1 & H). eauto.
Qed.

Lemma post_parse_same_parse st st' : post_parse st = Ret st' → same_parse st st'.
Proof.
  unfold post_parse. intros H.
  apply bind_ret_inv in H as (ps & Hw & H).
  apply bind_ret_inv in H as (st2 & Hc & H).
  apply bind_ret_inv in H as (names & Hn & H).
  apply bind_ret_inv in H as (names' & Hn' & H).
  cbn [alloc_cell] in H.
  destruct (tag_fold _ _ _ _ H) as (_ & Hself & _).
  apply (foldM_rel same_parse) in Hc;
    [|apply same_parse_refl|apply same_parse_trans|].
  - unfold same_parse in *. rewrite Hself. simpl in *. done.
  - clear. intros s a s' H. unfold collect_param, list_iadd in H.
    ret_inv; by repeat split.
Qed.

Section ParserFacts.
Variable py : builtins.
Variable cb : pyval → pyval → result (pyval * pyval).
Variable os : host.
Variables (xc : dom_element → pyval → result obj) (oc jc : pyval → pyval → result obj).

Lemma same_head_refl st : same_head st st.
Proof. by repeat split. Qed.

Lemma same_head_trans st1 st2 st3 :
  same_head st1 st2 → same_head st2 st3 → same_head st1 st3.
Proof. unfold same_head. intuition congruence. Qed.

Lemma _mark_if_textured_spec p st st' :
  _mark_if_textured os p st = Ret st' →
  heap st' = heap st ∧
  (self st' = self st ∨
   self st' = set_textured_params (textured_params (self st) ++ [p]) (self st)).
Proof.
  unfold _mark_if_textured. intros H. ret_inv; split; first [done | by left | by right].
Qed.

Lemma sublist_snoc {A} (l k : list A) x : sublist l k → sublist (l ++ [x]) (k ++ [x]).
Proof. intros H. apply sublist_app; [done|]. by apply sublist_skip. Qed.

Lemma Forall_lt_snoc (l : list nat) n : Forall (λ p, p < n) l → Forall (λ p, p < n + 1) (l ++ [n]).
Proof.
  intros H. apply Forall_app. split; [|constructor; [lia | constructor]].
  eapply Forall_impl; [exact H|]. simpl. lia.
Qed.

Lemma Forall_lt_grow (l : list nat) n : Forall (λ p, p < n) l → Forall (λ p, p < n + 1) l.
Proof. intros H. eapply Forall_impl; [exact H|]. simpl. lia. Qed.

Lemma add_param_textured o st st' :
  textured_in_params st →
  _mark_if_textured os (length (objs (heap st)))
    (update_self (λ n, set_params (params n ++ [length (objs (heap st))]) n)
       (State (Store (objs (heap st) ++ [o]) (cells (heap st))) (self st))) = Ret st' →
  textured_in_params st' ∧ same_head st st'.
Proof.
  unfold textured_in_params. intros [Hs Hv] H.
  apply _mark_if_textured_spec in H as [Hheap [H|H]]; unfold same_head;
    rewrite H, Hheap; simpl; rewrite length_app; simpl.
  - split; [|done]. split; [by apply sublist_inserts_r | by apply Forall_lt_snoc].
  - split; [|done]. split; [by apply sublist_snoc | by apply Forall_lt_snoc].
Qed.

Lemma add_xml_param_params st prm st' :
  textured_in_params st →
  add_xml_param os xc (λ p n, set_params (params n ++ [p]) n) true st prm = Ret st' →
  textured_in_params st' ∧ same_head st st'.
Proof.
  unfold add_xml_param. intros Hs H. apply bind_ret_inv in H as (o & Eo & H).
  cbn [alloc_obj] in H. by apply add_param_textured in H.
Qed.

Lemma grown_textured st o f :
  textured_in_params st →
  params (f (self st)) = params (self st) →
  textured_params (f (self st)) = textured_params (self st) →
  textured_in_params
    (update_self f (State (Store (objs (heap st) ++ [o]) (cells (heap st))) (self st))).
Proof.
  unfold textured_in_params. simpl. intros [Hs Hv] -> ->. split; [done|].
  rewrite length_app. by apply Forall_lt_grow.
Qed.

Lemma add_xml_param_outputs st prm st' :
  textured_in_params st →
  add_xml_param os xc (λ p n, set_outputs (outputs n ++ [p]) n) false st prm = Ret st' →
  textured_in_params st' ∧ same_head st st'.
Proof.
  unfold add_xml_param. intros Hs H. apply bind_ret_inv in H as (o & Eo & H).
  cbn [alloc_obj] in H. injection H as <-. split; [by apply grown_textured | done].
Qed.

Lemma add_xml_param_attributes st prm st' :
  textured_in_params st →
  add_xml_param os xc (λ p n, set_attributes (attributes n ++ [p]) n) false st prm = Ret st' →
  textured_in_params st' ∧ same_head st st'.
Proof.
  unfold add_xml_param. intros Hs H. apply bind_ret_inv in H as (o & Eo & H).
  cbn [alloc_obj] in H. injection H as <-. split; [by apply grown_textured | done].
Qed.

Lemma add_page_spec st page st' :
  textured_in_params st → add_page py cb st page = Ret st' →
  textured_in_params st' ∧ same_head st st'.
Proof.
  unfold add_page. intros Hs H. ret_inv; by split.
Qed.

Lemma node_help_spec xml st st' :
  textured_in_params st → node_help xml st = Ret st' →
  textured_in_params st' ∧ same_head st st'.
Proof.
  unfold node_help. intros Hs H.
  destruct xml as [|[t ch|d] rest]; [done| |by injection H as <-].
  revert st st' Hs H. induction ch as [|node ch IH]; intros st st' Hs H; simpl in H.
  - by injection H as <-.
  - apply bind_ret_inv in H as (st1 & H1 & H).
    assert (textured_in_params st1 ∧ same_head st st1) as [Hs1 Hh1].
    { clear H. ret_inv; by split. }
    destruct (IH _ _ Hs1 H) as [Hs' Hh']. split; [done|]. by eapply same_head_trans.
Qed.

(** A loop whose rounds keep the invariant and the head keeps them. *)
Lemma foldM_parse {A} (f : state → A → result state) (l : list A) :
  (∀ st a st', textured_in_params st → f st a = Ret st' →
     textured_in_params st' ∧ same_head st st') →
  ∀ st st', textured_in_params st → foldM f st l = Ret st' →
    textured_in_params st' ∧ same_head st st'.
Proof.
  intros Hf. induction l as [|a l IH]; intros st st' Hs H; simpl in H.
  - injection H as <-. split; [done | apply same_head_refl].
  - apply bind_ret_inv in H as (st1 & H1 & H).
    destruct (Hf _ _ _ Hs H1) as [Hs1 Hh1].
    destruct (IH _ _ Hs1 H) as [Hs' Hh']. split; [done|]. by eapply same_head_trans.
Qed.

Lemma _parse_args_xml_spec xml xmlfile st st' :
  textured_in_params st →
  _parse_args_xml py cb os xc xml xmlfile st = Ret st' →
  textured_in_params st' ∧
  _name (self st') = VStr (stem (basename os xmlfile)) ∧
  rman_node_type (self st') =
    VStr (match doc_elements xml "metashader" with
          | m :: _ => getAttribute (el_tag m) "shader"
          | [] => stem (basename os xmlfile)
          end) ∧
  (∃ first rest tag tags,
     shader_types xml = first :: rest ∧ sub_elements first "tag" = tag :: tags ∧
     node_type (self st') = VStr (getAttribute (el_tag tag) "value")) ∧
  _parsed_data (self st') = XmlData xml ∧
  _parsed_data_type (self st') = VStr "xml".
Proof.
  unfold _parse_args_xml. fold (shader_types xml). fold (stem (basename os xmlfile)).
  intros Hs H.
  apply bind_ret_inv in H as (type & Etype & H).
  assert (∃ first rest tag tags,
     shader_types xml = first :: rest ∧ sub_elements first "tag" = tag :: tags ∧
     type = getAttribute (el_tag tag) "value") as Htype.
  { change (match doc_elements xml "shaderType" with
            | [] => doc_elements xml "typeTag"
            | _ => doc_elements xml "shaderType"
            end) with (shader_types xml) in Etype.
    destruct (shader_types xml) as [|first rest]; [discriminate Etype|].
    destruct (sub_elements first "tag") as [|tag tags] eqn:Etag; [discriminate Etype|].
    injection Etype as <-. by exists first, rest, tag, tags. }
  clear Etype.
  apply bind_ret_inv in H as (st1 & E1 & H).
  apply bind_ret_inv in H as (st2 & E2 & H).
  apply bind_ret_inv in H as (st3 & E3 & H).
  apply bind_ret_inv in H as (st4 & E4 & H).
  apply node_help_spec in E1 as [Hs1 Hh1]; [|done].
  apply (foldM_parse _ _ add_xml_param_params) in E2 as [Hs2 Hh2]; [|done].
  apply (foldM_parse _ _ add_xml_param_outputs) in E3 as [Hs3 Hh3]; [|done].
  apply (foldM_parse _ _ add_xml_param_attributes) in E4 as [Hs4 Hh4]; [|done].
  apply (foldM_parse _ _ add_page_spec) in H as [Hs5 Hh5]; [|done].
  split; [done|].
  pose proof (same_head_trans _ _ _ Hh2 (same_head_trans _ _ _ Hh3
                (same_head_trans _ _ _ Hh4 Hh5))) as (Hn & Ht & Hr & Hd & Hdt).
  destruct Hh1 as (Hn1 & Ht1 & Hr1 & Hd1 & Hdt1). simpl in *.
  rewrite Hn, Ht, Hr, Hd, Hdt, Hn1, Ht1, Hd1, Hdt1. repeat split.
  destruct Htype as (first & rest & tag & tags & ? & ? & ->).
  by exists first, rest, tag, tags.
Qed.

Lemma add_osl_param_spec st param_data st' :
  textured_in_params st → add_osl_param os oc st param_data = Ret st' →
  textured_in_params st' ∧ same_head st st'.
Proof.
  unfold add_osl_param. intros Hs H. apply bind_ret_inv in H as (o & Eo & H).
  cbn [alloc_obj] in H.
  apply bind_ret_inv in H as (name & En & H).
  apply bind_ret_inv in H as (member & Em & H).
  assert (textured_in_params
            (State (Store (objs (heap st) ++ [o]) (cells (heap st))) (self st))) as Hgrown
    by by apply (grown_textured st o (λ n, n)).
  destruct member; [by injection H as <-|].
  apply bind_ret_inv in H as (category & Ec & H).
  destruct (eq_str category "param").
  - destruct (truthy _); [|by injection H as <-]. by apply add_param_textured in H.
  - ret_inv; (split; [|done]); first [done | by apply grown_textured].
Qed.

Lemma add_json_param_spec st pdata st' :
  textured_in_params st → add_json_param os jc st pdata = Ret st' →
  textured_in_params st' ∧ same_head st st'.
Proof.
  unfold add_json_param. intros Hs H. apply bind_ret_inv in H as (o & Eo & H).
  cbn [alloc_obj] in H. by apply add_param_textured in H.
Qed.

Lemma parse_file_textured filepath st st' :
  textured_in_params st →
  parse_file py cb os xc oc jc filepath st = Ret st' → textured_in_params st'.
Proof.
  unfold parse_file. intros Hs H.
  destruct (ends_with ".args" filepath).
  { destruct (mx_parse os _) as [xml|e]; [|by injection H as <-].
    by apply _parse_args_xml_spec in H as [H _]. }
  destruct (ends_with ".oso" filepath).
  { unfold _parse_oso_file in H. destruct (negb _); [by injection H as <-|].
    apply bind_ret_inv in H as (oinfo & Eo & H).
    destruct (assoc _ OSL_TO_RIS_TYPES); [|done].
    by apply (foldM_parse _ _ add_osl_param_spec) in H as [H _]. }
  destruct (ends_with ".json" filepath); [|by injection H as <-].
  unfold _parse_json_file in H. apply bind_ret_inv in H as (jdata & Ej & H).
  destruct jdata; try done. destruct (eq_str _ _); [done|].
  apply bind_ret_inv in H as (schema & Es & H). destruct (negb schema); [done|].
  apply bind_ret_inv in H as (name & En & H).
  apply bind_ret_inv in H as (type & Et & H).
  apply bind_ret_inv in H as (rtype & Er & H).
  destruct (assoc "params" kvs); [|by injection H as <-].
  apply bind_ret_inv in H as (pdatas & Ep & H).
  by apply (foldM_parse _ _ add_json_param_spec) in H as [H _].
Qed.

Lemma NodeDesc_new_textured build_condvis_func :
  textured_in_params (NodeDesc_new build_condvis_func).
Proof. split; [apply sublist_nil_l | constructor]. Qed.

Lemma elem_of_drop_first {A} (P : A → bool) (l : list A) (a : A) :
  a ∈ l → a ∈ drop_first P l ∨ P a = true.
Proof.
  induction l as [|b l IH]; [by intros ?%elem_of_nil|].
  intros [->|Hin]%elem_of_cons; simpl.
  - destruct (P b) eqn:E; [by right | left; by left].
  - destruct (P b); [by left|]. destruct (IH Hin); [left; by right | by right].
Qed.

(** X16. After a construction, [textured_params] is a sublist of the
    [params] the parser left: a textured parameter is in [params], or it is
    the [notes] string parameter that was weeded out. *)
Theorem textured_params_are_params (filepath : string) (build_condvis_func : pyval)
    (st' : state) :
  NodeDesc_init py cb os xc oc jc filepath build_condvis_func = Ret st' →
  ∃ st, parse_file py cb os xc oc jc filepath (NodeDesc_new build_condvis_func) = Ret st ∧
    sublist (textured_params (self st')) (params (self st)) ∧
    ∀ p, p ∈ textured_params (self st') →
      p ∈ params (self st') ∨ notes_string (deref st' p) = true.
Proof.
  unfold NodeDesc_init, _parse_node. intros H.
  apply bind_ret_inv in H as (st & Hparse & H). exists st. split; [done|].
  pose proof (parse_file_textured _ _ _ (NodeDesc_new_textured _) Hparse) as [Hsub _].
  destruct (post_parse_same_parse _ _ H) as (_ & _ & _ & _ & Htex & _).
  destruct (post_parse_spec _ _ H) as (Hp & _ & _ & _ & Hv & _).
  rewrite Htex. split; [done|].
  intros p Hin. rewrite Hp. rewrite (notes_string_kept st st' p Hv).
  apply (elem_of_drop_first (λ p, notes_string (deref st p))).
  by eapply elem_of_sublist.
Qed.

(** X17. A node built from an args file: its name is the base name of the
    file up to the last dot; [rman_node_type] is the [shader] of the first
    [metashader] element, the name without one; [node_type] is the [value]
    of the first [tag] of the first [shaderType] (or [typeTag]) element; the
    parsed data are the document. *)
Theorem args_node_identity (filepath : string) (build_condvis_func : pyval)
    (xml : xml_document) (st' : state) :
  ends_with ".args" filepath = true →
  mx_parse os (os_path os filepath) = Ret xml →
  NodeDesc_init py cb os xc oc jc filepath build_condvis_func = Ret st' →
  _name (self st') = VStr (stem (basename os filepath)) ∧
  rman_node_type (self st') =
    VStr (match doc_elements xml "metashader" with
          | m :: _ => getAttribute (el_tag m) "shader"
          | [] => stem (basename os filepath)
          end) ∧
  (∃ first rest tag tags,
     shader_types xml = first :: rest ∧ sub_elements first "tag" = tag :: tags ∧
     node_type (self st') = VStr (getAttribute (el_tag tag) "value")) ∧
  _parsed_data (self st') = XmlData xml ∧
  _parsed_data_type (self st') = VStr "xml".
Proof.
  unfold NodeDesc_init, _parse_node, parse_file. intros -> -> H.
  apply bind_ret_inv in H as (st & Hparse & H).
  apply _parse_args_xml_spec in Hparse as (_ & Hn & Hr & Ht & Hd & Hdt);
    [|apply NodeDesc_new_textured].
  destruct (post_parse_same_parse _ _ H) as (Hn' & Ht' & Hr' & _ & _ & Hd' & Hdt').
  by rewrite Hn', Ht', Hr', Hd', Hdt'.
Qed.

Lemma stem_app s ext : has_char "." ext = false → stem (s +:+ "." +:+ ext) = s.
Proof.
  intros H. unfold stem. change (s +:+ "." +:+ ext) with (s +:+ String "." ext).
  by rewrite rsplit1_app.
Qed.

End ParserFacts.

Lemma ends_with_oso p : ends_with ".oso" p = true → ends_with ".args" p = false.
Proof.
  unfold ends_with. change (String.rev ".oso") with "oso.".
  change (String.rev ".args") with "sgra.".
  destruct (String.rev p) as [|c r]; [done|]. simpl.
  unfold ascii_eqb. repeat case_bool_decide; simplify_eq; done.
Qed.

Lemma ends_with_json p :
  ends_with ".json" p = true → ends_with ".args" p = false ∧ ends_with ".oso" p = false.
Proof.
  unfold ends_with. change (String.rev ".oso") with "oso.".
  change (String.rev ".args") with "sgra.". change (String.rev ".json") with "nosj.".
  destruct (String.rev p) as [|c r]; [done|]. simpl.
  unfold ascii_eqb. repeat case_bool_decide; simplify_eq; done.
Qed.

Section Dispatch.
Variable py : builtins.
Variable cb : pyval → pyval → result (pyval * pyval).
Variable os : host.
Variables (xc : dom_element → pyval → result obj) (oc jc : pyval → pyval → result obj).

(** X18. An args file without a [shaderType] and without a [typeTag], or
    whose first such element has no [tag], is a [NodeDescError] of the
    constructor, with the message of the code. *)
Theorem args_without_shader_type (filepath : string) (build_condvis_func : pyval)
    (xml : xml_document) :
  ends_with ".args" filepath = true →
  mx_parse os (os_path os filepath) = Ret xml →
  (shader_types xml = [] →
     NodeDesc_init py cb os xc oc jc filepath build_condvis_func =
       raise NodeDescError ("NodeDesc Error: No " +:+ quoted "shaderType" +:+
                            " element in args file ! : " +:+ filepath)) ∧
  (∀ first rest, shader_types xml = first :: rest → sub_elements first "tag" = [] →
     NodeDesc_init py cb os xc oc jc filepath build_condvis_func =
       raise NodeDescError ("NodeDesc Error: No " +:+ quoted "tag" +:+ " element in " +:+
                            quoted "shaderType" +:+ " ! : " +:+ filepath)).
Proof.
  intros Hargs Hxml.
  unfold NodeDesc_init, _parse_node, parse_file, _parse_args_xml.
  rewrite Hargs, Hxml.
  change (match doc_elements xml "shaderType" with
          | [] => doc_elements xml "typeTag"
          | _ => doc_elements xml "shaderType"
          end) with (shader_types xml).
  split.
  - by intros ->.
  - by intros first rest -> ->.
Qed.

(** X19. An args file that does not parse, an oso file that is not there
    and a path of another ending leave the node as [__init__] set it, and
    the constructor returns. *)
Theorem unread_file_gives_empty_node (filepath : string) (build_condvis_func : pyval) :
  (ends_with ".args" filepath = true ∧
     (∃ e, mx_parse os (os_path os filepath) = Raise e)) ∨
  (ends_with ".args" filepath = false ∧ ends_with ".oso" filepath = true ∧
     path_exists os (os_path os filepath) = false) ∨
  (ends_with ".args" filepath = false ∧ ends_with ".oso" filepath = false ∧
     ends_with ".json" filepath = false) →
  ∃ st, NodeDesc_init py cb os xc oc jc filepath build_condvis_func = Ret st ∧
        empty_node build_condvis_func st.
Proof.
  unfold NodeDesc_init, _parse_node, parse_file, _parse_oso_file.
  intros [[-> [e ->]]|[(-> & -> & ->)|(-> & -> & ->)]]; by eexists.
Qed.

(** X20. What [_parse_json_file] asks of a file: one whose [$schema] does not
    name [rmanNodeSchema] is set aside with [NodeDescIgnore]; a node file
    without one of the three mandatory attributes is a [KeyError]. *)
Theorem json_file_requirements (filepath : string) (build_condvis_func : pyval)
    (d : list (string * pyval)) :
  ends_with ".json" filepath = true →
  json_load os (os_path os filepath) = Ret (VDict d) →
  (match assoc "$schema" d with
   | None => True
   | Some (VStr v) => str_contains "rmanNodeSchema" v = false
   | Some _ => False
   end →
   raises NodeDescIgnore (NodeDesc_init py cb os xc oc jc filepath build_condvis_func)) ∧
  (∀ v key,
     assoc "$schema" d = Some (VStr v) → str_contains "rmanNodeSchema" v = true →
     key ∈ ["name"; "node_type"; "rman_node_type"] → assoc key d = None →
     raises KeyError (NodeDesc_init py cb os xc oc jc filepath build_condvis_func)).
Proof.
  unfold NodeDesc_init, _parse_node, parse_file, _parse_json_file.
  intros Hjson ->. destruct (ends_with_json _ Hjson) as [-> ->]. rewrite Hjson.
  cbn [bind]. split.
  - intros Hs. destruct (assoc "$schema" d) as [[]|]; try done; cbn [default id].
    + destruct (eq_str _ _); [by eexists|]. cbn [contains_str]. rewrite Hs. by eexists.
    + by eexists.
  - intros v key Hs Hv Hkey Hnone. rewrite Hs. cbn [default id].
    destruct (eq_str (VStr v) _) eqn:E.
    { apply str_eqb_eq in E as ->. done. }
    cbn [contains_str]. rewrite Hv. cbn [bind negb json_item].
    rewrite !elem_of_cons, elem_of_nil in Hkey.
    destruct (assoc "name" d) eqn:E1; [|by eexists]. cbn [bind].
    destruct (assoc "node_type" d) eqn:E2; [|by eexists]. cbn [bind].
    destruct (assoc "rman_node_type" d) eqn:E3; [|by eexists].
    destruct Hkey as [->|[->|[->|[]]]]; congruence.
Qed.

End Dispatch.


(** ** Trigger parameters *)

Lemma all_strings_nub l : all_strings l → all_strings (nub l).
Proof.
  induction 1 as [|v l Hv _ IH]; [constructor|]. cbn [nub].
  constructor; [done|]. apply Forall_forall. intros x [_ Hx]%list_elem_of_filter.
  revert x Hx. by apply Forall_forall.
Qed.

Lemma py_eq_str s t : py_eq (VStr s) (VStr t) = str_eqb s t.
Proof. done. Qed.

Lemma py_in_filter name s l :
  all_strings l →
  py_in (VStr name) (filter (λ y, negb (py_eq (VStr s) y)) l) =
    if str_eqb name s then false else py_in (VStr name) l.
Proof.
  unfold py_in. induction 1 as [|v l [t ->] _ IH]; [by destruct (str_eqb name s)|].
  rewrite filter_cons, py_eq_str. cbn [existsb]. rewrite py_eq_str.
  destruct (decide (s = t)) as [->|Hst].
  - rewrite str_eqb_refl. cbn [negb]. rewrite decide_False by (by intros []). rewrite IH.
    by destruct (str_eqb name t).
  - rewrite (str_eqb_ne s t) by done. cbn [negb]. rewrite decide_True by exact I.
    cbn [existsb]. rewrite py_eq_str, IH. destruct (decide (name = s)) as [->|Hns].
    + by rewrite str_eqb_refl, (str_eqb_ne s t).
    + by rewrite (str_eqb_ne name s).
Qed.

Lemma py_in_nub name l :
  all_strings l → py_in (VStr name) (nub l) = py_in (VStr name) l.
Proof.
  induction 1 as [|v l [s ->] Hl IH]; [done|]. cbn [nub].
  unfold py_in in *. cbn [existsb]. rewrite py_eq_str.
  pose proof (py_in_filter name s (nub l) (all_strings_nub _ Hl)) as Hf.
  unfold py_in in Hf. rewrite Hf, IH. by destruct (str_eqb name s).
Qed.

Lemma tag_fold_tagged names ps p name : ∀ st st',
  foldM (tag_trigger names) st ps = Ret st' →
  p < length (objs (heap st)) →
  vars (deref st p) "_name" = Some name →
  vars (deref st' p) "conditionalVisTrigger" =
    if bool_decide (p ∈ ps) && py_in name names then Some (VBool true)
    else vars (deref st p) "conditionalVisTrigger".
Proof.
  induction ps as [|q ps IH]; intros st st' H Hlt Hname; simpl in H.
  - by injection H as <-.
  - apply bind_ret_inv in H as (st1 & H1 & H).
    assert (length (objs (heap st1)) = length (objs (heap st)) ∧
            vars (deref st1 p) "_name" = Some name ∧
            vars (deref st1 p) "conditionalVisTrigger" =
              if bool_decide (p = q) && py_in name names then Some (VBool true)
              else vars (deref st p) "conditionalVisTrigger") as (Hlen & Hname1 & Hv1).
    { unfold tag_trigger in H1. apply bind_ret_inv in H1 as (nq & Enq & H1).
      apply getattr_ret in Enq. destruct (decide (p = q)) as [<-|Hne].
      - rewrite Hname in Enq. injection Enq as <-.
        rewrite bool_decide_true by done. cbn [andb].
        destruct (py_in name names); injection H1 as <-; [|done].
        unfold set_obj, deref. cbn [heap objs]. rewrite length_insert.
        rewrite list_lookup_insert_eq by done. cbn [default id].
        split; [done|]. split; [by rewrite vars_setattr_ne | apply vars_setattr_eq].
      - rewrite bool_decide_false by done. cbn [andb].
        destruct (py_in nq names); injection H1 as <-; [|done].
        unfold set_obj, deref. cbn [heap objs]. rewrite length_insert.
        by rewrite list_lookup_insert_ne. }
    rewrite (IH st1 st' H) by (done || lia). rewrite Hv1.
    destruct (decide (p = q)) as [->|Hne].
    + rewrite (bool_decide_true (q = q)) by done.
      rewrite (bool_decide_true (q ∈ q :: ps)) by (by left). cbn [andb].
      destruct (py_in name names); [|by rewrite andb_false_r].
      by destruct (bool_decide (q ∈ ps)).
    + rewrite (bool_decide_false (p = q)) by done. cbn [andb].
      rewrite (bool_decide_ext (p ∈ q :: ps) (p ∈ ps)); [done|].
      rewrite elem_of_cons. intuition.
Qed.

Section Triggers.
Variable py : builtins.
Variable cb : pyval → pyval → result (pyval * pyval).
Variable os : host.
Variables (xc : dom_element → pyval → result obj) (oc jc : pyval → pyval → result obj).

(** X21. After a construction, a parameter with a string for a name is
    tagged as a trigger when its name is among the collected trigger names,
    which the list [pages_trigger_params] holds; any other keeps the tag
    its constructor gave it. *)
Theorem trigger_parameters_are_tagged (filepath : string) (build_condvis_func : pyval)
    (st' : state) (collected : list pyval) :
  NodeDesc_init py cb os xc oc jc filepath build_condvis_func = Ret st' →
  cells (heap st') !! pages_trigger_params (self st') = Some (VList collected) →
  all_strings collected →
  ∃ st, parse_file py cb os xc oc jc filepath (NodeDesc_new build_condvis_func) = Ret st ∧
    ∀ p name, p ∈ params (self st') →
      vars (deref st' p) "_name" = Some (VStr name) →
      vars (deref st' p) "conditionalVisTrigger" =
        if py_in (VStr name) collected then Some (VBool true)
        else vars (deref st p) "conditionalVisTrigger".
Proof.
  unfold NodeDesc_init, _parse_node. intros H Hcell Hstr.
  apply bind_ret_inv in H as (st & Hparse & H). exists st. split; [done|].
  pose proof (parse_file_textured _ _ _ _ _ _ _ _ _ (NodeDesc_new_textured _) Hparse)
    as [_ Hvalid].
  destruct (post_parse_spec _ _ H) as (Hps & _ & _ & Hpt & Hvars & _).
  unfold post_parse in H.
  apply bind_ret_inv in H as (ps & Hw & H). apply weed_notes_spec in Hw.
  apply bind_ret_inv in H as (st2 & Hc & H).
  apply bind_ret_inv in H as (raw & Hraw & H).
  apply bind_ret_inv in H as (names & Hn & H).
  cbn [alloc_cell] in H.
  destruct (collect_fold_frame _ _ _ _ Hc) as (Hobj2 & Hp2 & _ & _ & Hpt2).
  destruct (tag_fold _ _ _ _ H) as (Hcells & _ & _).
  change (params (self (update_self (set_params ps) st))) with ps in *.
  change (objs (heap (update_self (set_params ps) st))) with (objs (heap st)) in Hobj2.
  change (pages_trigger_params (self (update_self (set_params ps) st)))
    with (pages_trigger_params (self st)) in *.
  (* the list the loop extended is the one the node still holds *)
  assert (raw = collected) as ->.
  { rewrite Hcells, Hpt in Hcell. cbn [heap cells] in Hcell.
    destruct (cells (heap st2) !! pages_trigger_params (self st)) as [v|] eqn:Ev;
      [|done].
    rewrite lookup_app_l in Hcell by by eapply lookup_lt_Some.
    rewrite Ev in Hcell. injection Hcell as ->. by injection Hraw as <-. }
  unfold list_set in Hn. destruct (forallb hashable collected); [|done].
  injection Hn as <-.
  intros p name Hin Hname. rewrite Hps, <- Hw in Hin.
  assert (p < length (objs (heap st))) as Hlt.
  { rewrite Forall_forall in Hvalid. apply Hvalid. rewrite Hw in Hin.
    clear -Hin. induction (params (self st)) as [|q l IH]; [done|]. simpl in Hin.
    destruct (notes_string _); [by right|].
    apply elem_of_cons in Hin as [->|Hin]; [by left | right; by apply IH]. }
  assert (vars (deref st p) "_name" = Some (VStr name)) as Hname0.
  { by rewrite <- Hvars. }
  cbn [self] in H. rewrite Hp2 in H.
  rewrite (tag_fold_tagged _ _ p (VStr name) _ _ H); cbn [heap objs].
  - rewrite bool_decide_true by done. cbn [andb]. rewrite (py_in_nub _ _ Hstr).
    destruct (py_in _ _); [done|]. unfold deref. cbn [heap objs]. by rewrite Hobj2.
  - by rewrite Hobj2.
  - unfold deref. cbn [heap objs]. by rewrite Hobj2.
Qed.

End Triggers.


(** ** The getters and the help page *)

Lemma py_eq_str_inv s k : py_eq (VStr s) k = true → k = VStr s.
Proof. destruct k; try done. simpl. by intros ->%str_eqb_eq. Qed.

Lemma vdict_get_set s t (v : loc) d :
  vdict_get (VStr s) (vdict_set (VStr t) v d) =
    if str_eqb s t then Some v else vdict_get (VStr s) d.
Proof.
  induction d as [|[k w] d IH]; cbn [vdict_set vdict_get].
  - rewrite py_eq_str. by destruct (str_eqb s t).
  - destruct (py_eq (VStr t) k) eqn:Ek; cbn [vdict_get].
    + apply py_eq_str_inv in Ek as ->. rewrite py_eq_str. by destruct (str_eqb s t).
    + rewrite IH. destruct (py_eq (VStr s) k) eqn:Es; [|done].
      apply py_eq_str_inv in Es as ->. rewrite py_eq_str in Ek.
      destruct (decide (s = t)) as [->|Hne].
      * by rewrite str_eqb_refl in Ek.
      * by rewrite str_eqb_ne.
Qed.

Lemma name_dict_fold st ds : ∀ names d0,
  named st ds names →
  ∃ d, foldM (λ d p,
                let! name := getattr (deref st p) "_name" in
                if hashable name then Ret (vdict_set name p d)
                else raise TypeError "unhashable type") d0 ds = Ret d ∧
    ∀ pname, vdict_get (VStr pname) d =
      match last_named pname ds names with
      | Some q => Some q
      | None => vdict_get (VStr pname) d0
      end.
Proof.
  induction ds as [|p ds IH]; intros names d0 H.
  - apply Forall2_nil_inv_l in H as ->. by exists d0.
  - apply Forall2_cons_inv_l in H as (n & names' & Hn & H & ->). simpl.
    unfold getattr at 1. rewrite Hn. cbn [bind hashable].
    destruct (IH names' (vdict_set (VStr n) p d0) H) as (d & -> & Hd).
    exists d. split; [done|]. intros pname. rewrite Hd.
    destruct (last_named pname ds names'); [done|]. rewrite vdict_get_set.
    by destruct (str_eqb pname n).
Qed.

(** X22. The first [get_param_desc], on a node whose parameters have
    strings for names: the last parameter of [params] with that name,
    [None] without one; the store and [params] are as before, and the
    dictionary then kept answers every later call. *)
Theorem get_param_desc_last_wins (pname : string) (st : state) (names : list string) :
  param_dict (self st) = None →
  named st (params (self st)) names →
  ∃ st', get_param_desc pname st =
           Ret (last_named pname (params (self st)) names, st') ∧
         heap st' = heap st ∧ params (self st') = params (self st) ∧
         ∀ other, get_param_desc other st' =
           Ret (last_named other (params (self st)) names, st').
Proof.
  intros Hnone Hnamed. unfold get_param_desc, get_desc, name_dict. rewrite Hnone.
  destruct (name_dict_fold st _ names [] Hnamed) as (d & -> & Hd).
  cbn [bind]. exists (update_self (set_param_dict (Some d)) st).
  split; [|split; [done|split; [done|]]].
  - simpl. rewrite Hd. by destruct (last_named _ _ _).
  - intros other. simpl. rewrite Hd. by destruct (last_named _ _ _).
Qed.

Lemma split_on_cons sep a b :
  has_char sep a = false → split_on sep (a +:+ String sep b) = a :: split_on sep b.
Proof.
  induction a as [|c a IH]; intros H.
  - rewrite str_app_nil_l. simpl. by rewrite ascii_eqb_refl.
  - rewrite str_app_cons. simpl in *. apply orb_false_iff in H as [Hc Ha].
    rewrite (IH Ha). unfold ascii_eqb in *. repeat case_bool_decide; intuition congruence.
Qed.

Lemma split_on_not_nil sep s : split_on sep s ≠ [].
Proof.
  destruct s as [|c s]; simpl; [done|]. destruct (ascii_eqb c sep); [done|].
  by destruct (split_on sep s).
Qed.

(** X23. [node_help_url]: the wiki page without a root; the root in front
    of the page for a root without a bar; the extension after the page for
    a root with one bar; and the wiki page again for a root with more
    bars. *)
Theorem node_help_url_roots (py : builtins) (version : pyval) (n : NodeDesc) :
  let page := "/REN" +:+ fmt_s py version +:+ "/" +:+ fmt_s py (_name n) in
  node_help_url py version None n = "https://rmanwiki.pixar.com/display" +:+ page ∧
  (∀ base, has_char "|" base = false →
     node_help_url py version (Some base) n = base +:+ page) ∧
  (∀ base ext, has_char "|" base = false → has_char "|" ext = false →
     node_help_url py version (Some (base +:+ "|" +:+ ext)) n = base +:+ page +:+ ext) ∧
  (∀ a b rest, has_char "|" a = false → has_char "|" b = false →
     node_help_url py version (Some (a +:+ "|" +:+ b +:+ "|" +:+ rest)) n =
       node_help_url py version None n).
Proof.
  cbn zeta. unfold node_help_url. repeat split.
  - intros base Hb. by rewrite (split_on_absent _ _ Hb).
  - intros base ext Hb He.
    change (base +:+ "|" +:+ ext) with (base +:+ String "|" ext).
    rewrite (split_on_cons _ _ _ Hb), (split_on_absent _ _ He).
    by rewrite !str_app_assoc.
  - intros a b rest Ha Hb.
    change (a +:+ "|" +:+ b +:+ "|" +:+ rest) with (a +:+ String "|" (b +:+ String "|" rest)).
    rewrite (split_on_cons _ _ _ Ha), (split_on_cons _ _ _ Hb).
    pose proof (split_on_not_nil "|" rest). by destruct (split_on "|" rest).
Qed.


(** ** OSL parameters *)

Section OSLFacts.
Variable py : builtins.
Variable cb : pyval → pyval → result (pyval * pyval).
Variable py_repr : pyval → string.

Lemma set_attr_named_frame metadict k entry :
  entry.1 ≠ k → keeps k (λ self, OSL.set_attr_named py metadict self entry).
Proof.
  destruct entry as [attr func]. simpl. intros Hne. unfold OSL.set_attr_named.
  intros self self' H; ret_inv; by rewrite ?vars_setattr_ne.
Qed.

Lemma osl_after_size_frame k pdata metadict S1 self' :
  k ∉ osl_written →
  (let! self := OSL._set_default pdata S1 in
   let! self := OSL._set_widget py metadict self in
   let! self := OSL._set_page metadict self in
   let! self := OSL._set_help py metadict self in
   let! self := OSL._set_conditional_vis_ops py metadict self in
   let! self := foldM (OSL.set_attr_named py metadict) self optional_attrs in
   match vars self "tag" with
   | Some tag =>
       if eq_str tag "vstruct" then Ret (setattr self "vstruct" (VBool true))
       else Ret self
   | None => Ret self
   end) = Ret self' →
  vars self' k = vars S1 k.
Proof.
  unfold osl_written. rewrite not_elem_of_app, !not_elem_of_cons.
  intros [(N1&N2&N3&N4&N5&N6&N7&N8&N9&_) Hopt] H.
  apply bind_ret_inv in H as (S2 & E2 & H).
  apply bind_ret_inv in H as (S3 & E3 & H).
  apply bind_ret_inv in H as (S4 & E4 & H).
  apply bind_ret_inv in H as (S5 & E5 & H).
  apply bind_ret_inv in H as (S6 & E6 & H).
  apply bind_ret_inv in H as (S7 & E7 & H).
  assert (vars S2 k = vars S1 k) as <-.
  { revert E2. unfold OSL._set_default. clear -N1. revert S1 S2. keeps_tac. }
  assert (vars S3 k = vars S2 k) as <-.
  { revert E3. unfold OSL._set_widget. clear -N2 N3 N4. revert S2 S3. keeps_tac. }
  assert (vars S4 k = vars S3 k) as <-.
  { revert E4. unfold OSL._set_page. clear -N5 N6. revert S3 S4. keeps_tac. }
  assert (vars S5 k = vars S4 k) as <-.
  { revert E5. unfold OSL._set_help, _format_help. clear -N7. revert S4 S5. keeps_tac. }
  assert (vars S6 k = vars S5 k) as <-.
  { revert E6. clear -N8. revert S5 S6. unfold OSL._set_conditional_vis_ops.
    apply foldM_keeps, Forall_forall. intros [key val] _. keeps_tac. }
  assert (vars S7 k = vars S6 k) as <-.
  { revert E7. clear -Hopt. revert S6 S7. apply foldM_keeps, Forall_forall.
    intros entry Hin. apply set_attr_named_frame. intros <-. apply Hopt.
    by apply list_elem_of_fmap_2. }
  clear -H N9. ret_inv; by rewrite ?vars_setattr_ne.
Qed.

Lemma osl_param_parts pdata build_condvis_func o :
  OSL.NodeDescParamOSL py cb py_repr pdata build_condvis_func = Ret o →
  ∃ md category name ptype S0 t S,
    OSL.metadict_of pdata = Ret md ∧
    OSL._set_category pdata = Ret category ∧
    json_item pdata "name" = Ret name ∧
    OSL._set_type pdata (setattr (setattr (NodeDescParam_init build_condvis_func)
                           "category" category) "_name" name) = Ret (ptype, S0) ∧
    OSL.validate_type_of py_repr name ptype = Ret t ∧
    OSL._set_optional_attributes py pdata md (setattr S0 "type" (VStr t)) = Ret S ∧
    finalize cb S = Ret o.
Proof.
  unfold OSL.NodeDescParamOSL, OSL._set_name. intros H.
  apply bind_ret_inv in H as (md & Emd & H).
  apply bind_ret_inv in H as (category & Ec & H).
  apply bind_ret_inv in H as (name & En & H).
  apply bind_ret_inv in H as ([ptype S0] & Et & H).
  apply bind_ret_inv in H as (t & Ev & H).
  apply bind_ret_inv in H as (S & ES & H).
  by exists md, category, name, ptype, S0, t, S.
Qed.

Lemma osl_optional_frame k pdata md S0 S :
  k ≠ "size" → k ∉ osl_written →
  OSL._set_optional_attributes py pdata md S0 = Ret S → vars S k = vars S0 k.
Proof.
  intros Hsize Hk H. unfold OSL._set_optional_attributes in H.
  apply bind_ret_inv in H as (S1 & E1 & H).
  rewrite (osl_after_size_frame k pdata md S1 S Hk H).
  clear H. unfold OSL._set_size in E1. ret_inv; by rewrite vars_setattr_ne.
Qed.

Lemma osl_set_type_keeps k pdata S S0 ptype :
  k ≠ "struct_name" → OSL._set_type pdata S = Ret (ptype, S0) → vars S0 k = vars S k.
Proof.
  unfold OSL._set_type. intros Hk H. ret_inv; by rewrite ?vars_setattr_ne.
Qed.

Lemma validate_type_of_valid name ptype t :
  OSL.validate_type_of py_repr name ptype = Ret t → t = ptype ∧ t ∈ VALID_TYPES.
Proof.
  unfold OSL.validate_type_of. intros H.
  assert (str_in ptype VALID_TYPES = true ∧ t = ptype) as [Hin ->].
  { destruct name; try (destruct (str_in ptype VALID_TYPES); by simplify_eq).
    by apply validate_type_valid in H as [[= ->] ?%str_in_elem]. }
  split; [done|]. by apply str_in_elem.
Qed.

(** X24. What [_set_type] reads for an OSL parameter that was built:
    [struct], with the [struct_name] of the record, for a struct; else the
    text of the record's type up to its first bracket. It is one of
    [VALID_TYPES]. *)
Theorem osl_param_type (pdata build_condvis_func : pyval) (o : obj) :
  OSL.NodeDescParamOSL py cb py_repr pdata build_condvis_func = Ret o →
  ∃ isstruct t,
    json_item pdata "isstruct" = Ret isstruct ∧
    vars o "type" = Some (VStr t) ∧ t ∈ VALID_TYPES ∧
    if truthy isstruct then
      t = "struct" ∧
      ∃ structname, json_item pdata "structname" = Ret structname ∧
                    vars o "struct_name" = Some structname
    else
      ∃ type, json_item pdata "type" = Ret (VStr type) ∧ head (split_on "[" type) = Some t.
Proof.
  intros H. apply osl_param_parts in H as (md & category & name & ptype & S0 & t & S &
                                           Emd & Ec & En & Et & Ev & ES & H).
  apply validate_type_of_valid in Ev as [-> Hvalid].
  assert (∀ k, bool_decide (k ∈ "size" :: osl_written ++ finalize_written) = false →
            vars o k = vars (setattr S0 "type" (VStr ptype)) k) as Hk.
  { intros k Hb. apply bool_decide_eq_false in Hb.
    rewrite not_elem_of_cons, not_elem_of_app in Hb. destruct Hb as (?&?&?).
    rewrite (finalize_frame cb k) by done. by apply (osl_optional_frame k pdata md). }
  unfold OSL._set_type in Et.
  apply bind_ret_inv in Et as (isstruct & Ei & Et). exists isstruct, ptype.
  split; [done|]. split; [by rewrite (Hk "type" eq_refl), vars_setattr_eq|].
  split; [done|]. destruct (truthy isstruct).
  - apply bind_ret_inv in Et as (structname & Es & Et). injection Et as <- <-.
    split; [done|]. exists structname. split; [done|].
    rewrite (Hk "struct_name" eq_refl). rewrite vars_setattr_ne by done.
    apply vars_setattr_eq.
  - apply bind_ret_inv in Et as (type & Ety & Et).
    apply bind_ret_inv in Et as (ty & Ea & Et).
    destruct type; try done. injection Ea as ->. exists ty. split; [done|].
    destruct (split_on "[" ty); [done|]. by injection Et as -> _.
Qed.

(** X25. An OSL parameter that was built always has a [size]: [-1] for an
    array of variable length, else the [arraylen] of the record when it is
    above zero, else [None]. *)
Theorem osl_param_size (pdata build_condvis_func : pyval) (o : obj) :
  OSL.NodeDescParamOSL py cb py_repr pdata build_condvis_func = Ret o →
  ∃ varlenarray,
    json_item pdata "varlenarray" = Ret varlenarray ∧
    if truthy varlenarray then vars o "size" = Some (VInt (-1))
    else ∃ arraylen x,
      json_item pdata "arraylen" = Ret arraylen ∧ as_num arraylen = Some x ∧
      vars o "size" = Some (if num_ltb (NInt 0) x then arraylen else VNone).
Proof.
  intros H. apply osl_param_parts in H as (md & category & name & ptype & S0 & t & S &
                                           Emd & Ec & En & Et & Ev & ES & H).
  rewrite (finalize_keeps_size cb _ _ H). clear H.
  unfold OSL._set_optional_attributes in ES.
  apply bind_ret_inv in ES as (S1 & E1 & H).
  rewrite (osl_after_size_frame "size" pdata md S1 S) by
    (done || by apply (proj1 (bool_decide_eq_false _))).
  clear H. unfold OSL._set_size in E1.
  apply bind_ret_inv in E1 as (varlenarray & Ev' & E1). exists varlenarray.
  split; [done|]. destruct (truthy varlenarray).
  - injection E1 as <-. apply vars_setattr_eq.
  - apply bind_ret_inv in E1 as (arraylen & Ea & E1).
    apply bind_ret_inv in E1 as (fixed & Ef & E1). unfold py_gt in Ef.
    destruct (as_num arraylen) as [x|] eqn:Ex; [|done].
    assert (fixed = num_ltb (NInt 0) x) as -> by (by injection Ef).
    exists arraylen, x. split; [done|]. split; [done|].
    destruct (num_ltb (NInt 0) x); injection E1 as <-; apply vars_setattr_eq.
Qed.

Lemma osl_param_category pdata build_condvis_func o :
  OSL.NodeDescParamOSL py cb py_repr pdata build_condvis_func = Ret o →
  ∃ isoutput, json_item pdata "isoutput" = Ret isoutput ∧
    vars o "category" = Some (VStr (if truthy isoutput then "output" else "param")).
Proof.
  intros H. apply osl_param_parts in H as (md & category & name & ptype & S0 & t & S &
                                           Emd & Ec & En & Et & Ev & ES & H).
  assert (vars o "category" = Some category) as ->.
  { rewrite (finalize_frame cb "category") with (self := S) by
      (done || by apply (proj1 (bool_decide_eq_false _))).
    rewrite (osl_optional_frame "category" pdata md _ S) by
      (done || by apply (proj1 (bool_decide_eq_false _))).
    rewrite vars_setattr_ne by done.
    rewrite (osl_set_type_keeps "category" _ _ _ _ ltac:(done) Et).
    rewrite vars_setattr_ne by done. apply vars_setattr_eq. }
  unfold OSL._set_category in Ec. apply bind_ret_inv in Ec as (isoutput & Ei & Ec).
  exists isoutput. split; [done|]. revert Ec. by destruct (truthy isoutput); intros [= <-].
Qed.

End OSLFacts.


Section OSONode.
Variable py : builtins.
Variable cb : pyval → pyval → result (pyval * pyval).
Variable py_repr : pyval → string.
Variable os : host.
Variables (xc : dom_element → pyval → result obj) (jc : pyval → pyval → result obj).

Lemma add_osl_param_attributes st param_data st' :
  add_osl_param os (OSL.NodeDescParamOSL py cb py_repr) st param_data = Ret st' →
  attributes (self st') = attributes (self st).
Proof.
  unfold add_osl_param. intros H. apply bind_ret_inv in H as (o & Eo & H).
  apply osl_param_category in Eo as (isoutput & _ & Hc).
  cbn [alloc_obj] in H.
  apply bind_ret_inv in H as (name & En & H).
  apply bind_ret_inv in H as (member & Em & H).
  destruct member; [by injection H as <-|].
  unfold getattr in H at 1. rewrite Hc in H. cbn [bind] in H.
  destruct (truthy isoutput); cbn [eq_str] in H.
  - by injection H as <-.
  - change (str_eqb "param" "param") with true in H. cbv iota in H.
    destruct (truthy _); [|by injection H as <-].
    by apply _mark_if_textured_spec in H as [_ [-> | ->]].
Qed.

(** X26. A node built from an oso file with the class [NodeDescParamOSL]
    has no attributes: the category of its parameters is [param] or
    [output]. *)
Theorem oso_node_has_no_attributes (filepath : string) (build_condvis_func : pyval)
    (st' : state) :
  ends_with ".oso" filepath = true →
  NodeDesc_init py cb os xc (OSL.NodeDescParamOSL py cb py_repr) jc
    filepath build_condvis_func = Ret st' →
  attributes (self st') = [].
Proof.
  intros Hoso. unfold NodeDesc_init, _parse_node, parse_file.
  rewrite (ends_with_oso _ Hoso), Hoso. intros H.
  apply bind_ret_inv in H as (st & Hparse & H).
  destruct (post_parse_spec _ _ H) as (_ & _ & -> & _). clear H.
  unfold _parse_oso_file in Hparse.
  destruct (negb _); [by injection Hparse as <-|].
  apply bind_ret_inv in Hparse as (oinfo & Eo & H).
  destruct (assoc _ OSL_TO_RIS_TYPES); [|done].
  apply (foldM_rel (λ s s', attributes (self s') = attributes (self s))) in H;
    [by rewrite H | done | congruence | apply add_osl_param_attributes].
Qed.

End OSONode.


Section OSLOptional.
Variable py : builtins.
Variable cb : pyval → pyval → result (pyval * pyval).
Variable py_repr : pyval → string.

Lemma set_attr_named_fold md (attr : string) (func : bool) d l : ∀ self self',
  foldM (OSL.set_attr_named py md) self l = Ret self' →
  NoDup (l.*1) → (attr, func) ∈ l →
  vdict_get (VStr attr) md = Some d →
  ∃ val val', json_item d "default" = Ret val ∧
    (if func then to_bool py val else Ret val) = Ret val' ∧
    vars self' attr = Some val'.
Proof.
  induction l as [|[a f] l IH]; intros self self' H Hnd Hin Hd;
    [by apply elem_of_nil in Hin|].
  simpl in H. apply bind_ret_inv in H as (S1 & E1 & H).
  rewrite fmap_cons in Hnd. apply NoDup_cons in Hnd as [Hnotin Hnd]. apply elem_of_cons in Hin as [[= <- <-]|Hin].
  - unfold OSL.set_attr_named in E1. rewrite Hd in E1.
    apply bind_ret_inv in E1 as (val & Ev & E1).
    apply bind_ret_inv in E1 as (val' & Ev' & E1). injection E1 as <-.
    exists val, val'. split; [done|]. split; [done|].
    assert (Forall (λ entry, keeps attr (λ self, OSL.set_attr_named py md self entry)) l)
      as Hkeeps.
    { apply Forall_forall. intros entry Hentry. apply set_attr_named_frame.
      intros Heq. apply Hnotin. cbn [fst]. rewrite <- Heq. by apply list_elem_of_fmap_2. }
    rewrite (foldM_keeps attr _ l Hkeeps _ _ H). apply vars_setattr_eq.
  - by apply (IH S1 self').
Qed.

Lemma optional_attrs_NoDup : NoDup (optional_attrs.*1).
Proof. unfold optional_attrs. simpl. repeat (constructor; [by apply (proj1 (bool_decide_eq_false _))|]). constructor. Qed.

Lemma osl_optional_attribute_set (pdata build_condvis_func : pyval) (o : obj)
    (md : list (pyval * pyval)) (attr : string) (func : bool) (d : pyval) :
  OSL.NodeDescParamOSL py cb py_repr pdata build_condvis_func = Ret o →
  OSL.metadict_of pdata = Ret md →
  (attr, func) ∈ optional_attrs →
  vdict_get (VStr attr) md = Some d →
  ∃ val val', json_item d "default" = Ret val ∧
    (if func then to_bool py val else Ret val) = Ret val' ∧
    vars o attr = Some val'.
Proof.
  intros H Hmd Hin Hd.
  apply osl_param_parts in H as (md' & category & name & ptype & S0 & t & S &
                                 Emd & Ec & En & Et & Ev & ES & H).
  rewrite Hmd in Emd. injection Emd as <-.
  unfold OSL._set_optional_attributes in ES.
  apply bind_ret_inv in ES as (S1 & E1 & ES). apply bind_ret_inv in ES as (S2 & E2 & ES).
  apply bind_ret_inv in ES as (S3 & E3 & ES). apply bind_ret_inv in ES as (S4 & E4 & ES).
  apply bind_ret_inv in ES as (S5 & E5 & ES). apply bind_ret_inv in ES as (S6 & E6 & ES).
  apply bind_ret_inv in ES as (S7 & E7 & ES).
  destruct (set_attr_named_fold md attr func d _ _ _ E7 optional_attrs_NoDup Hin Hd)
    as (val & val' & Hval & Hval' & H7).
  exists val, val'. split; [done|]. split; [done|].
  assert (attr ∈ optional_attrs.*1) as Hattr by by apply (list_elem_of_fmap_2 fst) in Hin.
  assert (attr ≠ "vstruct" ∧ attr ≠ "conditionalVisOps" ∧ attr ≠ "trigger_params" ∧
          attr ≠ "default") as (N1 & N2 & N3 & N4).
  { repeat split; intros ->; revert Hattr; by apply (proj1 (bool_decide_eq_false _)). }
  apply (finalize_adds cb S o attr val' H); [|done..].
  clear -ES H7 N1. ret_inv; by rewrite ?vars_setattr_ne.
Qed.

(** X27. Every entry of [optional_attrs] that the metadata name becomes an
    attribute: the metadatum's default, through [to_bool] for the entries
    paired with it. *)
Theorem osl_optional_attribute (pdata build_condvis_func : pyval) (o : obj)
    (md : list (pyval * pyval)) (attr : string) (func : bool) (d : pyval) :
  OSL.NodeDescParamOSL py cb py_repr pdata build_condvis_func = Ret o →
  OSL.metadict_of pdata = Ret md →
  (attr, func) ∈ optional_attrs →
  vdict_get (VStr attr) md = Some d →
  ∃ val val', json_item d "default" = Ret val ∧
    (if func then to_bool py val else Ret val) = Ret val' ∧
    vars o attr = Some val'.
Proof. apply osl_optional_attribute_set. Qed.

(** X28. A parameter whose [lockgeom] metadatum is false is left out of the
    node: one round of the loop of [_parse_oso_file] on it leaves
    [params], [textured_params] and [attributes] as they were. *)
Theorem osl_unlocked_param_is_skipped (os : host) (st st' : state) (pdata : pyval)
    (md : list (pyval * pyval)) (d v : pyval) :
  add_osl_param os (OSL.NodeDescParamOSL py cb py_repr) st pdata = Ret st' →
  OSL.metadict_of pdata = Ret md →
  vdict_get (VStr "lockgeom") md = Some d →
  json_item d "default" = Ret v → to_bool py v = Ret (VBool false) →
  params (self st') = params (self st) ∧
  textured_params (self st') = textured_params (self st) ∧
  attributes (self st') = attributes (self st).
Proof.
  intros H Hmd Hd Hv Hb.
  pose proof (add_osl_param_attributes py cb py_repr os _ _ _ H) as Hattrs.
  split; [|split; [|done]]; revert H; unfold add_osl_param; intros H;
    apply bind_ret_inv in H as (o & Eo & H);
    (assert (vars o "lockgeom" = Some (VBool false)) as Hlock;
     [ assert (("lockgeom", true) ∈ optional_attrs) as Hin
         by (by apply (bool_decide_unpack _));
       destruct (osl_optional_attribute_set _ _ _ _ _ _ _ Eo Hmd Hin Hd)
         as (val & val' & Hval & Hval' & Ho);
       rewrite Hv in Hval; injection Hval as <-; rewrite Hb in Hval'; by injection Hval' as <-
     |]);
    cbn [alloc_obj] in H; rewrite Hlock in H; cbn [default id truthy] in H;
    ret_inv; done.
Qed.

End OSLOptional.


(** ** JSON parameters *)

Lemma str_map_app f s t : str_map f (s +:+ t) = str_map f s +:+ str_map f t.
Proof.
  induction s as [|c s IH]; [by rewrite !str_app_nil_l|].
  rewrite str_app_cons. simpl. by rewrite IH, str_app_cons.
Qed.

Lemma replace_char_absent c d s : has_char c s = false → replace_char c d s = s.
Proof.
  unfold replace_char. induction s as [|x s IH]; simpl; [done|].
  intros [Hx Hs]%orb_false_iff. rewrite Hx. by rewrite IH.
Qed.

Lemma replace_char_join c d l :
  Forall (λ s, has_char c s = false) l →
  replace_char c d (str_join (String c "") l) = str_join (String d "") l.
Proof.
  induction 1 as [|s l Hs Hl IH]; [done|]. simpl.
  destruct l as [|s' l]; [by apply replace_char_absent|].
  unfold replace_char in *. rewrite !str_map_app, IH. simpl.
  rewrite ascii_eqb_refl. f_equal. by apply (replace_char_absent c d).
Qed.

(** X29. [_postprocess_page]: segments joined by slashes become the same
    segments joined by the separator; without a page, or with an empty one
    or [None], the object is returned as it is. *)
Theorem json_page_path (self : obj) :
  (∀ segments,
     vars self "page" = Some (VStr (str_join "/" segments)) →
     Forall (λ s, has_char "/" s = false) segments →
     str_join "/" segments ≠ "" →
     _postprocess_page self = Ret (setattr self "page" (VStr (str_join "|" segments)))) ∧
  (vars self "page" = None ∨ vars self "page" = Some (VStr "") ∨
   vars self "page" = Some VNone → _postprocess_page self = Ret self).
Proof.
  unfold _postprocess_page. split.
  - intros segments -> Hseg Hne. cbn [default id truthy].
    rewrite (str_eqb_ne _ _ Hne). cbn [negb as_str bind].
    by rewrite (replace_char_join "/" PAGE_SEP).
  - by intros [->|[->| ->]].
Qed.

(** X30. [_postprocess_options] reads off the first token whether the
    options are pairs: when it has no colon, every token is mapped to
    itself; when it has one, a later token without a colon is a
    [ValueError]. *)
Theorem json_options_first_token (py : builtins) (self : obj) (text first : string)
    (rest : list string) :
  vars self "options" = Some (VStr text) →
  split_on "|" text = first :: rest →
  (has_char ":" first = false →
     ∃ d, _postprocess_options py self = Ret (setattr self "options" (VDict d)) ∧
       ∀ tok, assoc tok d =
         if bool_decide (tok ∈ first :: rest) then Some (VStr tok) else None) ∧
  (has_char ":" first = true →
     ∀ tok, tok ∈ rest → has_char ":" tok = false →
       raises ValueError (_postprocess_options py self)).
Proof.
  intros Hopt Hsplit. unfold _postprocess_options. rewrite Hopt. cbn zeta.
  rewrite Hsplit. split.
  - intros ->. eexists. split; [done|]. intros tok. by rewrite options_plain_fold.
  - intros -> tok Hin Hno.
    match goal with |- context [foldM ?f _ _] => set (F := f) end.
    assert (raises ValueError (foldM F [] (first :: rest))) as [msg ->]; [|by eexists].
    apply (foldM_raises _ _ _ tok); [by right| |].
    + intros s. unfold F. apply rsplit1_none in Hno. rewrite Hno. by eexists.
    + intros s b _. unfold F. destruct (rsplit1 ":" b) as [[k v]|]; [left | right; by eexists].
      destruct (safe_value_eval_returns py (VStr v)) as [x ->]. by eexists.
Qed.

(** ** The further properties at work *)

Lemma set_page_path_witness :
  ∃ self', _set_page aniso_param no_attrs = Ret self' ∧
           vars self' "page" = Some (VStr "Specular|Advanced").
Proof.
  apply (set_page_path aniso_param no_attrs
           [XmlTag "page" [("name", "Advanced")]; XmlTag "page" [("name", "Specular")]]
           (XmlTag "args" [("format", "1.0")]) []);
    [reflexivity | by repeat constructor | done].
Defined.

Lemma set_page_no_root_witness : raises AttributeError (_set_page stray_param no_attrs).
Proof. apply (set_page_no_root stray_param no_attrs). by repeat constructor. Defined.

Lemma options_of_missing_colon_witness : raises IndexError (options_of "a:1|b").
Proof.
  apply (options_of_missing_colon "a:1|b" "b");
    [reflexivity | vm_compute; repeat constructor | reflexivity].
Defined.

Lemma options_of_plain_witness :
  ∃ d, options_of "x|y" = Ret d ∧
    ∀ tok, assoc tok d =
      if bool_decide (tok ∈ split_on "|" "x|y") then Some (VStr tok) else None.
Proof. apply (options_of_plain "x|y"). reflexivity. Defined.

Lemma options_of_pairs_witness :
  ∃ d, options_of "one:1|two:2|one:3" = Ret d ∧
       ∀ k, assoc k d = VStr <$> assoc k (rev [("one", "1"); ("two", "2"); ("one", "3")]).
Proof.
  apply (options_of_pairs "one:1|two:2|one:3" [("one", "1"); ("two", "2"); ("one", "3")]).
  - reflexivity.
  - vm_compute. repeat constructor.
Defined.

Lemma is_visop_spec_witness :
  is_visop "conditionalVisOp" = true ∧ is_visop "Op" = false.
Proof.
  split.
  - apply (proj2 (is_visop_spec "conditionalVisOp")).
    exists "conditionalVis", "Op", "". repeat split; [done | | by left].
    unfold VISOP_SUFFIXES. rewrite !elem_of_cons. tauto.
  - reflexivity.
Defined.


Lemma finalize_only_adds_witness : vars soft_obj_final "min" = Some (VInt 0).
Proof.
  apply (finalize_only_adds sample_condvis soft_obj soft_obj_final "min" (VInt 0));
    [by vm_compute | reflexivity | done | done | done].
Defined.

Lemma finalize_soft_bounds_witness :
  vars soft_obj_final "slidermax" = Some (VFloat 1) ∧
  vars soft_obj_final "slidermin" = None.
Proof.
  destruct (finalize_soft_bounds sample_condvis soft_obj soft_obj_final "float"
              (VFloat 0.5) (NFloat 0.5)) as (H & _);
    [by vm_compute | reflexivity | by left | reflexivity | reflexivity | reflexivity
    | reflexivity | ].
  apply H. by eexists.
Defined.

Lemma finalize_bounds_type_error_witness :
  raises TypeError (finalize sample_condvis array_min_obj).
Proof.
  apply (finalize_bounds_type_error sample_condvis array_min_obj "float"
           (VList [VFloat 0.5; VFloat 0.5]));
    [reflexivity | by left | reflexivity | done | reflexivity | reflexivity | reflexivity
    | left; by eexists].
Defined.

(** An array parameter of an args file with a [min] and no [max] is not
    built. *)
Example array_with_min_raises :
  raises TypeError (NodeDescParamXML sample_builtins sample_condvis weights_min_param VNone).
Proof. vm_compute. by eexists. Qed.

Lemma xml_param_identity_witness :
  vars weights_obj "_name" = Some (VStr "weights") ∧
  (∃ t, _set_type weights_param = Some t ∧ t ∈ VALID_TYPES ∧
        vars weights_obj "type" = Some (VStr t)) ∧
  vars weights_obj "build_condvis_func" = Some VNone ∧
  vars weights_obj "has_ui_struct" = Some (VBool false) ∧
  vars weights_obj "conditionalVisTrigger" = Some (VBool false) ∧
  vars weights_obj "uiStruct" = None.
Proof.
  apply (xml_param_identity sample_builtins sample_condvis weights_param VNone weights_obj).
  by vm_compute.
Defined.

Lemma xml_param_widget_witness :
  vars weights_obj "widget" = Some (VStr (widget_of (element weights_param))) ∧
  widget_of (element weights_param) ≠ "dynamicArray".
Proof.
  apply (xml_param_widget sample_builtins sample_condvis weights_param VNone weights_obj).
  by vm_compute.
Defined.

Lemma format_help_closes_witness :
  (∃ help', vars help_obj_final "help" = Some (VStr help') ∧
            ends_with (attr_type_str sample_builtins help_obj) help' = true ∧
            starts_with "Gain of the signal" help' = true) ∧
  _format_help sample_builtins help_obj_final = Ret help_obj_final.
Proof.
  apply (format_help_closes sample_builtins help_obj help_obj_final "Gain of the signal");
    [by vm_compute | reflexivity].
Defined.

Lemma xml_param_default_of_type_witness :
  ∃ t, _set_type foo_param = Some t ∧
       vars foo_obj "default" = Some (default VNone (assoc t DEFAULT_VALUE)).
Proof.
  apply (xml_param_default_of_type sample_builtins sample_condvis foo_param VNone foo_obj);
    [by vm_compute | reflexivity].
Defined.

Lemma array_default_tuples_witness :
  array_default sample_builtins "color" ["0"; "0.5"; "1"] =
    Ret [VTuple [VFloat 0; VFloat 0.5; VFloat 1]] ∧
  ∀ tail, 0 < length tail < 3 →
    Forall (λ v, returns (str_to_num sample_builtins "color" v)) tail →
    raises IndexError (array_default sample_builtins "color" (["0"; "0.5"; "1"] ++ tail)).
Proof.
  apply (array_default_tuples sample_builtins "color" 3 [["0"; "0.5"; "1"]]
           [[VFloat 0; VFloat 0.5; VFloat 1]]);
    [reflexivity | lia | by repeat constructor | by repeat constructor].
Defined.

(** In [textured_state] the two parameters with a preset among their
    options are textured; the second, the [notes] string, is no longer in
    [params]. *)
Example textured_facts :
  NodeDesc_init sample_builtins sample_condvis textured_host
    sample_xmlparamclass no_paramclass no_paramclass "/shaders/PxrTex.args" VNone =
    Ret textured_state ∧
  textured_params (self textured_state) = [0; 1] ∧
  params (self textured_state) = [0; 2] ∧
  names_of textured_state [0; 1; 2] = Some <$> [VStr "filename"; VStr "notes"; VStr "gain"].
Proof. by vm_compute. Qed.

Lemma textured_params_are_params_witness :
  ∃ st, parse_file sample_builtins sample_condvis textured_host
          sample_xmlparamclass no_paramclass no_paramclass "/shaders/PxrTex.args"
          (NodeDesc_new VNone) = Ret st ∧
    sublist (textured_params (self textured_state)) (params (self st)) ∧
    ∀ p, p ∈ textured_params (self textured_state) →
      p ∈ params (self textured_state) ∨ notes_string (deref textured_state p) = true.
Proof.
  apply (textured_params_are_params sample_builtins sample_condvis
           textured_host sample_xmlparamclass no_paramclass
           no_paramclass "/shaders/PxrTex.args" VNone textured_state).
  vm_compute. reflexivity.
Defined.

Lemma args_node_identity_witness :
  _name (self demo_state) = VStr (stem "PxrDemo.args") ∧
  rman_node_type (self demo_state) =
    VStr (match doc_elements demo_args "metashader" with
          | m :: _ => getAttribute (el_tag m) "shader"
          | [] => stem "PxrDemo.args"
          end) ∧
  (∃ first rest tag tags,
     shader_types demo_args = first :: rest ∧ sub_elements first "tag" = tag :: tags ∧
     node_type (self demo_state) = VStr (getAttribute (el_tag tag) "value")) ∧
  _parsed_data (self demo_state) = XmlData demo_args ∧
  _parsed_data_type (self demo_state) = VStr "xml".
Proof.
  apply (args_node_identity sample_builtins sample_condvis
           (host_with demo_args "PxrDemo.args") sample_xmlparamclass no_paramclass
           no_paramclass "/shaders/PxrDemo.args" VCondvisFunc demo_args demo_state);
    [reflexivity | reflexivity | vm_compute; reflexivity].
Defined.

Lemma args_without_shader_type_witness :
  raises NodeDescError
    (NodeDesc_init sample_builtins sample_condvis (host_with untyped_args "Untyped.args")
       sample_xmlparamclass no_paramclass no_paramclass "/shaders/Untyped.args" VNone).
Proof.
  destruct (args_without_shader_type sample_builtins sample_condvis
              (host_with untyped_args "Untyped.args") sample_xmlparamclass no_paramclass
              no_paramclass "/shaders/Untyped.args" VNone untyped_args) as [H _];
    [reflexivity | reflexivity |].
  rewrite H by reflexivity. by eexists.
Defined.

Lemma unread_file_gives_empty_node_witness :
  ∃ st, NodeDesc_init sample_builtins sample_condvis (host_with demo_args "readme.txt")
          sample_xmlparamclass no_paramclass no_paramclass "/shaders/readme.txt" VNone =
          Ret st ∧
        empty_node VNone st.
Proof.
  apply (unread_file_gives_empty_node sample_builtins sample_condvis
           (host_with demo_args "readme.txt") sample_xmlparamclass no_paramclass
           no_paramclass "/shaders/readme.txt" VNone).
  right. right. by vm_compute.
Defined.

Lemma json_file_requirements_witness :
  raises NodeDescIgnore
    (NodeDesc_init sample_builtins sample_condvis
       (json_host (VDict [("$schema", VStr "http://json-schema.org/schema#")]))
       sample_xmlparamclass no_paramclass no_paramclass "/nodes/schema.json" VNone) ∧
  raises KeyError
    (NodeDesc_init sample_builtins sample_condvis
       (json_host (VDict [("$schema", VStr "rmanNodeSchema.json"); ("name", VStr "PxrDemo")]))
       sample_xmlparamclass no_paramclass no_paramclass "/nodes/PxrDemo.json" VNone).
Proof.
  split.
  - apply (json_file_requirements sample_builtins sample_condvis
             (json_host (VDict [("$schema", VStr "http://json-schema.org/schema#")]))
             sample_xmlparamclass no_paramclass no_paramclass "/nodes/schema.json" VNone
             [("$schema", VStr "http://json-schema.org/schema#")]);
      reflexivity.
  - apply (proj2 (json_file_requirements sample_builtins sample_condvis
             (json_host (VDict [("$schema", VStr "rmanNodeSchema.json");
                                ("name", VStr "PxrDemo")]))
             sample_xmlparamclass no_paramclass no_paramclass "/nodes/PxrDemo.json" VNone
             [("$schema", VStr "rmanNodeSchema.json"); ("name", VStr "PxrDemo")]
             eq_refl eq_refl) "rmanNodeSchema.json" "node_type");
      [reflexivity | reflexivity | | reflexivity].
    rewrite !elem_of_cons. tauto.
Defined.

Lemma trigger_parameters_are_tagged_witness :
  ∃ st, parse_file sample_builtins sample_condvis (host_with demo_args "PxrDemo.args")
          sample_xmlparamclass no_paramclass no_paramclass "/shaders/PxrDemo.args"
          (NodeDesc_new VCondvisFunc) = Ret st ∧
    ∀ p name, p ∈ params (self demo_state) →
      vars (deref demo_state p) "_name" = Some (VStr name) →
      vars (deref demo_state p) "conditionalVisTrigger" =
        if py_in (VStr name) [VStr "enable"; VStr "mode"; VStr "mode"]
        then Some (VBool true)
        else vars (deref st p) "conditionalVisTrigger".
Proof.
  apply (trigger_parameters_are_tagged sample_builtins sample_condvis
           (host_with demo_args "PxrDemo.args") sample_xmlparamclass no_paramclass
           no_paramclass "/shaders/PxrDemo.args" VCondvisFunc demo_state
           [VStr "enable"; VStr "mode"; VStr "mode"]);
    [vm_compute; reflexivity | vm_compute; reflexivity
    | repeat constructor; by eexists].
Defined.

Lemma get_param_desc_last_wins_witness :
  ∃ st', get_param_desc "notes" demo_state = Ret (Some 5, st') ∧
         heap st' = heap demo_state ∧ params (self st') = params (self demo_state) ∧
         ∀ other, get_param_desc other st' =
           Ret (last_named other (params (self demo_state))
                  ["enable"; "gain"; "bias"; "mode"; "notes"], st').
Proof.
  apply (get_param_desc_last_wins "notes" demo_state
           ["enable"; "gain"; "bias"; "mode"; "notes"]);
    [reflexivity | by repeat constructor].
Defined.

Lemma node_help_url_roots_witness :
  node_help_url sample_builtins (VStr "26") (Some "file://docs|.html") (self demo_state) =
    "file://docs/REN26/PxrDemo.html".
Proof.
  destruct (node_help_url_roots sample_builtins (VStr "26") (self demo_state))
    as (_ & _ & H & _).
  apply (H "file://docs" ".html"); reflexivity.
Defined.

Lemma osl_param_type_witness :
  ∃ isstruct t,
    json_item osl_gain "isstruct" = Ret isstruct ∧
    vars osl_gain_obj "type" = Some (VStr t) ∧ t ∈ VALID_TYPES ∧
    if truthy isstruct then
      t = "struct" ∧
      ∃ structname, json_item osl_gain "structname" = Ret structname ∧
                    vars osl_gain_obj "struct_name" = Some structname
    else
      ∃ type, json_item osl_gain "type" = Ret (VStr type) ∧
              head (split_on "[" type) = Some t.
Proof.
  apply (osl_param_type sample_builtins sample_condvis (λ _, "") osl_gain VNone osl_gain_obj).
  by vm_compute.
Defined.

Lemma osl_param_size_witness :
  ∃ varlenarray,
    json_item osl_gain "varlenarray" = Ret varlenarray ∧
    if truthy varlenarray then vars osl_gain_obj "size" = Some (VInt (-1))
    else ∃ arraylen x,
      json_item osl_gain "arraylen" = Ret arraylen ∧ as_num arraylen = Some x ∧
      vars osl_gain_obj "size" = Some (if num_ltb (NInt 0) x then arraylen else VNone).
Proof.
  apply (osl_param_size sample_builtins sample_condvis (λ _, "") osl_gain VNone osl_gain_obj).
  by vm_compute.
Defined.

Lemma oso_node_has_no_attributes_witness : attributes (self oso_state) = [].
Proof.
  apply (oso_node_has_no_attributes sample_builtins sample_condvis (λ _, "") oso_host
           sample_xmlparamclass no_paramclass "/shaders/PxrGain.oso" VNone oso_state);
    [reflexivity | vm_compute; reflexivity].
Defined.

Lemma osl_optional_attribute_witness :
  ∃ val val',
    json_item (VDict [("name", VStr "label"); ("type", VStr "string");
                      ("default", VStr "Gain")]) "default" = Ret val ∧
    Ret val = Ret val' ∧ vars osl_gain_obj "label" = Some val'.
Proof.
  apply (osl_optional_attribute sample_builtins sample_condvis (λ _, "") osl_gain VNone
           osl_gain_obj osl_gain_metadict "label" false);
    [by vm_compute | by vm_compute | | reflexivity].
  unfold optional_attrs. rewrite !elem_of_cons. tauto.
Defined.

Lemma osl_unlocked_param_is_skipped_witness :
  params (self gain_skipped_state) = params (self (NodeDesc_new VNone)) ∧
  textured_params (self gain_skipped_state) = textured_params (self (NodeDesc_new VNone)) ∧
  attributes (self gain_skipped_state) = attributes (self (NodeDesc_new VNone)).
Proof.
  apply (osl_unlocked_param_is_skipped sample_builtins sample_condvis (λ _, "") oso_host
           (NodeDesc_new VNone) gain_skipped_state osl_gain osl_gain_metadict
           (VDict [("name", VStr "lockgeom"); ("type", VStr "int"); ("default", VInt 0)])
           (VInt 0));
    by vm_compute.
Defined.

Lemma json_page_path_witness :
  _postprocess_page (setattr no_attrs "page" (VStr "Specular/Advanced")) =
    Ret (setattr (setattr no_attrs "page" (VStr "Specular/Advanced"))
           "page" (VStr "Specular|Advanced")).
Proof.
  apply (proj1 (json_page_path (setattr no_attrs "page" (VStr "Specular/Advanced")))
           ["Specular"; "Advanced"]);
    [reflexivity | by repeat constructor | done].
Defined.

Lemma json_options_first_token_witness :
  ∃ d, _postprocess_options sample_builtins (setattr no_attrs "options" (VStr "a|b:1")) =
         Ret (setattr (setattr no_attrs "options" (VStr "a|b:1")) "options" (VDict d)) ∧
    ∀ tok, assoc tok d =
      if bool_decide (tok ∈ ["a"; "b:1"]) then Some (VStr tok) else None.
Proof.
  destruct (json_options_first_token sample_builtins
              (setattr no_attrs "options" (VStr "a|b:1")) "a|b:1" "a" ["b:1"])
    as [H _]; [reflexivity | reflexivity |].
  apply H. reflexivity.
Defined.
